(** * CropOnMarkers: marker localisation of OMRChecker

    A shallow embedding of [src/processors/CropOnMarkers.py].

    Conventions of the embedding.
    - Correlation scores are IEEE floats in the source: [np.float32] where
      they come from [res.max()], Python floats where they come from
      [cv2.minMaxLoc] or from the options.  A score is modelled by the
      rational ([Q]) it stands for.  Two scores of the same kind are compared
      as the rationals they are.  Where numpy meets a Python float beside a
      [np.float32] it converts the Python float first ([weak]), and it rounds
      what it computes in [np.float32] ([float32]); both are operations of the
      class [Cv], about which nothing is assumed.  The sums of scores and the
      average of four scores are taken exact.
    - A scale factor [s = float(r0 * 1 / 100)] is represented by its integer
      percent [r0]; [s == 0.0] holds exactly when [r0 = 0].
    - Pixel coordinates and sizes are integers ([Z]).
    - The calls into OpenCV / numpy / ImageUtils that produce images are the
      operations of the class [Cv].  A resize to an empty size and a match of
      a template against a smaller image are refused by OpenCV, which raises
      [cv2.error]; the class says of each such call whether it is refused.
      The other calls are taken to succeed on the arguments the processor
      gives them.  The decision logic around them is translated from the
      source.
    - A Python string is the sequence of the bytes of its UTF-8 encoding.
    - A response array (the result of [cv2.matchTemplate]) is never empty; it
      is described by the index of its last row and column and by its
      entries. *)

From Stdlib Require Import String Ascii DecimalString ZArith QArith Qabs Qround List Sorted.
From Stdlib Require Import Bool Lia Lqa.
Import ListNotations.
Local Open Scope string_scope.
Local Open Scope Z_scope.
Local Open Scope list_scope.

(** ** Comparisons on scores *)

Definition Qlt_bool (a b : Q) : bool := negb (Qle_bool b a).

(** Python truthiness of a number. *)
Definition truthy (a : Q) : bool := negb (Qeq_bool a 0).

(** ** Outcomes: a Python call returns or raises *)

Inductive exn : Type :=
| ZeroDivisionError
| SystemExit (code : Z)
| LibraryError.             (* raised inside OpenCV, numpy or ImageUtils:
                               cv2.error where OpenCV refuses its arguments *)

Inductive outcome (A : Type) : Type :=
| Returns (a : A)
| Raises (e : exn).
Arguments Returns {A} a.
Arguments Raises {A} e.

Definition bind {A B : Type} (m : outcome A) (k : A -> outcome B) : outcome B :=
  match m with
  | Returns a => k a
  | Raises e => Raises e
  end.

Notation "x <- m ;; k" := (bind m (fun x => k))
  (at level 61, m at next level, right associativity).
Notation "' pat <- m ;; k" := (bind m (fun x => match x with pat => k end))
  (at level 61, pat pattern, m at next level, right associativity).

(** Python's [a // b] on integers. *)
Definition floordiv (a b : Z) : outcome Z :=
  if b =? 0 then Raises ZeroDivisionError else Returns (a / b).

(** ** numpy's [arange] on Python integers *)

Definition range (n : nat) : list Z := map Z.of_nat (seq 0 n).

(** Number of elements of [np.arange(start, stop, step)] for [step <> 0]:
    [ceil((stop - start) / step)], or none when that is not positive. *)
Definition arange_len (start stop step : Z) : nat :=
  if 0 <? step then Z.to_nat ((stop - start + step - 1) / step)
  else Z.to_nat ((start - stop + (- step) - 1) / (- step)).

(** [np.arange(start, stop, step)]: the length is computed by a division by
    [step], which raises on a zero step. *)
Definition arange (start stop step : Z) : outcome (list Z) :=
  if step =? 0 then Raises ZeroDivisionError
  else Returns (map (fun i => start + i * step) (range (arange_len start stop step))).

(** ** Response arrays *)

Record response : Type := mkResponse {
  last_row : nat;            (* res.shape[0] - 1 *)
  last_col : nat;            (* res.shape[1] - 1 *)
  value_at : Z -> Z -> Q     (* res[y, x] *)
}.

(** The locations [(x, y)] of an array in row-major order. *)
Definition locations (res : response) : list (Z * Z) :=
  flat_map (fun y => map (fun x => (x, y)) (range (S (last_col res))))
           (range (S (last_row res))).

Definition value_of (res : response) (loc : Z * Z) : Q :=
  value_at res (snd loc) (fst loc).

Definition better (res : response) (best : Q * (Z * Z)) (loc : Z * Z) : Q * (Z * Z) :=
  if Qlt_bool (fst best) (value_of res loc) then (value_of res loc, loc) else best.

(** [cv2.minMaxLoc(res)], restricted to [(max_val, max_loc)]: the maximum
    and its first location in row-major order. *)
Definition minMaxLoc (res : response) : Q * (Z * Z) :=
  fold_left (better res) (locations res) (value_at res 0 0, (0, 0)).

(** [res.max()] *)
Definition res_max (res : response) : Q := fst (minMaxLoc res).

(** [np.argwhere(res == v)], as locations [(x, y)] (the source swaps the
    [row, col] pair it gets). *)
Definition argwhere (res : response) (v : Q) : list (Z * Z) :=
  filter (fun loc => Qeq_bool (value_of res loc) v) (locations res).

(** [res[y0 : y1 + 1, x0 : x1 + 1] = 0] for bounds inside the array. *)
Definition zero_window (res : response) (x0 x1 y0 y1 : Z) : response :=
  mkResponse (last_row res) (last_col res)
    (fun y x =>
       if (y0 <=? y) && (y <=? y1) && (x0 <=? x) && (x <=? x1) then 0%Q
       else value_at res y x).

(** ** Strings *)

Definition lower_ascii (c : ascii) : ascii :=
  let n := nat_of_ascii c in
  if (65 <=? n)%nat && (n <=? 90)%nat then ascii_of_nat (n + 32) else c.

(** [str.lower()] on ASCII text: only the letters A to Z change. *)
Fixpoint ascii_lower (s : string) : string :=
  match s with
  | EmptyString => EmptyString
  | String c s' => String (lower_ascii c) (ascii_lower s')
  end.

(** The text has no character outside ASCII. *)
Fixpoint is_ascii (s : string) : bool :=
  match s with
  | EmptyString => true
  | String c s' => (nat_of_ascii c <? 128)%nat && is_ascii s'
  end.

(** [s in {...}] for a set literal of strings. *)
Definition in_set (s : string) (l : list string) : bool := existsb (String.eqb s) l.

(** ** The environment of the module *)

Inductive colour : Type :=
| MARKER_RECTANGLE_COLOR
| ERODE_RECT_COLOR
| NORMAL_RECT_COLOR.

(** The operations of OpenCV, numpy, [ImageUtils] and the interpreter the
    processor calls, and the constants of
    [src/constants/image_processing.py] it reads (all outside the sources at
    hand). *)
Class Cv : Type := {
  ndarray : Type;                          (* numpy arrays holding images *)
  (* img.shape[:2], as (height, width) *)
  shape : ndarray -> Z * Z;
  (* a Python number as numpy takes it beside a np.float32: the nearest
     float32 under NumPy 2, the number itself under NumPy 1 *)
  weak : Q -> Q;
  (* the np.float32 nearest to the exact result of an operation on
     np.float32 operands *)
  float32 : Q -> Q;
  (* str.lower() on text with characters outside ASCII *)
  str_lower : string -> string;
  (* ImageUtils.resize_util(img, processing_width / int(ratio)) raises *)
  resize_util_refused : ndarray -> Z -> Z -> bool;
  (* ImageUtils.resize_util_h(img, u_height=h) raises: cv2.resize refuses
     an empty size *)
  resize_util_h_refused : ndarray -> Z -> bool;
  (* cv2.matchTemplate(img, templ, cv2.TM_CCOEFF_NORMED) raises: the
     template is larger than the image *)
  matchTemplate_refused : ndarray -> ndarray -> bool;
  (* ImageUtils.normalize_util(img) *)
  normalize_util : ndarray -> ndarray;
  (* cv2.erode(img, kernel=np.ones(EROSION_PARAMS["kernel_size"]),
               iterations=EROSION_PARAMS["iterations"]) *)
  erode : ndarray -> ndarray;
  (* a - b *)
  subtract : ndarray -> ndarray -> ndarray;
  (* cv2.GaussianBlur(img, DEFAULT_GAUSSIAN_BLUR_PARAMS_MARKER...) *)
  GaussianBlur : ndarray -> ndarray;
  (* cv2.normalize(img, None, alpha, beta, norm_type=cv2.NORM_MINMAX) *)
  normalize : ndarray -> ndarray;
  (* ImageUtils.resize_util(img, processing_width / int(ratio)) *)
  resize_util : ndarray -> Z -> Z -> ndarray;
  (* ImageUtils.resize_util_h(img, u_height=h) *)
  resize_util_h : ndarray -> Z -> ndarray;
  (* int(h * s) for the scale s = float(r0 * 1 / 100) *)
  scaled_height : Z -> Z -> Z;
  (* img[y0:y1, x0:x1] *)
  slice : ndarray -> Z -> Z -> Z -> Z -> ndarray;
  (* img[:, midw : midw + 2] = WHITE; img[midh : midh + 2, :] = WHITE *)
  draw_quadlines : ndarray -> Z -> Z -> ndarray;
  (* cv2.matchTemplate(img, templ, cv2.TM_CCOEFF_NORMED) *)
  matchTemplate : ndarray -> ndarray -> response;
  (* cv2.rectangle(img, pt1, pt2, color, thickness) *)
  rectangle : ndarray -> Z * Z -> Z * Z -> colour -> Z -> ndarray;
  (* ImageUtils.four_point_transform(img, np.array(centres)) *)
  four_point_transform : ndarray -> list (Q * Q) -> ndarray;
  (* QUADRANT_DIVISION["height_factor"], QUADRANT_DIVISION["width_factor"] *)
  height_factor : Z;
  width_factor : Z;
  DEFAULT_LINE_WIDTH : Z
}.

(** ** Configuration *)

(** The marker options of the template ([self.options]); an absent key is
    [None]. *)
Record marker_options : Type := {
  opt_min_matching_threshold : option Q;
  opt_max_matching_variation : option Q;
  opt_marker_rescale_range : option (Z * Z);
  opt_marker_rescale_steps : option Z;
  opt_apply_erode_subtract : option bool;
  opt_searchMode : option string;
  opt_globalSearch : bool;                 (* truth of marker_ops.get("globalSearch") *)
  opt_sheetToMarkerWidthRatio : option Z
}.

(** The part of [self.tuning_config] the processor reads. *)
Record tuning_config : Type := {
  show_image_level : Z;                    (* config.outputs.show_image_level *)
  processing_width : Z                     (* config.dimensions.processing_width *)
}.

Definition get {A : Type} (o : option A) (default : A) : A :=
  match o with
  | Some a => a
  | None => default
  end.

Section Processor.
Context {cv : Cv}.

(** The fields of a [CropOnMarkers] instance. *)
Record CropOnMarkers : Type := {
  tuning : tuning_config;
  min_matching_threshold : Q;
  max_matching_variation : Q;
  marker_rescale_range : Z * Z;
  marker_rescale_steps : Z;
  apply_erode_subtract : bool;
  search_mode : string;
  marker : ndarray
}.

(** What a call leaves behind besides its result. *)
Inductive event : Type :=
| LogWarning (msg : string)
| LogError (msg : string)
| LogInfo (msg : string)
| ShowImage (title : string)               (* InteractionUtils.show *)
| ThresholdCircle (avg_t : Q)              (* self.threshold_circles.append *)
| Transform (img : ndarray) (centres : list (Q * Q))
                                           (* ImageUtils.four_point_transform *)
| AppendSaveImg (img : ndarray).             (* image_instance_ops.append_save_img *)

(** What is found at [self.marker_path]: no file, a file that [cv2.imread]
    cannot read as an image (it gives [None] then), or an image. *)
Inductive marker_source : Type :=
| NoFile
| NotAnImage
| ImageFile (img : ndarray).

(** [str(...).lower()] *)
Definition lower (s : string) : string :=
  if is_ascii s then ascii_lower s else str_lower s.

(** [load_marker]: [marker_file] is what is found at [self.marker_path].
    The quotient [processing_width / int(ratio)] is computed before
    [resize_util] is called; on [None], the result of [cv2.imread] for a
    file that is no image, [resize_util] and [cv2.GaussianBlur] raise. *)
Definition load_marker (flag : bool) (marker_ops : marker_options)
    (config : tuning_config) (marker_file : marker_source) : outcome ndarray :=
  match marker_file with
  | NoFile => Raises (SystemExit 31)
  | found =>
      marker <-
        match opt_sheetToMarkerWidthRatio marker_ops with
        | Some ratio =>
            if ratio =? 0 then Raises ZeroDivisionError
            else
              match found with
              | ImageFile marker =>
                  if resize_util_refused marker (processing_width config) ratio
                  then Raises LibraryError
                  else Returns (resize_util marker (processing_width config) ratio)
              | _ => Raises LibraryError
              end
        | None =>
            match found with
            | ImageFile marker => Returns marker
            | _ => Raises LibraryError
            end
        end ;;
      let marker := GaussianBlur marker in
      let marker := normalize marker in
      let marker := if flag then subtract marker (erode marker) else marker in
      Returns marker
  end.

(** The options with their defaults, around a loaded marker. *)
Definition with_defaults (marker_ops : marker_options) (config : tuning_config)
    (m : ndarray) : CropOnMarkers := {|
  tuning := config;
  min_matching_threshold := get (opt_min_matching_threshold marker_ops) (3 # 10);
  max_matching_variation := get (opt_max_matching_variation marker_ops) (41 # 100);
  marker_rescale_range := get (opt_marker_rescale_range marker_ops) (35, 100);
  marker_rescale_steps := get (opt_marker_rescale_steps marker_ops) 10;
  apply_erode_subtract := get (opt_apply_erode_subtract marker_ops) true;
  search_mode :=
    lower (get (opt_searchMode marker_ops)
               (if opt_globalSearch marker_ops then "global" else "quadrants"));
  marker := m
|}.

Definition __init__ (marker_ops : marker_options) (config : tuning_config)
    (marker_file : marker_source) : outcome CropOnMarkers :=
  m <- load_marker (get (opt_apply_erode_subtract marker_ops) true)
                   marker_ops config marker_file ;;
  Returns (with_defaults marker_ops config m).

(** [self.search_mode in {"global", "full", "all"}] *)
Definition in_global (self : CropOnMarkers) : bool :=
  in_set (search_mode self) ["global"; "full"; "all"]%string.

(** [self.search_mode in {"auto", "fallback"}] *)
Definition in_fallback (self : CropOnMarkers) : bool :=
  in_set (search_mode self) ["auto"; "fallback"]%string.

Definition show_if (b : bool) (title : string) : list event :=
  if b then [ShowImage title] else [].

(** ** [getBestMatch] *)

Definition descent_per_step (self : CropOnMarkers) : outcome Z :=
  floordiv (snd (marker_rescale_range self) - fst (marker_rescale_range self))
           (marker_rescale_steps self).

(** The percents [r0] the loop of [getBestMatch] runs over. *)
Definition scan_order (self : CropOnMarkers) : outcome (list Z) :=
  d <- descent_per_step self ;;
  arange (snd (marker_rescale_range self)) (fst (marker_rescale_range self)) (-1 * d).

Definition rescaled_marker (self : CropOnMarkers) (r0 : Z) : ndarray :=
  resize_util_h (marker self) (scaled_height (fst (shape (marker self))) r0).

(** The response of the prepared image to the marker at scale [r0]. *)
Definition response_at (self : CropOnMarkers) (image_eroded_sub : ndarray) (r0 : Z) : response :=
  matchTemplate image_eroded_sub (rescaled_marker self r0).

(** [max_t] at scale [r0]. *)
Definition max_at (self : CropOnMarkers) (image_eroded_sub : ndarray) (r0 : Z) : Q :=
  res_max (response_at self image_eroded_sub r0).

(** One turn of the loop on the state [(res, best_scale, all_max_t)]. *)
Definition try_scale (self : CropOnMarkers) (image_eroded_sub : ndarray)
    (st : option response * option Z * Q) (r0 : Z) : option response * option Z * Q :=
  let '(res, best_scale, all_max_t) := st in
  if r0 =? 0 then st
  else
    let res := response_at self image_eroded_sub r0 in
    let max_t := res_max res in
    if Qlt_bool all_max_t max_t then (Some res, Some r0, max_t)
    else (Some res, best_scale, all_max_t).

(** The scales for which the marker is matched against the image. *)
Definition evaluated (scales : list Z) : list Z :=
  filter (fun r0 => negb (r0 =? 0)) scales.

(** OpenCV refuses the marker at scale [r0]: the resize of the marker or the
    match of the resized marker against the image raises. *)
Definition refused (self : CropOnMarkers) (image_eroded_sub : ndarray) (r0 : Z) : bool :=
  resize_util_h_refused (marker self) (scaled_height (fst (shape (marker self))) r0)
  || matchTemplate_refused image_eroded_sub (rescaled_marker self r0).

(** [all_max_t < self.min_matching_threshold] after the loop: [all_max_t]
    is still the integer 0 when no scale became the best one, and the
    [np.float32] maximum of the best scale otherwise. *)
Definition too_low (self : CropOnMarkers) (best_scale : option Z) (all_max_t : Q) : bool :=
  match best_scale with
  | None => Qlt_bool all_max_t (min_matching_threshold self)
  | Some _ => Qlt_bool all_max_t (weak (min_matching_threshold self))
  end.

(** The loop raises at the first evaluated scale that OpenCV refuses;
    nothing is logged before the loop ends. *)
Definition getBestMatch (self : CropOnMarkers) (image_eroded_sub : ndarray)
    : outcome (option Z * Q * list event) :=
  scales <- scan_order self ;;
  if existsb (refused self image_eroded_sub) (evaluated scales) then Raises LibraryError
  else
    let '(_, best_scale, all_max_t) :=
      fold_left (try_scale self image_eroded_sub) scales (None, None, 0%Q) in
    Returns (best_scale, all_max_t,
             (if too_low self best_scale all_max_t
              then LogWarning "Template matching too low! Consider rechecking preProcessors applied before this."
                   :: show_if (1 <=? show_image_level (tuning self)) "res"
              else [])
             ++ match best_scale with
                | None => [LogWarning "No matchings for given scaleRange:"]
                | Some _ => []
                end).

(** ** [_get_centres_global] *)

(** A recorded candidate [(float(max_val), x, y)]. *)
Definition candidate : Type := Q * Z * Z.

Definition cand_score (c : candidate) : Q := fst (fst c).
Definition cand_loc (c : candidate) : Z * Z := (snd (fst c), snd c).

(** [max(1, int(w * 0.9))]; for a size [0 <= w] the truncated float product
    is [9 * w / 10]. *)
Definition suppress_radius (w : Z) : Z := Z.max 1 (9 * w / 10).

Definition max_candidates : nat := 20.

(** The suppression window around [(x, y)], clamped to the array. *)
Definition window (res : response) (sx sy x y : Z) : Z * Z * Z * Z :=
  (Z.max 0 (x - sx), Z.min (Z.of_nat (last_col res)) (x + sx),
   Z.max 0 (y - sy), Z.min (Z.of_nat (last_row res)) (y + sy)).

Definition in_window (w : Z * Z * Z * Z) (loc : Z * Z) : bool :=
  let '(x0, x1, y0, y1) := w in
  (y0 <=? snd loc) && (snd loc <=? y1) && (x0 <=? fst loc) && (fst loc <=? x1).

Definition suppress (res : response) (sx sy x y : Z) : response :=
  let '(x0, x1, y0, y1) := window res sx sy x y in zero_window res x0 x1 y0 y1.

(** The candidate loop, [n] turns of it left: the candidates it appends, in
    order, and the final [res_work]. *)
Fixpoint collect (n : nat) (thr : Q) (sx sy : Z) (res_work : response)
    : list candidate * response :=
  match n with
  | O => ([], res_work)
  | S n' =>
      let '(max_val, (x, y)) := minMaxLoc res_work in
      if Qlt_bool max_val thr then ([], res_work)
      else
        let '(cands, final) := collect n' thr sx sy (suppress res_work sx sy x y) in
        ((max_val, x, y) :: cands, final)
  end.

(** [itertools.combinations(l, k)] *)
Fixpoint combinations {A : Type} (k : nat) (l : list A) : list (list A) :=
  match k with
  | O => [[]]
  | S k' =>
      match l with
      | [] => []
      | x :: t => map (cons x) (combinations k' t) ++ combinations k t
      end
  end.

Definition qmax (a b : Q) : Q := if Qle_bool a b then b else a.
Definition qmin (a b : Q) : Q := if Qle_bool a b then a else b.

Definition maximum (l : list Q) : Q := fold_left qmax (tl l) (hd 0%Q l).
Definition minimum (l : list Q) : Q := fold_left qmin (tl l) (hd 0%Q l).

Definition qsum (l : list Q) : Q := fold_left Qplus l 0%Q.

(** [[x + w / 2, y + _h / 2]] *)
Definition centre_of (w h : Z) (c : candidate) : Q * Q :=
  let '(_, x, y) := c in
  ((inject_Z x + inject_Z w / 2)%Q, (inject_Z y + inject_Z h / 2)%Q).

(** The area is computed on the centres as an array of [np.float32]. *)
Definition area (w h : Z) (combo : list candidate) : Q :=
  let centres := map (centre_of w h) combo in
  let xs := map (fun c => float32 (fst c)) centres in
  let ys := map (fun c => float32 (snd c)) centres in
  float32 (float32 (maximum xs - minimum xs) * float32 (maximum ys - minimum ys)).

Definition score (combo : list candidate) : Q := qsum (map cand_score combo).

(** One turn of the selection loop on [(best, best_area, best_score)]. *)
Definition pick (w h : Z) (st : option (list candidate * Q * Q)) (combo : list candidate)
    : option (list candidate * Q * Q) :=
  let a := area w h combo in
  let s := score combo in
  match st with
  | None => Some (combo, a, s)
  | Some (_, best_area, best_score) =>
      if Qlt_bool best_area a || (Qeq_bool a best_area && Qlt_bool best_score s)
      then Some (combo, a, s)
      else st
  end.

Definition top_k (candidates : list candidate) : list candidate :=
  firstn (Nat.min (length candidates) 12) candidates.

Definition best_combo (w h : Z) (candidates : list candidate)
    : option (list candidate * Q * Q) :=
  fold_left (pick w h) (combinations 4 (top_k candidates)) None.

(** A rectangle [(x, y, w, h)]. *)
Definition rect : Type := Z * Z * Z * Z.

(** [(x, y, w, _h)] *)
Definition rect_of (w h : Z) (c : candidate) : rect :=
  let '(_, x, y) := c in (x, y, w, h).

(** What a localiser hands back: [(centres, rects, avg_t)]. *)
Definition located : Type := list (Q * Q) * list rect * Q.

(** The candidates recorded for a response. *)
Definition candidates_of (self : CropOnMarkers) (res : response) (w h : Z) : list candidate :=
  fst (collect max_candidates (min_matching_threshold self)
               (suppress_radius w) (suppress_radius h) res).

Definition _get_centres_global (self : CropOnMarkers)
    (image_eroded_sub optimal_marker : ndarray) : option located * list event :=
  let '(h, w) := shape optimal_marker in
  let res := matchTemplate image_eroded_sub optimal_marker in
  let candidates := candidates_of self res w h in
  if (length candidates <? 4)%nat then
    (None,
     LogError "Error: Not enough markers found in global search."
     :: (if 1 <=? show_image_level (tuning self)
         then [ShowImage "Marker search"; ShowImage "matchTemplate res"] else []))
  else
    match best_combo w h candidates with
    | None => (None, [])
    | Some (best, _, _) =>
        (Some (map (centre_of w h) best,
               map (rect_of w h) best,
               (score best / 4)%Q),
         [])
    end.

(** ** [apply_filter] *)

(** The working image before the quadrant lines are drawn. *)
Definition prepared (self : CropOnMarkers) (image : ndarray) : ndarray :=
  normalize_util
    (if apply_erode_subtract self then image
     else subtract image (erode image)).

(** [(midh, midw)] *)
Definition midpoints (image_eroded_sub : ndarray) : Z * Z :=
  let '(h1, w1) := shape image_eroded_sub in (h1 / height_factor, w1 / width_factor).

(** [image_eroded_sub] as [getBestMatch] and the localisers see it: outside
    the global modes the quadrant lines are drawn on it. *)
Definition working (self : CropOnMarkers) (image : ndarray) : ndarray :=
  let image_eroded_sub := prepared self image in
  if negb (in_global self) then
    let '(midh, midw) := midpoints image_eroded_sub in
    draw_quadlines image_eroded_sub midh midw
  else image_eroded_sub.

Definition origins (self : CropOnMarkers) (image : ndarray) (k : nat) : Z * Z :=
  let '(midh, midw) := midpoints (prepared self image) in
  nth k [(0, 0); (midw, 0); (0, midh); (midw, midh)] (0, 0).

(** [quads[k]]: a view of the working image, so it shows the quadrant lines
    drawn after the slicing. *)
Definition quads (self : CropOnMarkers) (image : ndarray) (k : nat) : ndarray :=
  let '(h1, w1) := shape (prepared self image) in
  let '(midh, midw) := midpoints (prepared self image) in
  let image_eroded_sub := working self image in
  match k with
  | 0%nat => slice image_eroded_sub 0 midh 0 midw
  | 1%nat => slice image_eroded_sub 0 midh midw w1
  | 2%nat => slice image_eroded_sub midh h1 0 midw
  | _ => slice image_eroded_sub midh h1 midw w1
  end.

(** The test that rejects a quadrant: [max_t] and [all_max_t] are
    [np.float32], the threshold and the variation are Python numbers. *)
Definition quadrant_rejected (self : CropOnMarkers) (all_max_t max_t : Q) : bool :=
  Qlt_bool max_t (weak (min_matching_threshold self))
  || Qle_bool (weak (max_matching_variation self)) (Qabs (float32 (all_max_t - max_t))).

(** How the loop over the quadrants ends. *)
Inductive quadrants_end : Type :=
| Rejected (log : list event)                            (* return None *)
| Switched (found : located) (sum_t : Q) (log : list event)
                                                         (* break after the global search *)
| Completed (centres : list (Q * Q)) (rects : list rect) (sum_t : Q).

Fixpoint match_quadrants (self : CropOnMarkers) (image : ndarray) (optimal_marker : ndarray)
    (all_max_t : Q) (ks : list nat)
    (centres : list (Q * Q)) (rects : list rect) (sum_t : Q) : quadrants_end :=
  match ks with
  | [] => Completed centres rects sum_t
  | k :: ks' =>
      let '(h, w) := shape optimal_marker in
      let res := matchTemplate (quads self image k) optimal_marker in
      let max_t := res_max res in
      if quadrant_rejected self all_max_t max_t then
        if in_fallback self then
          match _get_centres_global self (working self image) optimal_marker with
          | (None, log) => Rejected log
          | (Some found, log) => Switched found sum_t log
          end
        else
          Rejected (LogError "Error: No circle found in Quad"
                    :: (if 1 <=? show_image_level (tuning self)
                        then [ShowImage "No markers"; ShowImage "res_Q"] else []))
      else
        (* never empty: max_t is an entry of res *)
        let pt := hd (0, 0) (argwhere res max_t) in
        let x := fst pt + fst (origins self image k) in
        let y := snd pt + snd (origins self image k) in
        match_quadrants self image optimal_marker all_max_t ks'
          (centres ++ [((inject_Z x + inject_Z w / 2)%Q, (inject_Z y + inject_Z h / 2)%Q)])
          (rects ++ [(x, y, w, h)])
          (sum_t + max_t)%Q
  end.

(** After the loop: [if centres and isinstance(centres[0], list)]. *)
Definition quadrants_summary (centres : list (Q * Q)) (sum_t avg_t : Q) : Q * list event :=
  match centres with
  | [] => (avg_t, [])
  | _ :: _ =>
      (if truthy sum_t then (sum_t / 4)%Q else 0%Q,
       [LogInfo "Matching Marker:  "; LogInfo "Optimal Scale: "])
  end.

(** The branch of [apply_filter] that finds the four markers. *)
Definition locate_markers (self : CropOnMarkers) (image : ndarray) (optimal_marker : ndarray)
    (all_max_t : Q) : option located * list event :=
  if in_global self then
    _get_centres_global self (working self image) optimal_marker
  else
    match match_quadrants self image optimal_marker all_max_t [0; 1; 2; 3]%nat [] [] 0%Q with
    | Rejected log => (None, log)
    | Switched (centres, rects, avg_t) sum_t log =>
        let '(avg_t, info) := quadrants_summary centres sum_t avg_t in
        (Some (centres, rects, avg_t), log ++ info)
    | Completed centres rects sum_t =>
        let '(avg_t, info) := quadrants_summary centres sum_t 0%Q in
        (Some (centres, rects, avg_t), info)
    end.

(** The loop over [rects]: each rectangle is drawn on [image] and on
    [image_eroded_sub]. *)
Definition draw_rect (self : CropOnMarkers) (imgs : ndarray * ndarray) (r : rect) : ndarray * ndarray :=
  let '(image, image_eroded_sub) := imgs in
  let '(x, y, rw, rh) := r in
  (rectangle image (x, y) (x + rw, y + rh) MARKER_RECTANGLE_COLOR DEFAULT_LINE_WIDTH,
   rectangle image_eroded_sub (x, y) (x + rw, y + rh)
     (if apply_erode_subtract self then ERODE_RECT_COLOR else NORMAL_RECT_COLOR) 4).

Definition draw_rects (self : CropOnMarkers) (imgs : ndarray * ndarray) (rects : list rect)
    : ndarray * ndarray :=
  fold_left (draw_rect self) rects imgs.

(** Whether OpenCV refuses a match in the course of the loop over the
    quadrants [ks]: the match of a quadrant that the loop reaches or, in the
    modes [auto] and [fallback], the match of the whole image that the
    global search starts with after a rejection. *)
Fixpoint quadrants_refused (self : CropOnMarkers) (image : ndarray) (optimal_marker : ndarray)
    (all_max_t : Q) (ks : list nat) : bool :=
  match ks with
  | [] => false
  | k :: ks' =>
      if matchTemplate_refused (quads self image k) optimal_marker then true
      else if quadrant_rejected self all_max_t
                (res_max (matchTemplate (quads self image k) optimal_marker)) then
        in_fallback self && matchTemplate_refused (working self image) optimal_marker
      else quadrants_refused self image optimal_marker all_max_t ks'
  end.

(** Whether OpenCV refuses a match while the four markers are located. *)
Definition locate_refused (self : CropOnMarkers) (image : ndarray) (optimal_marker : ndarray)
    (all_max_t : Q) : bool :=
  if in_global self then matchTemplate_refused (working self image) optimal_marker
  else quadrants_refused self image optimal_marker all_max_t [0; 1; 2; 3]%nat.

(** A call that OpenCV refuses raises before anything else is drawn,
    recorded or returned; [locate_markers] says what is found when none
    is. *)
Definition apply_filter (self : CropOnMarkers) (image : ndarray)
    : outcome (option ndarray * list event) :=
  let level := show_image_level (tuning self) in
  let image_eroded_sub := working self image in
  ' (best_scale, all_max_t, log1) <- getBestMatch self image_eroded_sub ;;
  match best_scale with
  | None => Returns (None, log1 ++ show_if (1 <=? level) "Quads")
  | Some s =>
      let optimal_marker := rescaled_marker self s in
      if resize_util_h_refused (marker self) (scaled_height (fst (shape (marker self))) s)
         || locate_refused self image optimal_marker all_max_t
      then Raises LibraryError
      else
      match locate_markers self image optimal_marker all_max_t with
      | (None, log2) => Returns (None, log1 ++ log2)
      | (Some (centres, rects, avg_t), log2) =>
          let '(image', image_eroded_sub') :=
            draw_rects self (image, image_eroded_sub) rects in
          Returns (Some (four_point_transform image' centres),
                   log1 ++ log2
                   ++ (if truthy avg_t then [ThresholdCircle avg_t] else [])
                   ++ [Transform image' centres; AppendSaveImg image_eroded_sub']
                   ++ show_if ((2 <=? level) && (level <? 4)) "Warped")
      end
  end.

End Processor.

Arguments CropOnMarkers : clear implicits.
Arguments event : clear implicits.
Arguments marker_source : clear implicits.

(** [self] with another verbosity level. *)
Definition with_level {cv : Cv} (self : CropOnMarkers cv) (level : Z) : CropOnMarkers cv :=
  {| tuning := {| show_image_level := level;
                  processing_width := processing_width (tuning self) |};
     min_matching_threshold := min_matching_threshold self;
     max_matching_variation := max_matching_variation self;
     marker_rescale_range := marker_rescale_range self;
     marker_rescale_steps := marker_rescale_steps self;
     apply_erode_subtract := apply_erode_subtract self;
     search_mode := search_mode self;
     marker := marker self |}.

(** The result of a call without its log. *)
Definition result_of {A B : Type} (o : outcome (A * B)) : outcome A :=
  match o with
  | Returns (a, _) => Returns a
  | Raises e => Raises e
  end.

Definition is_transform {cv : Cv} (e : event cv) : bool :=
  match e with
  | Transform _ _ => true
  | _ => false
  end.

(** [c] is a subsequence of [l]: a combination of elements of [l], in the
    order of [l]. *)
Inductive Subseq {A : Type} : list A -> list A -> Prop :=
| Subseq_nil : forall l, Subseq [] l
| Subseq_take : forall x c l, Subseq c l -> Subseq (x :: c) (x :: l)
| Subseq_skip : forall x c l, Subseq c l -> Subseq c (x :: l).

(** ** A symbolic environment

    Images are the terms that say how they were computed from the files
    given; the responses of [cv2.matchTemplate] are given by a table.  It
    serves to run the processor on concrete inputs. *)

Inductive term : Type :=
| Given (name : string)
| NormalizeUtil (a : term)
| Erode (a : term)
| Subtract (a b : term)
| Blur (a : term)
| Normalize (a : term)
| ResizeUtil (a : term) (processing_width ratio : Z)
| ResizeUtilH (a : term) (u_height : Z)
| Slice (a : term) (y0 y1 x0 x1 : Z)
| Quadlines (a : term) (midh midw : Z)
| Rectangle (a : term) (pt1 pt2 : Z * Z) (c : colour) (thickness : Z)
| FourPoint (a : term) (centres : list (Q * Q)).

(** Shapes: the sheet is 8 x 8 and the marker file 2 x 2. *)
Fixpoint term_shape (t : term) : Z * Z :=
  match t with
  | Given name => if String.eqb name "marker" then (2, 2) else (8, 8)
  | NormalizeUtil a | Erode a | Blur a | Normalize a | Quadlines a _ _
  | Rectangle a _ _ _ _ | Subtract a _ => term_shape a
  | ResizeUtil a _ _ => term_shape a
  | ResizeUtilH a u_height =>
      let '(h, w) := term_shape a in (u_height, w * u_height / h)
  | Slice _ y0 y1 x0 x1 => (y1 - y0, x1 - x0)
  | FourPoint a _ => term_shape a
  end.

(** The conversions are the identity: the scores of the tables below are
    dyadic numbers of a few bits, and a threshold they are compared with is
    either such a number too or far from them.  A resize to an empty size
    and a template larger than the image are refused. *)
Definition symbolic (table : term -> term -> response) : Cv := {|
  ndarray := term;
  shape := term_shape;
  weak := fun q => q;
  float32 := fun q => q;
  str_lower := fun s => s;
  resize_util_refused := fun _ processing_width ratio => processing_width / ratio <=? 0;
  resize_util_h_refused :=
    fun a u_height =>
      let '(h, w) := term_shape a in (u_height <=? 0) || (w * u_height / h <=? 0);
  matchTemplate_refused :=
    fun img templ =>
      let '(h, w) := term_shape img in
      let '(th, tw) := term_shape templ in (h <? th) || (w <? tw);
  normalize_util := NormalizeUtil;
  erode := Erode;
  subtract := Subtract;
  GaussianBlur := Blur;
  normalize := Normalize;
  resize_util := ResizeUtil;
  resize_util_h := ResizeUtilH;
  scaled_height := fun h r0 => h * r0 / 100;
  slice := Slice;
  draw_quadlines := Quadlines;
  matchTemplate := table;
  rectangle := Rectangle;
  four_point_transform := FourPoint;
  height_factor := 2;
  width_factor := 2;
  DEFAULT_LINE_WIDTH := 2
|}.

(** A response with the same value everywhere. *)
Definition flat (rows cols : nat) (v : Q) : response :=
  mkResponse (pred rows) (pred cols) (fun _ _ => v).

(** A 7 x 7 response with a peak of [1] in each corner. *)
Definition corners : response :=
  mkResponse 6 6
    (fun y x => if ((y =? 0) || (y =? 6)) && ((x =? 0) || (x =? 6)) then 1%Q else 0%Q).

Definition no_options : marker_options := {|
  opt_min_matching_threshold := None;
  opt_max_matching_variation := None;
  opt_marker_rescale_range := None;
  opt_marker_rescale_steps := None;
  opt_apply_erode_subtract := None;
  opt_searchMode := None;
  opt_globalSearch := false;
  opt_sheetToMarkerWidthRatio := None
|}.

Definition quiet : tuning_config := {| show_image_level := 0; processing_width := 666 |}.

Definition sheet : term := Given "sheet".

(** The marker as [load_marker] leaves it. *)
Definition loaded_marker (flag : bool) : term :=
  let m := Normalize (Blur (Given "marker")) in
  if flag then Subtract m (Erode m) else m.

(** The processor built from [marker_ops] over the marker file. *)
Definition processor (table : term -> term -> response) (marker_ops : marker_options)
    : CropOnMarkers (symbolic table) :=
  @with_defaults (symbolic table) marker_ops quiet
    (loaded_marker (get (opt_apply_erode_subtract marker_ops) true)).

(** The marker file as [cv2.imread] reads it. *)
Definition marker_image (table : term -> term -> response) : marker_source (symbolic table) :=
  @ImageFile (symbolic table) (Given "marker").

(** ** Invariants used in the proofs *)

(** The state [(best_scale, all_max_t)] of the loop of [getBestMatch] after
    the scales [tested], given the maximum response [M] of each scale: no
    best scale yet means no positive maximum was seen; otherwise the best
    scale is the first one that reached the highest maximum. *)
Definition best_so_far (M : Z -> Q) (tested : list Z) (best_scale : option Z)
    (all_max_t : Q) : Prop :=
  match best_scale with
  | None => all_max_t = 0%Q /\ forall r, In r tested -> (M r <= 0)%Q
  | Some s =>
      all_max_t = M s /\ (0 < all_max_t)%Q /\
      exists before after,
        tested = before ++ s :: after /\
        (forall r, In r before -> (M r < all_max_t)%Q) /\
        (forall r, In r after -> (M r <= all_max_t)%Q)
  end.

(** ** Inputs the processor is run on *)

(** Every match peaks in the four corners. *)
Definition corners_table : term -> term -> response := fun _ _ => corners.

(** Every match is a single response of 0.25. *)
Definition quarter_table : term -> term -> response := fun _ _ => flat 1 1 (1 # 4).

(** Options with a rescale range and a step count. *)
Definition with_range (range : Z * Z) (steps : Z) : marker_options := {|
  opt_min_matching_threshold := None;
  opt_max_matching_variation := None;
  opt_marker_rescale_range := Some range;
  opt_marker_rescale_steps := Some steps;
  opt_apply_erode_subtract := None;
  opt_searchMode := None;
  opt_globalSearch := false;
  opt_sheetToMarkerWidthRatio := None
|}.

(** A range of scales at which a marker of 2 x 2 keeps a size of at least
    1 x 1: 50 to 100 percent in 10 steps. *)
Definition half_to_full : marker_options := with_range (50, 100) 10.

(** The candidate loop as [apply_filter] starts it in the global modes once
    the scale [s] is chosen: the candidates and the final [res_work]. *)
Definition global_scan {cv : Cv} (self : CropOnMarkers cv) (image : ndarray) (s : Z)
    : list candidate * response :=
  let optimal_marker := rescaled_marker self s in
  collect max_candidates (min_matching_threshold self)
    (suppress_radius (snd (shape optimal_marker)))
    (suppress_radius (fst (shape optimal_marker)))
    (matchTemplate (working self image) optimal_marker).

(** Options with a search mode and a matching threshold; one scale, 100%. *)
Definition with_mode (mode : string) (threshold : Q) : marker_options := {|
  opt_min_matching_threshold := Some threshold;
  opt_max_matching_variation := None;
  opt_marker_rescale_range := Some (99, 100);
  opt_marker_rescale_steps := Some 1;
  opt_apply_erode_subtract := None;
  opt_searchMode := Some mode;
  opt_globalSearch := false;
  opt_sheetToMarkerWidthRatio := None
|}.

(** The state [(best, best_area, best_score)] of the selection loop after
    the combinations [seen]: the best one is among them, and each of them has
    a smaller area, or the same area and no higher score. *)
Definition best_of {cv : Cv} (w h : Z) (seen : list (list candidate))
    (st : option (list candidate * Q * Q)) : Prop :=
  match st with
  | None => seen = []
  | Some (best, best_area, best_score) =>
      best_area = area w h best /\ best_score = score best /\ In best seen /\
      forall combo, In combo seen ->
        (area w h combo < best_area)%Q \/
        (area w h combo == best_area /\ (score combo <= best_score)%Q)
  end.


(** A 7 x 7 response with six peaks: 1 in the middle, 0.875 in the middle
    of the top row and 0.75 in each corner. *)
Definition six_peaks : response :=
  mkResponse 6 6
    (fun y x =>
       if (y =? 3) && (x =? 3) then 1%Q
       else if (y =? 0) && (x =? 3) then (7 # 8)%Q
       else if ((y =? 0) || (y =? 6)) && ((x =? 0) || (x =? 6)) then (3 # 4)%Q
       else 0%Q).

Definition six_table : term -> term -> response := fun _ _ => six_peaks.

(** The candidates the global search records on [six_peaks]. *)
Definition six_candidates : list candidate :=
  [(1%Q, 3, 3); ((7 # 8)%Q, 3, 0); ((3 # 4)%Q, 0, 0); ((3 # 4)%Q, 6, 0);
   ((3 # 4)%Q, 0, 6); ((3 # 4)%Q, 6, 6)].

(** [marker_ops] with another [searchMode] and another [globalSearch]. *)
Definition with_search_mode (marker_ops : marker_options) (mode : option string)
    (legacy : bool) : marker_options := {|
  opt_min_matching_threshold := opt_min_matching_threshold marker_ops;
  opt_max_matching_variation := opt_max_matching_variation marker_ops;
  opt_marker_rescale_range := opt_marker_rescale_range marker_ops;
  opt_marker_rescale_steps := opt_marker_rescale_steps marker_ops;
  opt_apply_erode_subtract := opt_apply_erode_subtract marker_ops;
  opt_searchMode := mode;
  opt_globalSearch := legacy;
  opt_sheetToMarkerWidthRatio := opt_sheetToMarkerWidthRatio marker_ops
|}.

(** The end of the quadrant loop without its log. *)
Definition strip {cv : Cv} (q : quadrants_end) : quadrants_end :=
  match q with
  | Rejected _ => Rejected []
  | Switched found sum_t _ => Switched found sum_t []
  | Completed centres rects sum_t => Completed centres rects sum_t
  end.

(** A 7 x 7 response with a peak of [v] in each corner. *)
Definition peaks (v : Q) : response :=
  mkResponse 6 6
    (fun y x => if ((y =? 0) || (y =? 6)) && ((x =? 0) || (x =? 6)) then v else 0%Q).

(** The whole image answers with peaks of 0.75 in its corners, each
    quadrant with a single response of 0.5. *)
Definition drift_table : term -> term -> response :=
  fun img _ =>
    match img with
    | Slice _ _ _ _ _ => flat 1 1 (1 # 2)
    | _ => peaks (3 # 4)
    end.

(** Every match is a single response of 0. *)
Definition zero_table : term -> term -> response := fun _ _ => flat 1 1 0.

(** Options with a search mode, a matching threshold and a matching
    variation; one scale, 100%. *)
Definition with_variation (mode : string) (threshold variation : Q) : marker_options := {|
  opt_min_matching_threshold := Some threshold;
  opt_max_matching_variation := Some variation;
  opt_marker_rescale_range := Some (99, 100);
  opt_marker_rescale_steps := Some 1;
  opt_apply_erode_subtract := None;
  opt_searchMode := Some mode;
  opt_globalSearch := false;
  opt_sheetToMarkerWidthRatio := None
|}.

(** The best score [max_t] of quadrant [k]. *)
Definition quad_max {cv : Cv} (self : CropOnMarkers cv) (image optimal_marker : ndarray)
    (k : nat) : Q :=
  res_max (matchTemplate (quads self image k) optimal_marker).

(** Options of the global mode with the erosion-subtract flag given. *)
Definition with_flag (flag : bool) : marker_options := {|
  opt_min_matching_threshold := None;
  opt_max_matching_variation := None;
  opt_marker_rescale_range := None;
  opt_marker_rescale_steps := None;
  opt_apply_erode_subtract := Some flag;
  opt_searchMode := Some "global";
  opt_globalSearch := false;
  opt_sheetToMarkerWidthRatio := None
|}.

(** The image and the log of a successful global run on the sheet at the
    quiet level. *)
Definition corners_out : term :=
  match apply_filter (processor corners_table (with_mode "global" (3 # 10))) sheet with
  | Returns (Some out, _) => out
  | _ => sheet
  end.

Definition corners_log : list (event (symbolic corners_table)) :=
  match apply_filter (processor corners_table (with_mode "global" (3 # 10))) sheet with
  | Returns (_, log) => log
  | Raises _ => []
  end.

(** The sheet with the rectangles of the four corner markers. *)
Definition annotated_sheet : term :=
  Rectangle
    (Rectangle
       (Rectangle
          (Rectangle sheet (0, 0) (2, 2) MARKER_RECTANGLE_COLOR 2)
          (6, 0) (8, 2) MARKER_RECTANGLE_COLOR 2)
       (0, 6) (2, 8) MARKER_RECTANGLE_COLOR 2)
    (6, 6) (8, 8) MARKER_RECTANGLE_COLOR 2.

(** ** The marker a quadrant yields *)

(** [pt] after the translation by the origin of quadrant [k]. *)
Definition quad_location {cv : Cv} (self : CropOnMarkers cv) (image optimal_marker : ndarray)
    (k : nat) : Z * Z :=
  let res := matchTemplate (quads self image k) optimal_marker in
  let pt := hd (0, 0) (argwhere res (res_max res)) in
  (fst pt + fst (origins self image k), snd pt + snd (origins self image k)).

(** The marker of quadrant [k] as a candidate [(max_t, x, y)]. *)
Definition quad_candidate {cv : Cv} (self : CropOnMarkers cv) (image optimal_marker : ndarray)
    (k : nat) : candidate :=
  (quad_max self image optimal_marker k,
   fst (quad_location self image optimal_marker k),
   snd (quad_location self image optimal_marker k)).

(** Two rectangles lie more than [sx] apart horizontally or more than [sy]
    apart vertically. *)
Definition apart (sx sy : Z) (r r' : rect) : Prop :=
  let '(x, y, _, _) := r in
  let '(x', y', _, _) := r' in
  sx < Z.abs (x - x') \/ sy < Z.abs (y - y').

(** The number of ways to choose [k] elements among [n]. *)
Fixpoint binom (n k : nat) : nat :=
  match k with
  | O => 1
  | S k' =>
      match n with
      | O => 0
      | S n' => binom n' k' + binom n' k
      end
  end.

(** ** The quadrants as regions *)

(** The bounds [(y0, y1, x0, x1)] of the slice [quads[k]]: rows [y0] to
    [y1 - 1], columns [x0] to [x1 - 1]. *)
Definition quad_bounds {cv : Cv} (self : CropOnMarkers cv) (image : ndarray) (k : nat)
    : Z * Z * Z * Z :=
  let '(h1, w1) := shape (prepared self image) in
  let '(midh, midw) := midpoints (prepared self image) in
  match k with
  | 0%nat => (0, midh, 0, midw)
  | 1%nat => (0, midh, midw, w1)
  | 2%nat => (midh, h1, 0, midw)
  | _ => (midh, h1, midw, w1)
  end.

(** The pixel [(x, y)] lies within the bounds. *)
Definition in_bounds (b : Z * Z * Z * Z) (x y : Z) : Prop :=
  let '(y0, y1, x0, x1) := b in y0 <= y < y1 /\ x0 <= x < x1.

(** ** The log without the displays *)

Definition is_show {cv : Cv} (e : event cv) : bool :=
  match e with
  | ShowImage _ => true
  | _ => false
  end.

(** What is left of a log when the calls of [InteractionUtils.show] are
    taken out. *)
Definition hush {cv : Cv} (log : list (event cv)) : list (event cv) :=
  filter (fun e => negb (is_show e)) log.

(** A call with its log hushed. *)
Definition hushed {cv : Cv} {A : Type} (o : outcome (A * list (event cv)))
    : outcome (A * list (event cv)) :=
  match o with
  | Returns (a, log) => Returns (a, hush log)
  | Raises e => Raises e
  end.

Definition hush_quadrants {cv : Cv} (q : quadrants_end) : quadrants_end :=
  match q with
  | Rejected log => Rejected (hush log)
  | Switched found sum_t log => Switched found sum_t (hush log)
  | Completed centres rects sum_t => Completed centres rects sum_t
  end.

(** * The GUI core: templates and generated ID sheets

    [omr_gui/core/template_model.py], [template_io.py] and
    [id_sheet_generator.py].  Python floats that hold field origins and gaps
    are rationals; the two places where a quotient of floats is rounded are
    operations of the class [PyFloat].  The generator is described by what
    it computes and hands to Pillow (the boxes of the bubbles, the places
    where the marker is pasted) and by what it returns, for a run in which
    the default marker image is found and Pillow carries out each call. *)

(** [str(n)] of an integer. *)
Definition str_int (z : Z) : string := NilZero.string_of_int (Z.to_int z).

(** JSON values, with objects in the order of their keys. *)
#[local] Unset Elimination Schemes.
Inductive json : Type :=
| JNull
| JBool (b : bool)
| JInt (z : Z)
| JFloat (q : Q)
| JStr (s : string)
| JList (l : list json)
| JObj (members : list (string * json)).
#[local] Set Elimination Schemes.

Module template_model.

Record PageSettings : Type := {
  width : Z;
  height : Z
}.

Record FieldBlock : Type := {
  id : string;
  field_type : string;
  labels : list string;
  origin_x : Q;
  origin_y : Q;
  labels_gap : Q;
  bubbles_gap : Q
}.

Record CustomLabelGroup : Type := {
  name : string;
  component_labels : list string
}.

Record TemplateModel : Type := {
  page : PageSettings;
  bubble_dimensions : option (Z * Z);
  pre_processors : list json;
  field_blocks : list FieldBlock;
  custom_labels : list CustomLabelGroup;
  (* the entries as a document gives them: strings, in a well-formed one *)
  output_columns : list json
}.

End template_model.

Module id_sheet_generator.

(** The roundings of float quotients in the generator. *)
Class PyFloat : Type := {
  (* int(round(a / b)) *)
  round_div : Z -> Z -> Z;
  (* int(round(c * (p / q))) *)
  round_scale : Z -> Z -> Z -> Z
}.

Record IdSheetParams : Type := {
  num_digits : Z;
  page_width : Z;
  page_height : Z;
  margin_left : Z;
  margin_top : Z;
  bubble_radius : Z;
  labels_gap : Z;
  bubbles_gap : Z;
  marker_gap : Z;
  marker_ratio : Z;
  include_class : bool;
  class_digits : Z
}.

Section Generator.
Context {fl : PyFloat}.
Variable params : IdSheetParams.

(** The quantities [render_sheet_image] and [generate_id_sheet] both compute
    from the parameters, by the same expressions. *)
Definition gap : Z := Z.max 0 (marker_gap params).

Definition total_columns : Z :=
  num_digits params + (if include_class params then class_digits params else 0).

Definition extra_class_gap : Z :=
  if include_class params && (0 <? class_digits params) then labels_gap params else 0.

Definition region_width : Z :=
  Z.max 0 ((total_columns - 1) * labels_gap params + extra_class_gap
           + 2 * bubble_radius params).

Definition region_height : Z :=
  Z.max 0 (9 * bubbles_gap params + 2 * bubble_radius params).

(** ** [render_sheet_image] *)

Definition max_x0 : Z := Z.max 0 (page_width params - region_width).
Definition max_y0 : Z := Z.max 0 (page_height params - region_height).
Definition desired_x0 : Z := Z.max 0 (Z.min max_x0 (margin_left params)).
Definition desired_y0 : Z := Z.max 0 (Z.min max_y0 (margin_top params)).

(** [(marker_w, marker_h)] for a default marker image of size
    [(base_w, base_h)]. *)
Definition marker_size (base : Z * Z) : Z * Z :=
  let '(base_w, base_h) := base in
  let marker_ratio := Z.max 2 (marker_ratio params) in
  let marker_target_width := Z.max 24 (round_div (page_width params) marker_ratio) in
  let left_space := desired_x0 in
  let top_space := desired_y0 in
  let right_space := page_width params - (desired_x0 + region_width) in
  let bottom_space := page_height params - (desired_y0 + region_height) in
  let horiz_fit := Z.max 0 (Z.min (left_space - gap) (right_space - gap)) in
  let vert_fit := Z.max 0 (Z.min (top_space - gap) (bottom_space - gap)) in
  let candidate_w := Z.max 12 (Z.min marker_target_width horiz_fit) in
  let candidate_h :=
    if base_w =? 0 then candidate_w else round_scale candidate_w base_h base_w in
  let '(candidate_w, candidate_h) :=
    if (vert_fit <? candidate_h) && (0 <? vert_fit) then
      let candidate_h := Z.max 12 (Z.min candidate_h vert_fit) in
      (if base_h =? 0 then candidate_h else round_scale candidate_h base_w base_h,
       candidate_h)
    else (candidate_w, candidate_h) in
  let marker_w := Z.max 12 candidate_w in
  let marker_h := Z.max 12 candidate_h in
  let marker_w := if marker_w mod 2 =? 1 then marker_w - 1 else marker_w in
  let marker_h := if marker_h mod 2 =? 1 then marker_h - 1 else marker_h in
  (Z.max 12 marker_w, Z.max 12 marker_h).

(** [(region_x0, region_y0)]: the top-left corner of the bubble region. *)
Definition region_origin (base : Z * Z) : Z * Z :=
  let '(marker_w, marker_h) := marker_size base in
  let border := 1 in
  let min_x0 := gap + marker_w + border in
  let min_y0 := gap + marker_h + border in
  let max_x0_fit := page_width params - region_width - gap - marker_w - border in
  let max_y0_fit := page_height params - region_height - gap - marker_h - border in
  (if max_x0_fit <? min_x0 then Z.max 0 (Z.min max_x0 desired_x0)
   else Z.max min_x0 (Z.min max_x0_fit desired_x0),
   if max_y0_fit <? min_y0 then Z.max 0 (Z.min max_y0 desired_y0)
   else Z.max min_y0 (Z.min max_y0_fit desired_y0)).

(** The bounding boxes [[x0, y0, x1, y1]] of the ten bubbles of a column. *)
Definition column_bubbles (column_x label_start_y : Z) : list (Z * Z * Z * Z) :=
  map (fun digit =>
         let center_y := label_start_y + digit * bubbles_gap params in
         (column_x - bubble_radius params, center_y - bubble_radius params,
          column_x + bubble_radius params, center_y + bubble_radius params))
      (range 10).

(** What [render_sheet_image] draws and returns: the bubbles outlined, the
    places where the marker is pasted, and the metadata of its result. *)
Record Rendered : Type := {
  ellipses : list (Z * Z * Z * Z);
  pasted : list (Z * Z);
  labels : list string;
  class_labels : list string;
  label_start_x : Z;
  label_start_y : Z;
  marker_w : Z;
  marker_h : Z
}.

Definition render_sheet_image (base : Z * Z) : Rendered :=
  let '(marker_w, marker_h) := marker_size base in
  let '(region_x0, region_y0) := region_origin base in
  let label_start_x := region_x0 + bubble_radius params in
  let label_start_y := region_y0 + bubble_radius params in
  let columns := range (Z.to_nat (num_digits params)) in
  let with_class := include_class params && (0 <? class_digits params) in
  let class_start_x :=
    label_start_x + num_digits params * labels_gap params + labels_gap params in
  let class_columns :=
    if with_class then range (Z.to_nat (class_digits params)) else [] in
  let region_x1 := region_x0 + region_width in
  let region_y1 := region_y0 + region_height in
  {| ellipses :=
       flat_map (fun col => column_bubbles (label_start_x + col * labels_gap params)
                                           label_start_y) columns
       ++ flat_map (fun col => column_bubbles (class_start_x + col * labels_gap params)
                                              label_start_y) class_columns;
     pasted :=
       if 0 <? total_columns then
         [(region_x0 - gap - marker_w, region_y0 - gap - marker_h);
          (region_x1 + gap, region_y0 - gap - marker_h);
          (region_x0 - gap - marker_w, region_y1 + gap);
          (region_x1 + gap, region_y1 + gap)]
       else [];
     labels := map (fun col => "sid" ++ str_int (col + 1))%string columns;
     class_labels := map (fun col => "class" ++ str_int (col + 1))%string class_columns;
     label_start_x := label_start_x;
     label_start_y := label_start_y;
     marker_w := marker_w;
     marker_h := marker_h |}.

(** ** [generate_id_sheet]: the template it builds and saves *)

Definition effective_marker_ratio (marker_w : Z) : Z :=
  Z.max 2 (round_div (page_width params) (Z.max 1 marker_w)).

Definition generated_template (base : Z * Z) : template_model.TemplateModel :=
  let r := render_sheet_image base in
  let warped_page_width := region_width + 2 * gap + marker_w r in
  let warped_page_height := region_height + 2 * gap + marker_h r in
  let origin_x := inject_Z (marker_w r / 2 + gap + bubble_radius params) in
  let origin_y := inject_Z (marker_h r / 2 + gap + bubble_radius params) in
  let student :=
    {| template_model.id := "StudentID";
       template_model.field_type := "INT";
       template_model.labels := labels r;
       template_model.origin_x := origin_x;
       template_model.origin_y := origin_y;
       template_model.labels_gap := inject_Z (labels_gap params);
       template_model.bubbles_gap := inject_Z (bubbles_gap params) |} in
  let class :=
    {| template_model.id := "Class";
       template_model.field_type := "INT";
       template_model.labels := class_labels r;
       template_model.origin_x :=
         (origin_x + inject_Z (num_digits params * labels_gap params)
          + inject_Z (labels_gap params))%Q;
       template_model.origin_y := origin_y;
       template_model.labels_gap := inject_Z (labels_gap params);
       template_model.bubbles_gap := inject_Z (bubbles_gap params) |} in
  let with_class := match class_labels r with [] => false | _ :: _ => true end in
  {| template_model.page :=
       {| template_model.width := warped_page_width;
          template_model.height := warped_page_height |};
     template_model.bubble_dimensions :=
       Some (bubble_radius params * 2, bubble_radius params * 2);
     template_model.pre_processors :=
       [JObj [("name", JStr "CropPage");
              ("options", JObj [("morphKernel", JList [JInt 10; JInt 10]);
                                ("onFail", JStr "skip")])];
        JObj [("name", JStr "CropOnMarkers");
              ("options", JObj [("relativePath", JStr "omr_marker.jpg");
                                ("sheetToMarkerWidthRatio",
                                 JInt (effective_marker_ratio (marker_w r)));
                                ("searchMode", JStr "global")])]];
     template_model.field_blocks := student :: (if with_class then [class] else []);
     template_model.custom_labels :=
       {| template_model.name := "StudentID";
          template_model.component_labels := labels r |}
       :: (if with_class
           then [{| template_model.name := "Class";
                    template_model.component_labels := class_labels r |}]
           else []);
     template_model.output_columns :=
       JStr "StudentID" :: (if with_class then [JStr "Class"] else []) |}.

End Generator.

End id_sheet_generator.

(** ** Inputs for the generator *)

(** [int(round(q))]: Python rounds halves to the even neighbour. *)
Definition round_half_even (q : Q) : Z :=
  let f := Qfloor q in
  let r := (q - inject_Z f)%Q in
  if Qlt_bool r (1 # 2) then f
  else if Qlt_bool (1 # 2) r then f + 1
  else if Z.even f then f else f + 1.

(** The roundings computed on the exact quotients. *)
Definition exact_rounding : id_sheet_generator.PyFloat := {|
  id_sheet_generator.round_div := fun a b => round_half_even (inject_Z a / inject_Z b);
  id_sheet_generator.round_scale :=
    fun c p q => round_half_even (inject_Z c * (inject_Z p / inject_Z q))
|}.

(** An ID sheet of 8 digits and a class code of 2 digits on a page of
    1240 x 1754 pixels. *)
Definition sample_params : id_sheet_generator.IdSheetParams := {|
  id_sheet_generator.num_digits := 8;
  id_sheet_generator.page_width := 1240;
  id_sheet_generator.page_height := 1754;
  id_sheet_generator.margin_left := 200;
  id_sheet_generator.margin_top := 300;
  id_sheet_generator.bubble_radius := 14;
  id_sheet_generator.labels_gap := 60;
  id_sheet_generator.bubbles_gap := 50;
  id_sheet_generator.marker_gap := 6;
  id_sheet_generator.marker_ratio := 17;
  id_sheet_generator.include_class := true;
  id_sheet_generator.class_digits := 2
|}.

(** The size of the default marker image. *)
Definition sample_base : Z * Z := (100, 100).

(** * Templates on disk

    [omr_gui/core/template_io.py].  A template is written as a JSON document
    and read back from one; [json.dumps] followed by [json.loads] gives back
    the value it was given, so [save_template] is taken up to the document it
    writes and [load_template] from the document it reads.  [None] stands for
    an exception. *)

Module template_io.
Import template_model.

(** What the interpreter knows of a text (a [str], here the bytes of its
    UTF-8 encoding): the conversions, with the value or [None] where the
    conversion raises, and the decimal digits of the scripts outside
    ASCII. *)
Class PyStr : Type := {
  (* int(s) *)
  int_of_str : string -> option Z;
  (* float(s) *)
  float_of_str : string -> option Q;
  (* for a text that starts with a character outside ASCII: the number of
     bytes of that character when it is a decimal digit (Unicode category
     Nd, which [\d] matches and [int] reads), 0 when it is not *)
  wide_digit : string -> nat
}.

Definition FIELD_TYPE_FROM_OMR : list (string * string) :=
  [("QTYPE_INT", "INT");
   ("QTYPE_MCQ4", "MCQ4");
   ("QTYPE_MCQ5", "MCQ5");
   ("QTYPE_BOOL", "BOOLEAN");
   ("QTYPE_BOOLEAN", "BOOLEAN")].

Definition FIELD_TYPE_TO_OMR : list (string * string) :=
  [("INT", "QTYPE_INT");
   ("MCQ4", "QTYPE_MCQ4");
   ("MCQ5", "QTYPE_MCQ5");
   ("BOOLEAN", "QTYPE_BOOL")].

(** ** Python values *)

(** A dict with string keys, in the order of insertion: [d.get(key)] and
    [d[key] = v]. *)
Fixpoint dict_get {A : Type} (key : string) (d : list (string * A)) : option A :=
  match d with
  | [] => None
  | (k, v) :: rest => if (k =? key)%string then Some v else dict_get key rest
  end.

Fixpoint dict_set {A : Type} (key : string) (v : A) (d : list (string * A))
    : list (string * A) :=
  match d with
  | [] => [(key, v)]
  | (k, v') :: rest =>
      if (k =? key)%string then (k, v) :: rest else (k, v') :: dict_set key v rest
  end.

(** The truth value of a value. *)
Definition truth (v : json) : bool :=
  match v with
  | JNull => false
  | JBool b => b
  | JInt z => negb (z =? 0)
  | JFloat q => truthy q
  | JStr s => negb (s =? "")%string
  | JList l => match l with [] => false | _ :: _ => true end
  | JObj members => match members with [] => false | _ :: _ => true end
  end.

(** [a or b] *)
Definition or_else (a b : json) : json := if truth a then a else b.

(** [v.get(key, default)]: only a dict has the method. *)
Definition get (v : json) (key : string) (default : json) : option json :=
  match v with
  | JObj members => Some (match dict_get key members with Some x => x | None => default end)
  | _ => None
  end.

(** [v.items()] *)
Definition items (v : json) : option (list (string * json)) :=
  match v with
  | JObj members => Some members
  | _ => None
  end.

(** A byte that continues a character in UTF-8. *)
Definition is_continuation (c : ascii) : bool :=
  (128 <=? nat_of_ascii c)%nat && (nat_of_ascii c <? 192)%nat.

(** The characters of a text, each with the bytes that continue it. *)
Fixpoint characters (s : string) : list string :=
  match s with
  | EmptyString => []
  | String c rest =>
      match characters rest with
      | String c' ch :: more =>
          if is_continuation c' then String c (String c' ch) :: more
          else String c EmptyString :: String c' ch :: more
      | _ => [String c EmptyString]
      end
  end.

(** [v[i]] for an index [i] that is not negative; the keys of a dict are
    strings, so no index is among them. *)
Definition item (v : json) (i : nat) : option json :=
  match v with
  | JList l => nth_error l i
  | JStr s => option_map JStr (nth_error (characters s) i)
  | _ => None
  end.

(** What iterating over [v] yields, as in [list(v)] and [for x in v]. *)
Definition elements (v : json) : option (list json) :=
  match v with
  | JList l => Some l
  | JStr s => Some (map JStr (characters s))
  | JObj members => Some (map (fun kv => JStr (fst kv)) members)
  | _ => None
  end.

Definition and_then {A B : Type} (m : option A) (k : A -> option B) : option B :=
  match m with
  | Some a => k a
  | None => None
  end.

Local Notation "x <~ m ;; k" := (and_then m (fun x => k))
  (at level 61, m at next level, right associativity).

Section Loader.
Context {conv : PyStr}.

(** [int(v)] *)
Definition py_int (v : json) : option Z :=
  match v with
  | JInt z => Some z
  | JBool b => Some (if b then 1 else 0)
  | JFloat q => Some (if Qlt_bool q 0 then Qceiling q else Qfloor q)
  | JStr s => int_of_str s
  | _ => None
  end.

(** [float(v)] *)
Definition py_float (v : json) : option Q :=
  match v with
  | JInt z => Some (inject_Z z)
  | JBool b => Some (if b then 1%Q else 0%Q)
  | JFloat q => Some q
  | JStr s => float_of_str s
  | _ => None
  end.

(** ** [_expand_labels] *)

Definition is_letter (c : ascii) : bool :=
  ((("a" <=? c) && (c <=? "z")) || (("A" <=? c) && (c <=? "Z")) || (c =? "_"))%char.

Definition is_digit (c : ascii) : bool := (("0" <=? c) && (c <=? "9"))%char.

(** The longest prefix of [s] whose characters satisfy [p], and the rest. *)
Fixpoint span (p : ascii -> bool) (s : string) : string * string :=
  match s with
  | EmptyString => (EmptyString, EmptyString)
  | String c rest =>
      if p c then let '(a, b) := span p rest in (String c a, b)
      else (EmptyString, s)
  end.

Fixpoint take (n : nat) (s : string) : string :=
  match n, s with
  | S n', String c rest => String c (take n' rest)
  | _, _ => EmptyString
  end.

Fixpoint skip (n : nat) (s : string) : string :=
  match n, s with
  | S n', String _ rest => skip n' rest
  | _, _ => s
  end.

(** The number of bytes of the longest run of decimal digits that [s]
    starts with, in at most [fuel] digits: [\d] matches the ten digits of
    ASCII and the decimal digits of the other scripts. *)
Fixpoint digit_run (fuel : nat) (s : string) : nat :=
  match fuel with
  | O => O
  | S fuel' =>
      match s with
      | EmptyString => O
      | String c rest =>
          if is_digit c then S (digit_run fuel' rest)
          else if (nat_of_ascii c <? 128)%nat then O
          else
            match wide_digit s with
            | O => O
            | S n => (S n + digit_run fuel' (skip (S n) s))%nat
            end
      end
  end.

(** The longest run of decimal digits that [s] starts with, and the rest. *)
Definition digits (s : string) : string * string :=
  let n := digit_run (String.length s) s in (take n s, skip n s).

(** [re.match(r"([a-zA-Z_]+)(\d+)\.\.(\d+)", label)]: the three groups.  The
    classes of letters, of digits and the dot are disjoint, so the only way
    to match is with the longest run of each; what follows the last digit is
    not looked at. *)
Definition match_range (label : string) : option (string * string * string) :=
  let '(prefix, rest) := span is_letter label in
  let '(start, rest) := digits rest in
  match rest with
  | String "." (String "." rest) =>
      let '(end_, _) := digits rest in
      if (prefix =? "")%string || (start =? "")%string || (end_ =? "")%string then None
      else Some (prefix, start, end_)
  | _ => None
  end.

(** [range(start, stop, step)] for a step that is not 0. *)
Definition range3 (start stop step : Z) : list Z :=
  map (fun i => start + i * step) (range (arange_len start stop step)).

(** One turn of the loop of [_expand_labels]: what it appends for [label]. *)
Definition expand_label (label : string) : option (list string) :=
  match match_range label with
  | Some (prefix, start, end_) =>
      start_idx <~ int_of_str start ;;
      end_idx <~ int_of_str end_ ;;
      let step := if start_idx <=? end_idx then 1 else -1 in
      Some (map (fun idx => prefix ++ str_int idx)%string
                (range3 start_idx (end_idx + step) step))
  | None => Some [label]
  end.

Fixpoint expand_all (labels : list json) : option (list string) :=
  match labels with
  | [] => Some []
  | JStr label :: rest =>
      here <~ expand_label label ;;
      more <~ expand_all rest ;;
      Some (here ++ more)
  | _ :: _ => None
  end.

Definition _expand_labels (labels : json) : option (list string) :=
  each <~ elements labels ;; expand_all each.

(** ** The field types *)

(** A list or a dict is not hashable and cannot be looked up. *)
Definition _map_field_type_from_omr (raw_type : json) : option string :=
  match raw_type with
  | JNull => Some "INT"
  | JStr s => Some (match dict_get s FIELD_TYPE_FROM_OMR with Some t => t | None => "INT" end)
  | JList _ | JObj _ => None
  | _ => Some "INT"
  end.

Definition _map_field_type_to_omr (field_type : string) : string :=
  match dict_get field_type FIELD_TYPE_TO_OMR with
  | Some t => t
  | None => "QTYPE_INT"
  end.

(** ** [load_template] *)

Definition load_block (block_id : string) (block_data : json) : option FieldBlock :=
  origin <~ get block_data "origin" (JList [JInt 0; JInt 0]) ;;
  labels_raw <~ get block_data "fieldLabels" (JList []) ;;
  labels <~ _expand_labels labels_raw ;;
  raw_type <~ get block_data "fieldType" JNull ;;
  field_type <~ _map_field_type_from_omr raw_type ;;
  x <~ item origin 0 ;;
  origin_x <~ py_float x ;;
  y <~ item origin 1 ;;
  origin_y <~ py_float y ;;
  lg <~ get block_data "labelsGap" (JInt 0) ;;
  labels_gap <~ py_float lg ;;
  bg <~ get block_data "bubblesGap" (JInt 0) ;;
  bubbles_gap <~ py_float bg ;;
  Some {| id := block_id;
          field_type := field_type;
          labels := labels;
          origin_x := origin_x;
          origin_y := origin_y;
          labels_gap := labels_gap;
          bubbles_gap := bubbles_gap |}.

Fixpoint load_blocks (blocks : list (string * json)) : option (list FieldBlock) :=
  match blocks with
  | [] => Some []
  | (block_id, block_data) :: rest =>
      block <~ load_block block_id block_data ;;
      more <~ load_blocks rest ;;
      Some (block :: more)
  end.

Fixpoint load_groups (groups : list (string * json)) : option (list CustomLabelGroup) :=
  match groups with
  | [] => Some []
  | (name, components) :: rest =>
      expanded <~ _expand_labels components ;;
      more <~ load_groups rest ;;
      Some ({| name := name; component_labels := expanded |} :: more)
  end.

Definition load_template (raw : json) : option TemplateModel :=
  camel <~ get raw "pageDimensions" JNull ;;
  snake <~ get raw "page_dimensions" JNull ;;
  let page_dimensions := or_else (or_else camel snake) (JList [JInt 0; JInt 0]) in
  w <~ item page_dimensions 0 ;;
  width <~ py_int w ;;
  h <~ item page_dimensions 1 ;;
  height <~ py_int h ;;
  bubble_dims <~ get raw "bubbleDimensions" JNull ;;
  bubble_dimensions_tuple <~
    (if truth bubble_dims then
       a <~ item bubble_dims 0 ;;
       a <~ py_int a ;;
       b <~ item bubble_dims 1 ;;
       b <~ py_int b ;;
       Some (Some (a, b))
     else Some None) ;;
  pre <~ get raw "preProcessors" (JList []) ;;
  pre_processors <~ elements (or_else pre (JList [])) ;;
  blocks <~ get raw "fieldBlocks" (JObj []) ;;
  blocks <~ items blocks ;;
  field_blocks <~ load_blocks blocks ;;
  groups <~ get raw "customLabels" (JObj []) ;;
  groups <~ items (or_else groups (JObj [])) ;;
  custom_labels <~ load_groups groups ;;
  output_columns <~ get raw "outputColumns" (JList []) ;;
  output_columns <~ elements output_columns ;;
  Some {| page := {| width := width; height := height |};
          bubble_dimensions := bubble_dimensions_tuple;
          pre_processors := pre_processors;
          field_blocks := field_blocks;
          custom_labels := custom_labels;
          output_columns := output_columns |}.

End Loader.

(** ** [save_template]: the document written *)

Definition saved_block (block : FieldBlock) : json :=
  JObj [("fieldType", JStr (_map_field_type_to_omr (field_type block)));
        ("fieldLabels", JList (map JStr (labels block)));
        ("origin", JList [JInt (round_half_even (origin_x block));
                          JInt (round_half_even (origin_y block))]);
        ("labelsGap", JFloat (labels_gap block));
        ("bubblesGap", JFloat (bubbles_gap block))].

Definition save_template (model : TemplateModel) : json :=
  let data :=
    [("pageDimensions", JList [JInt (width (page model)); JInt (height (page model))]);
     ("preProcessors", JList (pre_processors model));
     ("fieldBlocks",
      JObj (fold_left (fun blocks block => dict_set (id block) (saved_block block) blocks)
                      (field_blocks model) []))] in
  let data :=
    match custom_labels model with
    | [] => data
    | _ :: _ =>
        dict_set "customLabels"
          (JObj (fold_left
                   (fun groups group =>
                      dict_set (name group) (JList (map JStr (component_labels group)))
                               groups)
                   (custom_labels model) []))
          data
    end in
  let data :=
    match output_columns model with
    | [] => data
    | _ :: _ => dict_set "outputColumns" (JList (output_columns model)) data
    end in
  let data :=
    match bubble_dimensions model with
    | Some (a, b) => dict_set "bubbleDimensions" (JList [JInt a; JInt b]) data
    | None => data
    end in
  JObj data.

End template_io.

(** ** Inputs for the loader *)

(** The value of a numeral of decimal digits. *)
Fixpoint decimal_value (acc : Z) (s : string) : option Z :=
  match s with
  | EmptyString => Some acc
  | String c rest =>
      if template_io.is_digit c
      then decimal_value (10 * acc + Z.of_nat (nat_of_ascii c - 48)) rest
      else None
  end.

(** The interpreter on ASCII text: the conversions on the plain numerals
    of decimal digits; no text of ASCII starts with a digit of another
    script. *)
Definition plain_numerals : template_io.PyStr := {|
  template_io.int_of_str :=
    fun s => if (s =? "")%string then None else decimal_value 0 s;
  template_io.float_of_str :=
    fun s => if (s =? "")%string then None else option_map inject_Z (decimal_value 0 s);
  template_io.wide_digit := fun _ => 0%nat
|}.


(** A label that [_expand_labels] hands on as it is. *)
Definition plain_labels {conv : template_io.PyStr} (labels : list string) : Prop :=
  forall label, In label labels -> template_io.match_range label = None.

(** A float that holds a whole number. *)
Definition whole (q : Q) : Prop := q = inject_Z (round_half_even q).

Definition kept_block {conv : template_io.PyStr} (block : template_model.FieldBlock) : Prop :=
  In (template_model.field_type block) ["INT"; "MCQ4"; "MCQ5"; "BOOLEAN"] /\
  plain_labels (template_model.labels block) /\
  whole (template_model.origin_x block) /\
  whole (template_model.origin_y block).

(** The templates that a file holds without loss: blocks and groups under
    names that differ, field types of the editor, no label in the form of a
    range, origins at whole pixels. *)
Definition kept_template {conv : template_io.PyStr} (model : template_model.TemplateModel)
    : Prop :=
  NoDup (map template_model.id (template_model.field_blocks model)) /\
  Forall kept_block (template_model.field_blocks model) /\
  NoDup (map template_model.name (template_model.custom_labels model)) /\
  Forall (fun group => plain_labels (template_model.component_labels group))
         (template_model.custom_labels model).

(** What reading back makes of a saved block. *)
Definition reloaded {conv : template_io.PyStr} (block block' : template_model.FieldBlock)
    : Prop :=
  template_model.id block' = template_model.id block /\
  template_model.field_type block'
  = (if in_set (template_model.field_type block) ["INT"; "MCQ4"; "MCQ5"; "BOOLEAN"]
     then template_model.field_type block else "INT") /\
  template_io.expand_all (map JStr (template_model.labels block))
  = Some (template_model.labels block') /\
  template_model.origin_x block' = inject_Z (round_half_even (template_model.origin_x block)) /\
  template_model.origin_y block' = inject_Z (round_half_even (template_model.origin_y block)) /\
  template_model.labels_gap block' = template_model.labels_gap block /\
  template_model.bubbles_gap block' = template_model.bubbles_gap block.

(** A template that a file does not hold as it is: two blocks under one
    name, a field type of no editor, labels given as ranges, origins between
    pixels. *)
Definition untidy_template : template_model.TemplateModel := {|
  template_model.page := {| template_model.width := 100; template_model.height := 200 |};
  template_model.bubble_dimensions := None;
  template_model.pre_processors := [];
  template_model.field_blocks :=
    [{| template_model.id := "Q";
        template_model.field_type := "CUSTOM";
        template_model.labels := ["q1..3"; "name"];
        template_model.origin_x := 3 # 2;
        template_model.origin_y := 5 # 2;
        template_model.labels_gap := 10;
        template_model.bubbles_gap := 20 |};
     {| template_model.id := "R";
        template_model.field_type := "CUSTOM";
        template_model.labels := ["r2..1x"; "name"];
        template_model.origin_x := 7 # 2;
        template_model.origin_y := 1 # 3;
        template_model.labels_gap := 10;
        template_model.bubbles_gap := 20 |};
     {| template_model.id := "Q";
        template_model.field_type := "BOOLEAN";
        template_model.labels := ["t5"];
        template_model.origin_x := 40;
        template_model.origin_y := 50;
        template_model.labels_gap := 1 # 2;
        template_model.bubbles_gap := 20 |}];
  template_model.custom_labels :=
    [{| template_model.name := "G"; template_model.component_labels := ["q1..2"] |}];
  template_model.output_columns := [JStr "G"]
|}.

(** What reading back the file of [untidy_template] gives. *)
Definition tidied_template : template_model.TemplateModel :=
  Eval vm_compute in
    match @template_io.load_template plain_numerals
            (template_io.save_template untidy_template) with
    | Some model => model
    | None => untidy_template
    end.

(** * Properties *)

(** ** Comparisons, ranges and the maximum of a response *)

Lemma Qlt_bool_iff (a b : Q) : Qlt_bool a b = true <-> (a < b)%Q.
Proof.
  unfold Qlt_bool. rewrite negb_true_iff.
  split; intro H.
  - apply Qnot_le_lt. intro Hle. apply Qle_bool_iff in Hle. congruence.
  - destruct (Qle_bool b a) eqn:E; [|reflexivity].
    apply Qle_bool_iff in E. exfalso. apply (Qlt_not_le _ _ H E).
Qed.

Lemma Qlt_bool_false_iff (a b : Q) : Qlt_bool a b = false <-> (b <= a)%Q.
Proof.
  unfold Qlt_bool. rewrite negb_false_iff. apply Qle_bool_iff.
Qed.

Lemma in_range (n : nat) (z : Z) : In z (range n) <-> 0 <= z < Z.of_nat n.
Proof.
  unfold range. rewrite in_map_iff. split.
  - intros [k [<- Hk]]. apply in_seq in Hk. lia.
  - intros Hz. exists (Z.to_nat z). split; [lia|]. apply in_seq. lia.
Qed.

Lemma in_locations (res : response) (x y : Z) :
  In (x, y) (locations res) <->
  0 <= x <= Z.of_nat (last_col res) /\ 0 <= y <= Z.of_nat (last_row res).
Proof.
  unfold locations. rewrite in_flat_map. split.
  - intros [y' [Hy Hx]]. apply in_map_iff in Hx. destruct Hx as [x' [E Hx]].
    inversion E; subst. apply in_range in Hy. apply in_range in Hx. lia.
  - intros [Hx Hy]. exists y. split.
    + apply in_range. lia.
    + apply in_map_iff. exists x. split; [reflexivity|]. apply in_range. lia.
Qed.

Lemma origin_in_locations (res : response) : In (0, 0) (locations res).
Proof. apply in_locations. lia. Qed.

Section FoldBetter.
Variable res : response.

Lemma better_value (best : Q * (Z * Z)) (loc : Z * Z) :
  fst best == value_of res (snd best) ->
  fst (better res best loc) == value_of res (snd (better res best loc)).
Proof.
  intro H. unfold better. destruct (Qlt_bool _ _); simpl; [reflexivity|exact H].
Qed.

Lemma better_ge (best : Q * (Z * Z)) (loc : Z * Z) :
  (fst best <= fst (better res best loc))%Q /\
  (value_of res loc <= fst (better res best loc))%Q.
Proof.
  unfold better. destruct (Qlt_bool _ _) eqn:E; simpl.
  - apply Qlt_bool_iff in E. split; [now apply Qlt_le_weak | apply Qle_refl].
  - apply Qlt_bool_false_iff in E. split; [apply Qle_refl | exact E].
Qed.

Lemma fold_better_spec (l : list (Z * Z)) (best : Q * (Z * Z)) :
  let r := fold_left (better res) l best in
  (fst best <= fst r)%Q /\
  (forall loc, In loc l -> (value_of res loc <= fst r)%Q) /\
  (fst best == value_of res (snd best) -> fst r == value_of res (snd r)) /\
  (snd r = snd best \/ In (snd r) l).
Proof.
  revert best. induction l as [|a l IH]; intro best; simpl.
  - repeat split; try apply Qle_refl; auto. intros loc [].
  - destruct (IH (better res best a)) as (H1 & H2 & H3 & H4).
    destruct (better_ge best a) as [G1 G2].
    repeat split.
    + eapply Qle_trans; eauto.
    + intros loc [->|Hin]; [eapply Qle_trans; eauto | now apply H2].
    + intro Hb. apply H3. now apply better_value.
    + destruct H4 as [H4|H4]; [|now right; right].
      rewrite H4. unfold better. destruct (Qlt_bool _ _); simpl; auto.
Qed.

End FoldBetter.

Lemma minMaxLoc_in (res : response) : In (snd (minMaxLoc res)) (locations res).
Proof.
  unfold minMaxLoc.
  destruct (fold_better_spec res (locations res) (value_at res 0 0, (0, 0)))
    as (_ & _ & _ & [H|H]); [|exact H].
  rewrite H. apply origin_in_locations.
Qed.

Lemma minMaxLoc_value (res : response) :
  fst (minMaxLoc res) == value_of res (snd (minMaxLoc res)).
Proof.
  unfold minMaxLoc.
  destruct (fold_better_spec res (locations res) (value_at res 0 0, (0, 0)))
    as (_ & _ & H & _).
  apply H. reflexivity.
Qed.



(** ** Sorted lists of scales *)

Lemma seq_sorted (n s : nat) : StronglySorted lt (seq s n).
Proof.
  revert s. induction n as [|n IH]; intro s; simpl; constructor.
  - apply IH.
  - apply Forall_forall. intros x Hx. apply in_seq in Hx. lia.
Qed.

Lemma map_sorted {A B : Type} (R : A -> A -> Prop) (R' : B -> B -> Prop) (f : A -> B)
    (l : list A) :
  (forall a b, R a b -> R' (f a) (f b)) ->
  StronglySorted R l -> StronglySorted R' (map f l).
Proof.
  intros Hf Hs. induction Hs as [|a l Hs IH Hall]; simpl; constructor.
  - exact IH.
  - apply Forall_forall. intros y Hy. apply in_map_iff in Hy.
    destruct Hy as [x [<- Hx]]. apply Hf.
    rewrite Forall_forall in Hall. now apply Hall.
Qed.

Lemma filter_sorted {A : Type} (R : A -> A -> Prop) (f : A -> bool) (l : list A) :
  StronglySorted R l -> StronglySorted R (filter f l).
Proof.
  intro Hs. induction Hs as [|a l Hs IH Hall]; simpl; [constructor|].
  destruct (f a); [|exact IH].
  constructor; [exact IH|].
  apply Forall_forall. intros y Hy. apply filter_In in Hy.
  rewrite Forall_forall in Hall. now apply Hall.
Qed.

Lemma sorted_after {A : Type} (R : A -> A -> Prop) (p q : list A) (s : A) :
  StronglySorted R (p ++ s :: q) -> Forall (R s) q.
Proof.
  induction p as [|a p IH]; simpl; intro Hs; inversion Hs; subst; auto.
Qed.

Lemma sorted_before {A : Type} (R : A -> A -> Prop) (p q : list A) (s : A) :
  StronglySorted R (p ++ s :: q) -> Forall (fun a => R a s) p.
Proof.
  induction p as [|a p IH]; simpl; intro Hs; [constructor|].
  inversion Hs; subst. constructor; [|now apply IH].
  rewrite Forall_forall in H2. apply H2. apply in_or_app. right. now left.
Qed.

Lemma arange_len_empty (start stop step : Z) :
  0 < step -> stop <= start -> arange_len start stop step = 0%nat.
Proof.
  intros Hstep Hle. unfold arange_len.
  destruct (0 <? step) eqn:E; [|apply Z.ltb_ge in E; lia].
  assert ((stop - start + step - 1) / step < 1) by (apply Z.div_lt_upper_bound; lia).
  lia.
Qed.

(** From a high bound down to a low bound, [arange] is strictly decreasing. *)
Lemma arange_descending (start stop step : Z) (l : list Z) :
  stop <= start -> arange start stop step = Returns l ->
  StronglySorted (fun a b => b < a) l.
Proof.
  intros Hle. unfold arange. destruct (step =? 0) eqn:E0; [discriminate|].
  apply Z.eqb_neq in E0. intro H. inversion H; subst; clear H.
  destruct (Z_lt_le_dec 0 step) as [Hpos|Hneg].
  - rewrite arange_len_empty by assumption. constructor.
  - unfold range. rewrite map_map.
    apply map_sorted with (R := lt); [|apply seq_sorted].
    intros a b Hab. nia.
Qed.

(** ** The scale search *)

Section BestMatch.
Context {cv : Cv}.
Variable self : CropOnMarkers cv.
Variable image_eroded_sub : ndarray.


Lemma try_scale_skip (st : option response * option Z * Q) :
  try_scale self image_eroded_sub st 0 = st.
Proof. destruct st as [[res bs] amt]. reflexivity. Qed.

Lemma try_scale_keeps (tested : list Z) (res : option response) (bs : option Z)
    (amt : Q) (r0 : Z) :
  r0 <> 0 ->
  best_so_far (max_at self image_eroded_sub) tested bs amt ->
  let '(_, bs', amt') := try_scale self image_eroded_sub (res, bs, amt) r0 in
  best_so_far (max_at self image_eroded_sub) (tested ++ [r0]) bs' amt'.
Proof.
  intros Hr0 Hinv. unfold try_scale.
  destruct (r0 =? 0) eqn:E; [apply Z.eqb_eq in E; contradiction|].
  fold (max_at self image_eroded_sub r0).
  destruct (Qlt_bool amt (max_at self image_eroded_sub r0)) eqn:Hlt.
  - apply Qlt_bool_iff in Hlt. simpl.
    split; [reflexivity|]. destruct bs as [s|]; simpl in Hinv.
    + destruct Hinv as (Hamt & Hpos & p & q & Ht & Hp & Hq).
      split; [eapply Qlt_trans; eauto|].
      exists tested, []. split; [reflexivity|]. split; [|intros r []].
      intros r Hr. subst tested. apply in_app_or in Hr.
      destruct Hr as [Hr|[<-|Hr]].
      * eapply Qlt_trans; [now apply Hp|exact Hlt].
      * now rewrite <- Hamt.
      * eapply Qle_lt_trans; [now apply Hq|exact Hlt].
    + destruct Hinv as [Hamt Hall]. subst amt.
      split; [exact Hlt|].
      exists tested, []. split; [reflexivity|]. split; [|intros r []].
      intros r Hr. eapply Qle_lt_trans; [now apply Hall|exact Hlt].
  - apply Qlt_bool_false_iff in Hlt.
    destruct bs as [s|]; simpl in Hinv |- *.
    + destruct Hinv as (Hamt & Hpos & p & q & Ht & Hp & Hq).
      repeat split; try assumption.
      exists p, (q ++ [r0]). split; [subst tested; now rewrite <- app_assoc|].
      split; [exact Hp|].
      intros r Hr. apply in_app_or in Hr. destruct Hr as [Hr|[<-|[]]]; auto.
    + destruct Hinv as [Hamt Hall]. split; [exact Hamt|].
      intros r Hr. apply in_app_or in Hr. destruct Hr as [Hr|[<-|[]]]; auto.
      now rewrite Hamt in Hlt.
Qed.

Lemma fold_try_scale (scales tested : list Z) (res : option response)
    (bs : option Z) (amt : Q) :
  best_so_far (max_at self image_eroded_sub) tested bs amt ->
  let '(_, bs', amt') :=
    fold_left (try_scale self image_eroded_sub) scales (res, bs, amt) in
  best_so_far (max_at self image_eroded_sub) (tested ++ evaluated scales) bs' amt'.
Proof.
  revert tested res bs amt.
  induction scales as [|r0 scales IH]; intros tested res bs amt Hinv.
  - simpl. now rewrite app_nil_r.
  - unfold evaluated; cbn [fold_left filter]; fold (evaluated scales).
    destruct (Z.eq_dec r0 0) as [->|Hr0].
    + rewrite try_scale_skip. simpl. now apply IH.
    + assert (E : (r0 =? 0) = false) by now apply Z.eqb_neq.
      rewrite E. cbn [negb].
      pose proof (try_scale_keeps tested res bs amt r0 Hr0 Hinv) as Hstep.
      destruct (try_scale self image_eroded_sub (res, bs, amt) r0) as [[res1 bs1] amt1].
      specialize (IH (tested ++ [r0]) res1 bs1 amt1 Hstep).
      now rewrite <- app_assoc in IH.
Qed.

(** What [getBestMatch] returns, in terms of the scales it evaluated. *)
Lemma getBestMatch_spec (best_scale : option Z) (all_max_t : Q) (log : list (event cv)) :
  getBestMatch self image_eroded_sub = Returns (best_scale, all_max_t, log) ->
  exists scales,
    scan_order self = Returns scales /\
    best_so_far (max_at self image_eroded_sub) (evaluated scales) best_scale all_max_t /\
    log = (if too_low self best_scale all_max_t
           then LogWarning "Template matching too low! Consider rechecking preProcessors applied before this."
                :: show_if (1 <=? show_image_level (tuning self)) "res"
           else [])
          ++ match best_scale with
             | None => [LogWarning "No matchings for given scaleRange:"]
             | Some _ => []
             end.
Proof.
  unfold getBestMatch. destruct (scan_order self) as [scales|e]; simpl; [|discriminate].
  destruct (existsb _ _); [discriminate|].
  pose proof (fold_try_scale scales [] None None 0%Q) as Hfold.
  destruct (fold_left (try_scale self image_eroded_sub) scales (None, None, 0%Q))
    as [[res bs] amt].
  intro H. inversion H; subst; clear H.
  exists scales. split; [reflexivity|]. split; [|reflexivity].
  apply Hfold. simpl. split; [reflexivity|]. intros r [].
Qed.

(** [getBestMatch] returns exactly when the step of the scales is defined
    and not 0 and OpenCV refuses none of the evaluated scales. *)
Lemma getBestMatch_returns_iff :
  (exists r, getBestMatch self image_eroded_sub = Returns r) <->
  (exists scales,
      scan_order self = Returns scales /\
      forall r0, In r0 (evaluated scales) -> refused self image_eroded_sub r0 = false).
Proof.
  unfold getBestMatch. destruct (scan_order self) as [scales|e]; simpl.
  - destruct (existsb (refused self image_eroded_sub) (evaluated scales)) eqn:E.
    + split; [intros [r Hr]; discriminate|].
      intros [scales' [Heq Hall]]. inversion Heq; subst scales'.
      apply existsb_exists in E. destruct E as [r0 [Hin Href]].
      rewrite (Hall r0 Hin) in Href. discriminate.
    + destruct (fold_left _ _ _) as [[res bs] amt]. split; [|eauto].
      intros _. exists scales. split; [reflexivity|].
      intros r0 Hin. destruct (refused self image_eroded_sub r0) eqn:Href; [|reflexivity].
      assert (existsb (refused self image_eroded_sub) (evaluated scales) = true)
        by (apply existsb_exists; eauto).
      congruence.
  - split; [intros [x Hx]; discriminate|intros [x [Hx _]]; discriminate].
Qed.

(** A scale that [getBestMatch] evaluated before it returned was not
    refused. *)
Lemma getBestMatch_accepted (r : option Z * Q * list (event cv)) (scales : list Z) (r0 : Z) :
  getBestMatch self image_eroded_sub = Returns r ->
  scan_order self = Returns scales ->
  In r0 (evaluated scales) ->
  refused self image_eroded_sub r0 = false.
Proof.
  intros Hret Hscan Hin.
  destruct (proj1 getBestMatch_returns_iff (ex_intro _ r Hret)) as [scales' [Hscan' Hall]].
  rewrite Hscan in Hscan'. inversion Hscan'; subst scales'. now apply Hall.
Qed.

(** Only the step of the scales and a refusal of OpenCV make
    [getBestMatch] raise. *)
Lemma getBestMatch_raises (e : exn) :
  getBestMatch self image_eroded_sub = Raises e ->
  (e = ZeroDivisionError /\ scan_order self = Raises ZeroDivisionError) \/
  (e = LibraryError /\
   exists scales r0,
     scan_order self = Returns scales /\ In r0 (evaluated scales) /\
     refused self image_eroded_sub r0 = true).
Proof.
  unfold getBestMatch.
  destruct (scan_order self) as [scales|e'] eqn:Hscan; cbn [bind].
  - destruct (existsb (refused self image_eroded_sub) (evaluated scales)) eqn:E.
    + intro H. inversion H; subst. right. split; [reflexivity|].
      apply existsb_exists in E. destruct E as [r0 [Hin Href]]. eauto.
    + destruct (fold_left _ _ _) as [[res bs] amt]. discriminate.
  - intro H. inversion H; subst. left.
    unfold scan_order, descent_per_step, floordiv, arange in Hscan.
    destruct (marker_rescale_steps self =? 0); cbn [bind] in Hscan.
    + inversion Hscan. now split.
    + destruct (_ =? 0); [inversion Hscan; now split|discriminate].
Qed.

(** The scale that [getBestMatch] returns was not refused. *)
Lemma getBestMatch_best_accepted (s : Z) (all_max_t : Q) (log : list (event cv)) :
  getBestMatch self image_eroded_sub = Returns (Some s, all_max_t, log) ->
  refused self image_eroded_sub s = false.
Proof.
  intro H. destruct (getBestMatch_spec _ _ _ H) as (scales & Hscan & Hinv & _).
  cbn [best_so_far] in Hinv. destruct Hinv as (_ & _ & before & after & Heq & _).
  apply (getBestMatch_accepted _ scales s H Hscan).
  rewrite Heq. apply in_or_app. right. now left.
Qed.

End BestMatch.

(** C8. When [getBestMatch] returns a scale, that scale was evaluated, its
    maximum response is the returned score and is at least the maximum
    response of every evaluated scale; every scale evaluated before it has a
    strictly smaller maximum response (the first tested wins a tie), and with
    a range [low <= high] the scales evaluated before it are the larger
    ones, so the returned scale is the largest among those that reach the
    best response. *)
Theorem getBestMatch_first_best {cv : Cv} (self : CropOnMarkers cv)
    (image_eroded_sub : ndarray) (s : Z) (all_max_t : Q) (log : list (event cv)) :
  getBestMatch self image_eroded_sub = Returns (Some s, all_max_t, log) ->
  exists scales before after,
    scan_order self = Returns scales /\
    evaluated scales = before ++ s :: after /\
    all_max_t = max_at self image_eroded_sub s /\
    (forall r, In r (evaluated scales) ->
               (max_at self image_eroded_sub r <= all_max_t)%Q) /\
    (forall r, In r before -> (max_at self image_eroded_sub r < all_max_t)%Q) /\
    (fst (marker_rescale_range self) <= snd (marker_rescale_range self) ->
     (forall r, In r before -> s < r) /\
     (forall r, In r (evaluated scales) ->
                max_at self image_eroded_sub r == all_max_t -> r <= s)).
Proof.
  intro H. apply getBestMatch_spec in H.
  destruct H as (scales & Hscan & Hinv & _).
  simpl in Hinv. destruct Hinv as (Hamt & _ & before & after & Heq & Hb & Ha).
  exists scales, before, after.
  split; [exact Hscan|]. split; [exact Heq|]. split; [exact Hamt|].
  split; [|split; [exact Hb|]].
  - intros r Hr. rewrite Heq in Hr. apply in_app_or in Hr.
    destruct Hr as [Hr|[<-|Hr]].
    + apply Qlt_le_weak. now apply Hb.
    + rewrite Hamt. apply Qle_refl.
    + now apply Ha.
  - intro Hrange.
    assert (Hsorted : StronglySorted (fun a b => b < a) (evaluated scales)).
    { apply filter_sorted. unfold scan_order in Hscan.
      destruct (descent_per_step self) as [d|e]; simpl in Hscan; [|discriminate].
      eapply arange_descending; eauto. }
    rewrite Heq in Hsorted.
    pose proof (sorted_before _ _ _ _ Hsorted) as Hbefore.
    pose proof (sorted_after _ _ _ _ Hsorted) as Hafter.
    rewrite Forall_forall in Hbefore, Hafter.
    split; [exact Hbefore|].
    intros r Hr Hmax. rewrite Heq in Hr. apply in_app_or in Hr.
    destruct Hr as [Hr|[<-|Hr]].
    + exfalso. apply Hb in Hr. rewrite Hmax in Hr. apply (Qlt_irrefl _ Hr).
    + lia.
    + apply Hafter in Hr. lia.
Qed.

Lemma getBestMatch_first_best_witness :
  exists scales before after,
    scan_order (processor corners_table half_to_full) = Returns scales /\
    evaluated scales = before ++ 100 :: after /\
    1%Q = max_at (processor corners_table half_to_full) (NormalizeUtil sheet) 100 /\
    (forall r, In r (evaluated scales) ->
               (max_at (processor corners_table half_to_full) (NormalizeUtil sheet) r <= 1)%Q) /\
    (forall r, In r before ->
               (max_at (processor corners_table half_to_full) (NormalizeUtil sheet) r < 1)%Q) /\
    (forall r, In r before -> 100 < r) /\
    (forall r, In r (evaluated scales) ->
               max_at (processor corners_table half_to_full) (NormalizeUtil sheet) r == 1 ->
               r <= 100).
Proof.
  destruct (getBestMatch_first_best (processor corners_table half_to_full)
              (NormalizeUtil sheet) 100 1%Q [])
    as (scales & before & after & Hscan & Heq & Hmax & Hall & Hbefore & Hlargest).
  - vm_compute. reflexivity.
  - exists scales, before, after.
    assert (Hrange : fst (marker_rescale_range (processor corners_table half_to_full))
                     <= snd (marker_rescale_range (processor corners_table half_to_full)))
      by (simpl; lia).
    destruct (Hlargest Hrange) as [Hlarger Hfirst].
    repeat split; assumption.
Defined.




(** ** The candidate loop of the global search *)

Lemma suppress_value (res : response) (sx sy x y : Z) (loc : Z * Z) :
  value_of (suppress res sx sy x y) loc
  = if in_window (window res sx sy x y) loc then 0%Q else value_of res loc.
Proof. reflexivity. Qed.

Lemma suppress_last_row (res : response) (sx sy x y : Z) :
  last_row (suppress res sx sy x y) = last_row res.
Proof. reflexivity. Qed.

Lemma suppress_last_col (res : response) (sx sy x y : Z) :
  last_col (suppress res sx sy x y) = last_col res.
Proof. reflexivity. Qed.

Lemma suppress_locations (res : response) (sx sy x y : Z) :
  locations (suppress res sx sy x y) = locations res.
Proof. reflexivity. Qed.

(** The window of a location depends on the array through its size only. *)
Lemma window_same_size (res res' : response) (sx sy x y : Z) :
  last_row res' = last_row res -> last_col res' = last_col res ->
  window res' sx sy x y = window res sx sy x y.
Proof. intros Hr Hc. unfold window. now rewrite Hr, Hc. Qed.



Section Collect.
Variables (thr : Q) (sx sy : Z).

Lemma collect_step (n : nat) (res : response) :
  collect (S n) thr sx sy res
  = if Qlt_bool (fst (minMaxLoc res)) thr then ([], res)
    else
      let next := collect n thr sx sy
                    (suppress res sx sy (fst (snd (minMaxLoc res))) (snd (snd (minMaxLoc res)))) in
      ((fst (minMaxLoc res), fst (snd (minMaxLoc res)), snd (snd (minMaxLoc res)))
         :: fst next, snd next).
Proof.
  simpl. destruct (minMaxLoc res) as [mv [x y]]. simpl.
  destruct (Qlt_bool mv thr); [reflexivity|].
  now destruct (collect n thr sx sy (suppress res sx sy x y)).
Qed.

Lemma collect_length (n : nat) (res : response) :
  (length (fst (collect n thr sx sy res)) <= n)%nat.
Proof.
  revert res. induction n as [|n IH]; intro res; [simpl; lia|].
  rewrite collect_step. destruct (Qlt_bool _ _); simpl; [lia|].
  apply le_n_S, IH.
Qed.

(** Every recorded candidate reached the threshold. *)
Lemma collect_above (n : nat) (res : response) (c : candidate) :
  In c (fst (collect n thr sx sy res)) -> (thr <= cand_score c)%Q.
Proof.
  revert res. induction n as [|n IH]; intro res; [intros []|].
  rewrite collect_step. destruct (Qlt_bool _ _) eqn:E; simpl; [intros []|].
  intros [<-|Hin]; [|now apply IH in Hin].
  apply Qlt_bool_false_iff in E. exact E.
Qed.

(** The loop ends before its last turn only below the threshold. *)
Lemma collect_stops (n : nat) (res : response) :
  (length (fst (collect n thr sx sy res)) < n)%nat ->
  (res_max (snd (collect n thr sx sy res)) < thr)%Q.
Proof.
  revert res. induction n as [|n IH]; intro res; [simpl; lia|].
  rewrite collect_step. destruct (Qlt_bool _ _) eqn:E; simpl.
  - intros _. now apply Qlt_bool_iff.
  - intro Hlen. apply IH. lia.
Qed.

(** Below the threshold the loop stops at once. *)
Lemma collect_below (n : nat) (res : response) :
  (res_max res < thr)%Q -> collect n thr sx sy res = ([], res).
Proof.
  intro H. destruct n as [|n]; [reflexivity|].
  rewrite collect_step. apply Qlt_bool_iff in H. unfold res_max in H. now rewrite H.
Qed.

(** An entry that is zero stays zero. *)
Lemma collect_keeps_zero (n : nat) (res : response) (loc : Z * Z) :
  value_of res loc == 0 -> value_of (snd (collect n thr sx sy res)) loc == 0.
Proof.
  revert res. induction n as [|n IH]; intros res Hz; [exact Hz|].
  rewrite collect_step. destruct (Qlt_bool _ _); simpl; [exact Hz|].
  apply IH. rewrite suppress_value. destruct (in_window _ _); [reflexivity|exact Hz].
Qed.

(** With a positive threshold, a recorded candidate sits where the array the
    loop started from holds at least the threshold. *)
Lemma collect_untouched (n : nat) (res : response) (c : candidate) :
  (0 < thr)%Q -> In c (fst (collect n thr sx sy res)) ->
  (thr <= value_of res (cand_loc c))%Q.
Proof.
  intro Hthr. revert res. induction n as [|n IH]; intro res; [intros []|].
  rewrite collect_step. destruct (Qlt_bool _ _) eqn:E; simpl; [intros []|].
  intros [<-|Hin].
  - apply Qlt_bool_false_iff in E. unfold cand_loc. simpl.
    rewrite (minMaxLoc_value res) in E. now destruct (snd (minMaxLoc res)).
  - apply IH in Hin. rewrite suppress_value in Hin.
    destruct (in_window _ _); [|exact Hin].
    exfalso. apply (Qlt_not_le _ _ Hthr Hin).
Qed.

Lemma collect_outside (n : nat) (res : response) (x y : Z) (c : candidate) :
  (0 < thr)%Q -> In c (fst (collect n thr sx sy (suppress res sx sy x y))) ->
  in_window (window res sx sy x y) (cand_loc c) = false.
Proof.
  intros Hthr Hin. apply collect_untouched in Hin; [|exact Hthr].
  rewrite suppress_value in Hin.
  destruct (in_window _ _); [|reflexivity].
  exfalso. apply (Qlt_not_le _ _ Hthr Hin).
Qed.

(** With a positive threshold no candidate lies in the window of one
    recorded before it. *)
Lemma collect_apart (n : nat) (res size : response) :
  (0 < thr)%Q ->
  last_row res = last_row size -> last_col res = last_col size ->
  ForallOrdPairs
    (fun c c' : candidate =>
       in_window (window size sx sy (fst (cand_loc c)) (snd (cand_loc c))) (cand_loc c') = false)
    (fst (collect n thr sx sy res)).
Proof.
  intro Hthr. revert res. induction n as [|n IH]; intros res Hr Hc; [constructor|].
  rewrite collect_step. destruct (Qlt_bool _ _); cbn [fst snd]; [constructor|].
  constructor.
  - apply Forall_forall. intros c' Hin. cbn [cand_loc fst snd].
    rewrite <- (window_same_size size res) by congruence.
    eapply collect_outside; eauto.
  - apply IH; assumption.
Qed.

(** The window of every recorded candidate is zero when the loop ends. *)
Lemma collect_zeroed (n : nat) (res size : response) (c : candidate) (loc : Z * Z) :
  last_row res = last_row size -> last_col res = last_col size ->
  In c (fst (collect n thr sx sy res)) ->
  in_window (window size sx sy (fst (cand_loc c)) (snd (cand_loc c))) loc = true ->
  value_of (snd (collect n thr sx sy res)) loc == 0.
Proof.
  revert res. induction n as [|n IH]; intros res Hr Hc; [intros []|].
  rewrite collect_step. destruct (Qlt_bool _ _); cbn [fst snd]; [intros []|].
  intros [<-|Hin] Hw.
  - apply collect_keeps_zero. rewrite suppress_value.
    cbn [cand_loc fst snd] in Hw.
    rewrite (window_same_size size res) by congruence.
    now rewrite Hw.
  - eapply IH; eauto.
Qed.




End Collect.

Lemma in_window_iff (res : response) (sx sy x y : Z) (loc : Z * Z) :
  in_window (window res sx sy x y) loc = true <->
  Z.max 0 (x - sx) <= fst loc <= Z.min (Z.of_nat (last_col res)) (x + sx) /\
  Z.max 0 (y - sy) <= snd loc <= Z.min (Z.of_nat (last_row res)) (y + sy).
Proof.
  unfold in_window, window. rewrite !andb_true_iff, !Z.leb_le. tauto.
Qed.

(** C6. With a threshold above 0, when the candidate loop of the global
    search ends, every entry of [res_work] inside the suppression window of a
    recorded candidate (radius [max(1, int(0.9 * size))] around it, clamped
    to the array) is zero, and no candidate lies inside the window of a
    candidate recorded before it. *)
Theorem suppression_keeps_candidates_apart {cv : Cv} (self : CropOnMarkers cv)
    (res : response) (w h : Z) :
  (0 < min_matching_threshold self)%Q ->
  (forall c loc,
      In c (candidates_of self res w h) ->
      in_window (window res (suppress_radius w) (suppress_radius h)
                        (fst (cand_loc c)) (snd (cand_loc c))) loc = true ->
      value_of (snd (collect max_candidates (min_matching_threshold self)
                             (suppress_radius w) (suppress_radius h) res)) loc == 0) /\
  ForallOrdPairs
    (fun c c' : candidate =>
       in_window (window res (suppress_radius w) (suppress_radius h)
                         (fst (cand_loc c)) (snd (cand_loc c))) (cand_loc c') = false)
    (candidates_of self res w h) /\
  (forall x y loc,
      in_window (window res (suppress_radius w) (suppress_radius h) x y) loc = true <->
      Z.max 0 (x - Z.max 1 (9 * w / 10)) <= fst loc
        <= Z.min (Z.of_nat (last_col res)) (x + Z.max 1 (9 * w / 10)) /\
      Z.max 0 (y - Z.max 1 (9 * h / 10)) <= snd loc
        <= Z.min (Z.of_nat (last_row res)) (y + Z.max 1 (9 * h / 10))).
Proof.
  intro Hthr. split; [|split].
  - intros c loc Hin Hw. eapply collect_zeroed; eauto.
  - apply collect_apart; auto.
  - intros x y loc. apply in_window_iff.
Qed.

Lemma suppression_keeps_candidates_apart_witness :
  (forall c loc,
      In c (candidates_of (processor corners_table (with_mode "global" (3 # 10))) corners 2 2) ->
      in_window (window corners (suppress_radius 2) (suppress_radius 2)
                        (fst (cand_loc c)) (snd (cand_loc c))) loc = true ->
      value_of (snd (collect max_candidates (3 # 10)
                             (suppress_radius 2) (suppress_radius 2) corners)) loc == 0) /\
  ForallOrdPairs
    (fun c c' : candidate =>
       in_window (window corners (suppress_radius 2) (suppress_radius 2)
                         (fst (cand_loc c)) (snd (cand_loc c))) (cand_loc c') = false)
    (candidates_of (processor corners_table (with_mode "global" (3 # 10))) corners 2 2) /\
  (forall x y loc,
      in_window (window corners (suppress_radius 2) (suppress_radius 2) x y) loc = true <->
      Z.max 0 (x - Z.max 1 (9 * 2 / 10)) <= fst loc
        <= Z.min (Z.of_nat (last_col corners)) (x + Z.max 1 (9 * 2 / 10)) /\
      Z.max 0 (y - Z.max 1 (9 * 2 / 10)) <= snd loc
        <= Z.min (Z.of_nat (last_row corners)) (y + Z.max 1 (9 * 2 / 10))).
Proof.
  apply (suppression_keeps_candidates_apart
           (processor corners_table (with_mode "global" (3 # 10))) corners 2 2).
  reflexivity.
Defined.

(** ** The global search inside [apply_filter] *)

Section Global.
Context {cv : Cv}.
Variable self : CropOnMarkers cv.

Lemma get_centres_global_few (image_eroded_sub optimal_marker : ndarray) :
  (length (candidates_of self (matchTemplate image_eroded_sub optimal_marker)
                         (snd (shape optimal_marker)) (fst (shape optimal_marker))) < 4)%nat ->
  _get_centres_global self image_eroded_sub optimal_marker
  = (None,
     LogError "Error: Not enough markers found in global search."
     :: (if 1 <=? show_image_level (tuning self)
         then [ShowImage "Marker search"; ShowImage "matchTemplate res"] else [])).
Proof.
  intro Hlen. unfold _get_centres_global.
  destruct (shape optimal_marker) as [h w]. simpl in Hlen.
  apply Nat.ltb_lt in Hlen. now rewrite Hlen.
Qed.

Lemma getBestMatch_log_quiet (image_eroded_sub : ndarray) (best_scale : option Z)
    (all_max_t : Q) (log : list (event cv)) (e : event cv) :
  getBestMatch self image_eroded_sub = Returns (best_scale, all_max_t, log) ->
  In e log -> (exists msg, e = LogWarning msg) \/ (exists title, e = ShowImage title).
Proof.
  intros H Hin. apply getBestMatch_spec in H. destruct H as (scales & _ & _ & ->).
  apply in_app_or in Hin. destruct Hin as [Hin|Hin].
  - destruct (too_low _ _ _); [|destruct Hin].
    destruct Hin as [<-|Hin]; [left; eauto|].
    unfold show_if in Hin. destruct (1 <=? _); [|destruct Hin].
    destruct Hin as [<-|[]]. right; eauto.
  - destruct best_scale; [destruct Hin|].
    destruct Hin as [<-|[]]. left; eauto.
Qed.

(** In the global modes the calls of OpenCV that follow [getBestMatch] are
    those it made at the scale it returns. *)
Lemma global_guard (image : ndarray) (s : Z) (all_max_t : Q) :
  in_global self = true ->
  resize_util_h_refused (marker self) (scaled_height (fst (shape (marker self))) s)
  || locate_refused self image (rescaled_marker self s) all_max_t
  = refused self (working self image) s.
Proof. intro Hglobal. unfold locate_refused, refused. now rewrite Hglobal. Qed.

Lemma global_guard_passed (image : ndarray) (s : Z) (all_max_t : Q)
    (log : list (event cv)) :
  in_global self = true ->
  getBestMatch self (working self image) = Returns (Some s, all_max_t, log) ->
  resize_util_h_refused (marker self) (scaled_height (fst (shape (marker self))) s)
  || locate_refused self image (rescaled_marker self s) all_max_t
  = false.
Proof.
  intros Hglobal Hbest. rewrite global_guard by exact Hglobal.
  eapply getBestMatch_best_accepted; eauto.
Qed.

End Global.

(** C7. In the global modes, once a scale is chosen, the candidate loop
    records at most 20 candidates, each at or above
    [min_matching_threshold], and it ends before its 20th turn only when the
    maximum of what is left of the response is below the threshold.  With
    fewer than 4 candidates [_get_centres_global] hands back no centres and
    [apply_filter] returns [None] without a call of the 4-point transform. *)
Theorem global_search_needs_four_candidates {cv : Cv} (self : CropOnMarkers cv)
    (image : ndarray) (s : Z) (all_max_t : Q) (log1 : list (event cv)) :
  in_global self = true ->
  getBestMatch self (working self image) = Returns (Some s, all_max_t, log1) ->
  (length (fst (global_scan self image s)) <= 20)%nat /\
  (forall c, In c (fst (global_scan self image s)) ->
             (min_matching_threshold self <= cand_score c)%Q) /\
  ((length (fst (global_scan self image s)) < 20)%nat ->
   (res_max (snd (global_scan self image s)) < min_matching_threshold self)%Q) /\
  ((res_max (matchTemplate (working self image) (rescaled_marker self s))
    < min_matching_threshold self)%Q ->
   fst (global_scan self image s) = []) /\
  ((length (fst (global_scan self image s)) < 4)%nat ->
   fst (_get_centres_global self (working self image) (rescaled_marker self s)) = None /\
   exists log,
     apply_filter self image = Returns (None, log) /\
     forall e, In e log -> is_transform e = false).
Proof.
  intros Hglobal Hbest. unfold global_scan.
  split; [apply collect_length|].
  split; [intros c; apply collect_above|].
  split; [apply collect_stops|].
  split; [intro Hlow; now rewrite collect_below|].
  intro Hlen.
  pose proof (get_centres_global_few self (working self image) (rescaled_marker self s) Hlen)
    as Hnone.
  split; [now rewrite Hnone|].
  unfold apply_filter. rewrite Hbest. cbn [bind].
  rewrite (global_guard_passed self image s all_max_t log1 Hglobal Hbest).
  unfold locate_markers. rewrite Hglobal, Hnone.
  eexists. split; [reflexivity|].
  intros e He. apply in_app_or in He. destruct He as [He|He].
  - destruct (getBestMatch_log_quiet self _ _ _ _ e Hbest He) as [[msg ->]|[title ->]];
      reflexivity.
  - destruct He as [<-|He]; [reflexivity|].
    destruct (1 <=? _); [|destruct He].
    destruct He as [<-|[<-|[]]]; reflexivity.
Qed.

Lemma global_search_needs_four_candidates_witness :
  (length (fst (global_scan (processor quarter_table (with_mode "global" (1 # 5)))
                            sheet 100)) <= 20)%nat /\
  (forall c, In c (fst (global_scan (processor quarter_table (with_mode "global" (1 # 5)))
                                    sheet 100)) ->
             (min_matching_threshold (processor quarter_table (with_mode "global" (1 # 5)))
              <= cand_score c)%Q) /\
  (res_max (snd (global_scan (processor quarter_table (with_mode "global" (1 # 5)))
                             sheet 100))
   < min_matching_threshold (processor quarter_table (with_mode "global" (1 # 5))))%Q /\
  fst (_get_centres_global (processor quarter_table (with_mode "global" (1 # 5)))
         (working (processor quarter_table (with_mode "global" (1 # 5))) sheet)
         (rescaled_marker (processor quarter_table (with_mode "global" (1 # 5))) 100))
  = None /\
  exists log,
    apply_filter (processor quarter_table (with_mode "global" (1 # 5))) sheet
    = Returns (None, log) /\
    forall e, In e log -> is_transform e = false.
Proof.
  destruct (global_search_needs_four_candidates
              (processor quarter_table (with_mode "global" (1 # 5))) sheet 100 (1 # 4) [])
    as (Hlen & Habove & Hstop & _ & Hfew).
  - reflexivity.
  - vm_compute. reflexivity.
  - split; [exact Hlen|]. split; [exact Habove|].
    split; [apply Hstop; vm_compute; lia|].
    apply Hfew. vm_compute. lia.
Defined.

(** ** The selection among the candidates *)

Lemma combinations_subseq {A : Type} (k : nat) (l c : list A) :
  In c (combinations k l) <-> Subseq c l /\ length c = k.
Proof.
  split.
  - revert k c. induction l as [|x l IH]; intros k c Hin.
    + destruct k; simpl in Hin; [|destruct Hin].
      destruct Hin as [<-|[]]. split; [constructor|reflexivity].
    + destruct k; simpl in Hin.
      * destruct Hin as [<-|[]]. split; [constructor|reflexivity].
      * apply in_app_or in Hin. destruct Hin as [Hin|Hin].
        -- apply in_map_iff in Hin. destruct Hin as [c' [<- Hc']].
           apply IH in Hc'. destruct Hc' as [Hs Hl].
           split; [now constructor|simpl; now rewrite Hl].
        -- apply IH in Hin. destruct Hin as [Hs Hl]. split; [now constructor|exact Hl].
  - intros [Hs Hl]. revert k Hl. induction Hs as [l|x c l Hs IH|x c l Hs IH]; intros k Hl.
    + simpl in Hl. subst k. destruct l; simpl; now left.
    + simpl in Hl. subst k. simpl. apply in_or_app. left.
      apply in_map. now apply IH.
    + destruct k.
      * destruct c; [simpl; now left|discriminate].
      * simpl. apply in_or_app. right. now apply IH.
Qed.

Lemma firstn_subseq {A : Type} (n : nat) (l : list A) : Subseq (firstn n l) l.
Proof.
  revert n. induction l as [|x l IH]; intro n.
  - rewrite firstn_nil. constructor.
  - destruct n; simpl; constructor. apply IH.
Qed.

Lemma top_k_firstn (candidates : list candidate) : top_k candidates = firstn 12 candidates.
Proof.
  unfold top_k. destruct (Nat.le_ge_cases (length candidates) 12) as [H|H].
  - rewrite Nat.min_l by exact H. now rewrite firstn_all, firstn_all2.
  - now rewrite Nat.min_r by exact H.
Qed.

Section Selection.
Context {cv : Cv}.
Variables w h : Z.

Lemma pick_keeps (seen : list (list candidate)) (st : option (list candidate * Q * Q))
    (combo : list candidate) :
  best_of w h seen st -> best_of w h (seen ++ [combo]) (pick w h st combo).
Proof.
  intro Hinv. destruct st as [[[best ba] bs]|]; simpl in Hinv |- *.
  - destruct Hinv as (Ha & Hs & Hin & Hall).
    destruct (Qlt_bool ba (area w h combo)
              || Qeq_bool (area w h combo) ba && Qlt_bool bs (score combo)) eqn:E.
    + split; [reflexivity|]. split; [reflexivity|].
      split; [apply in_or_app; right; now left|].
      intros c Hc. apply in_app_or in Hc. destruct Hc as [Hc|[<-|[]]].
      * apply orb_true_iff in E. destruct E as [E|E].
        -- apply Qlt_bool_iff in E. left.
           destruct (Hall c Hc) as [Hlt|[Heq _]].
           ++ eapply Qlt_trans; eauto.
           ++ now rewrite Heq.
        -- apply andb_true_iff in E. destruct E as [E1 E2].
           apply Qeq_bool_iff in E1. apply Qlt_bool_iff in E2.
           destruct (Hall c Hc) as [Hlt|[Heq Hle]].
           ++ left. now rewrite E1.
           ++ right. split; [now rewrite E1|].
              apply Qlt_le_weak. eapply Qle_lt_trans; eauto.
      * right. split; [reflexivity|apply Qle_refl].
    + split; [exact Ha|]. split; [exact Hs|].
      split; [apply in_or_app; now left|].
      intros c Hc. apply in_app_or in Hc. destruct Hc as [Hc|[<-|[]]]; [now apply Hall|].
      apply orb_false_iff in E. destruct E as [E1 E2].
      apply Qlt_bool_false_iff in E1.
      destruct (Qeq_bool (area w h combo) ba) eqn:E3.
      * apply Qeq_bool_iff in E3. simpl in E2. apply Qlt_bool_false_iff in E2.
        right. now split.
      * left. apply Qle_lteq in E1. destruct E1 as [E1|E1]; [exact E1|].
        apply Qeq_bool_iff in E1. congruence.
  - subst seen. split; [reflexivity|]. split; [reflexivity|].
    split; [now left|].
    intros c [<-|[]]. right. split; [reflexivity|apply Qle_refl].
Qed.

Lemma fold_pick (combos seen : list (list candidate))
    (st : option (list candidate * Q * Q)) :
  best_of w h seen st -> best_of w h (seen ++ combos) (fold_left (pick w h) combos st).
Proof.
  revert seen st. induction combos as [|c combos IH]; intros seen st Hinv; simpl.
  - now rewrite app_nil_r.
  - replace (seen ++ c :: combos) with ((seen ++ [c]) ++ combos)
      by now rewrite <- app_assoc.
    apply IH. now apply pick_keeps.
Qed.

(** With at least four candidates the selection finds a best combination. *)
Lemma best_combo_spec (candidates : list candidate) :
  (4 <= length candidates)%nat ->
  exists best,
    best_combo w h candidates = Some (best, area w h best, score best) /\
    Subseq best (firstn 12 candidates) /\ length best = 4%nat /\
    forall combo,
      Subseq combo (firstn 12 candidates) -> length combo = 4%nat ->
      (area w h combo <= area w h best)%Q /\
      (area w h combo == area w h best -> (score combo <= score best)%Q).
Proof.
  intro Hlen. unfold best_combo. rewrite top_k_firstn.
  pose proof (fold_pick (combinations 4 (firstn 12 candidates)) [] None eq_refl) as Hinv.
  cbn [app] in Hinv.
  destruct (fold_left (pick w h) (combinations 4 (firstn 12 candidates)) None)
    as [[[best ba] bs]|]; unfold best_of in Hinv.
  - destruct Hinv as (-> & -> & Hin & Hall).
    exists best. split; [reflexivity|].
    apply combinations_subseq in Hin. destruct Hin as [Hs Hl].
    split; [exact Hs|]. split; [exact Hl|].
    intros combo Hcs Hcl.
    destruct (Hall combo) as [Hlt|[Heq Hle]].
    + apply combinations_subseq. now split.
    + split; [now apply Qlt_le_weak|].
      intro Heq. rewrite Heq in Hlt. exfalso. apply (Qlt_irrefl _ Hlt).
    + split; [rewrite Heq; apply Qle_refl|]. intros _. exact Hle.
  - exfalso.
    assert (Hin : In (firstn 4 (firstn 12 candidates))
                     (combinations 4 (firstn 12 candidates))).
    { apply combinations_subseq. split; [apply firstn_subseq|].
      rewrite !length_firstn. lia. }
    rewrite Hinv in Hin. destruct Hin.
Qed.

End Selection.











(** What the selection comes to on the six peaks: the best combination is
    the first one in the order of [itertools.combinations] among those of
    area 36 and score 3.375; the combination of the four corners has the
    same area and the lower score 3. *)
Lemma six_peaks_selection :
  (exists best_area best_score,
      best_combo (cv := symbolic six_table) 2 2 six_candidates
      = Some ([(1%Q, 3, 3); ((7 # 8)%Q, 3, 0); ((3 # 4)%Q, 0, 0); ((3 # 4)%Q, 6, 6)],
              best_area, best_score) /\
      best_area == 36 /\ best_score == 27 # 8) /\
  length (combinations 4 (top_k six_candidates)) = 15%nat /\
  @area (symbolic six_table) 2 2
    [(1%Q, 3, 3); ((7 # 8)%Q, 3, 0); ((3 # 4)%Q, 0, 0); ((3 # 4)%Q, 6, 0)] == 18 /\
  @area (symbolic six_table) 2 2
    [((3 # 4)%Q, 0, 0); ((3 # 4)%Q, 6, 0); ((3 # 4)%Q, 0, 6); ((3 # 4)%Q, 6, 6)] == 36 /\
  score [((3 # 4)%Q, 0, 0); ((3 # 4)%Q, 6, 0); ((3 # 4)%Q, 0, 6); ((3 # 4)%Q, 6, 6)] == 3.
Proof.
  split.
  { eexists. eexists. split; [vm_compute; reflexivity|]. split; vm_compute; reflexivity. }
  split; [reflexivity|].
  split; [vm_compute; reflexivity|]. split; vm_compute; reflexivity.
Qed.

(** ** The quadrant loop *)

Section Quadrants.
Context {cv : Cv}.
Variable self : CropOnMarkers cv.
Variables (image optimal_marker : ndarray) (all_max_t : Q).

Lemma quadrant_rejected_iff (max_t : Q) :
  quadrant_rejected self all_max_t max_t = true <->
  (max_t < weak (min_matching_threshold self))%Q \/
  (weak (max_matching_variation self) <= Qabs (float32 (all_max_t - max_t)))%Q.
Proof.
  unfold quadrant_rejected. rewrite orb_true_iff, Qlt_bool_iff, Qle_bool_iff. tauto.
Qed.

(** In the fallback modes a rejected quadrant ends the loop on the outcome
    of the global search. *)
Lemma match_quadrants_switches (ks : list nat) (centres : list (Q * Q))
    (rects : list rect) (sum_t : Q) :
  in_fallback self = true ->
  (exists k, In k ks /\ quadrant_rejected self all_max_t (quad_max self image optimal_marker k) = true) ->
  exists sum_t',
    match_quadrants self image optimal_marker all_max_t ks centres rects sum_t
    = match _get_centres_global self (working self image) optimal_marker with
      | (None, log) => Rejected log
      | (Some found, log) => Switched found sum_t' log
      end.
Proof.
  intros Hmode. revert centres rects sum_t.
  induction ks as [|k ks IH]; intros centres rects sum_t [k' [Hin Hrej]]; [destruct Hin|].
  cbn [match_quadrants]. destruct (shape optimal_marker) as [h w].
  fold (quad_max self image optimal_marker k).
  destruct (quadrant_rejected self all_max_t (quad_max self image optimal_marker k)) eqn:E.
  - rewrite Hmode. exists sum_t.
    now destruct (_get_centres_global self (working self image) optimal_marker) as [[found|] log].
  - destruct Hin as [->|Hin]; [congruence|].
    apply IH. eauto.
Qed.

(** Outside the fallback modes a rejected quadrant ends the loop on a
    failure, with an error logged. *)
Lemma match_quadrants_rejects (ks : list nat) (centres : list (Q * Q))
    (rects : list rect) (sum_t : Q) :
  in_fallback self = false ->
  (exists k, In k ks /\ quadrant_rejected self all_max_t (quad_max self image optimal_marker k) = true) ->
  match_quadrants self image optimal_marker all_max_t ks centres rects sum_t
  = Rejected (LogError "Error: No circle found in Quad"
              :: (if 1 <=? show_image_level (tuning self)
                  then [ShowImage "No markers"; ShowImage "res_Q"] else [])).
Proof.
  intros Hmode. revert centres rects sum_t.
  induction ks as [|k ks IH]; intros centres rects sum_t [k' [Hin Hrej]]; [destruct Hin|].
  cbn [match_quadrants]. destruct (shape optimal_marker) as [h w].
  fold (quad_max self image optimal_marker k).
  destruct (quadrant_rejected self all_max_t (quad_max self image optimal_marker k)) eqn:E.
  - now rewrite Hmode.
  - destruct Hin as [->|Hin]; [congruence|].
    apply IH. eauto.
Qed.

(** Outside the fallback modes the loop never switches to the global
    search. *)
Lemma match_quadrants_strict (ks : list nat) (centres : list (Q * Q))
    (rects : list rect) (sum_t : Q) (found : located) (sum_t' : Q)
    (log : list (event cv)) :
  in_fallback self = false ->
  match_quadrants self image optimal_marker all_max_t ks centres rects sum_t
  <> Switched found sum_t' log.
Proof.
  intros Hmode. revert centres rects sum_t.
  induction ks as [|k ks IH]; intros centres rects sum_t; [discriminate|].
  cbn [match_quadrants]. destruct (shape optimal_marker) as [h w].
  destruct (quadrant_rejected _ _ _).
  - rewrite Hmode. discriminate.
  - apply IH.
Qed.

(** When the loop completes, it has added one centre and one rectangle for
    each quadrant. *)
Lemma match_quadrants_completed (ks : list nat) (centres centres' : list (Q * Q))
    (rects rects' : list rect) (sum_t sum_t' : Q) :
  match_quadrants self image optimal_marker all_max_t ks centres rects sum_t
  = Completed centres' rects' sum_t' ->
  length centres' = (length centres + length ks)%nat /\
  length rects' = (length rects + length ks)%nat.
Proof.
  revert centres rects sum_t.
  induction ks as [|k ks IH]; intros centres rects sum_t.
  - cbn [match_quadrants]. intro H. inversion H; subst. simpl. lia.
  - cbn [match_quadrants]. destruct (shape optimal_marker) as [h w].
    destruct (quadrant_rejected _ _ _).
    + destruct (in_fallback self); [|discriminate].
      destruct (_get_centres_global _ _ _) as [[found|] log]; discriminate.
    + intro H. apply IH in H. rewrite !length_app in H. simpl in *. lia.
Qed.

End Quadrants.

(** C4, as the code has it.  The scores [max_t] and [all_max_t] are
    [np.float32]; numpy converts the two Python numbers of the options
    before it compares ([weak]) and takes the difference in [np.float32].  A
    quadrant is rejected exactly when its best score is below the converted
    [min_matching_threshold] or the difference from [all_max_t] is the
    converted [max_matching_variation] or more.  Outside the global modes,
    when a quadrant is rejected: in the modes [auto] and [fallback] the
    centres and rectangles of the whole image are those of the global search
    (and there are none when the global search finds none); in every other
    mode no markers are found. *)
Theorem quadrant_rejection_policy {cv : Cv} (self : CropOnMarkers cv)
    (image optimal_marker : ndarray) (all_max_t : Q) :
  (forall max_t,
      quadrant_rejected self all_max_t max_t = true <->
      (max_t < weak (min_matching_threshold self))%Q \/
      (weak (max_matching_variation self) <= Qabs (float32 (all_max_t - max_t)))%Q) /\
  (in_global self = false ->
   forall k,
     In k [0; 1; 2; 3]%nat ->
     quadrant_rejected self all_max_t (quad_max self image optimal_marker k) = true ->
     (in_fallback self = true ->
      match fst (_get_centres_global self (working self image) optimal_marker) with
      | None => fst (locate_markers self image optimal_marker all_max_t) = None
      | Some (centres, rects, _) =>
          exists avg_t,
            fst (locate_markers self image optimal_marker all_max_t)
            = Some (centres, rects, avg_t)
      end) /\
     (in_fallback self = false ->
      fst (locate_markers self image optimal_marker all_max_t) = None)).
Proof.
  split; [apply quadrant_rejected_iff|].
  intros Hglobal k Hk Hrej. unfold locate_markers. rewrite Hglobal. split; intro Hmode.
  - destruct (match_quadrants_switches self image optimal_marker all_max_t
                [0; 1; 2; 3]%nat [] [] 0%Q Hmode) as [sum_t' Heq]; [eauto|].
    rewrite Heq.
    destruct (_get_centres_global self (working self image) optimal_marker)
      as [[[[centres rects] avg_t]|] log]; cbn [fst]; [|reflexivity].
    destruct (quadrants_summary centres sum_t' avg_t) as [avg_t' info].
    now exists avg_t'.
  - rewrite (match_quadrants_rejects self image optimal_marker all_max_t
               [0; 1; 2; 3]%nat [] [] 0%Q Hmode); [reflexivity|eauto].
Qed.

Lemma quadrant_rejection_policy_witness :
  quadrant_rejected (processor drift_table (with_variation "auto" (1 # 4) (1 # 4)))
    (3 # 4) (1 # 2) = true /\
  match fst (_get_centres_global
               (processor drift_table (with_variation "auto" (1 # 4) (1 # 4)))
               (working (processor drift_table (with_variation "auto" (1 # 4) (1 # 4))) sheet)
               (ResizeUtilH (loaded_marker true) 2)) with
  | None =>
      fst (locate_markers (processor drift_table (with_variation "auto" (1 # 4) (1 # 4)))
             sheet (ResizeUtilH (loaded_marker true) 2) (3 # 4)) = None
  | Some (centres, rects, _) =>
      exists avg_t,
        fst (locate_markers (processor drift_table (with_variation "auto" (1 # 4) (1 # 4)))
               sheet (ResizeUtilH (loaded_marker true) 2) (3 # 4))
        = Some (centres, rects, avg_t)
  end.
Proof.
  destruct (quadrant_rejection_policy
              (processor drift_table (with_variation "auto" (1 # 4) (1 # 4)))
              sheet (ResizeUtilH (loaded_marker true) 2) (3 # 4)) as [Hiff Hloop].
  split.
  - apply Hiff. right. vm_compute. discriminate.
  - apply (Hloop eq_refl 0%nat (or_introl eq_refl) eq_refl). reflexivity.
Defined.

(** C4 fails as stated: a quadrant whose best score differs from
    [all_max_t] by exactly [max_matching_variation] is rejected.  With a
    whole-image best of 0.75, a threshold and a variation of 0.25, a
    quadrant at 0.5 is neither below the threshold nor off by more than the
    variation, yet the strict quadrant mode finds no markers.  (These
    numbers and their difference are [np.float32] values, so that no
    conversion changes them.) *)
Lemma variation_boundary_counterexample :
  ~ ((1 # 2) < min_matching_threshold
                 (processor drift_table (with_variation "quadrants" (1 # 4) (1 # 4))))%Q /\
  ~ (max_matching_variation
       (processor drift_table (with_variation "quadrants" (1 # 4) (1 # 4)))
     < Qabs ((3 # 4) - (1 # 2)))%Q /\
  quadrant_rejected (processor drift_table (with_variation "quadrants" (1 # 4) (1 # 4)))
    (3 # 4) (1 # 2) = true /\
  getBestMatch (processor drift_table (with_variation "quadrants" (1 # 4) (1 # 4)))
    (working (processor drift_table (with_variation "quadrants" (1 # 4) (1 # 4))) sheet)
  = Returns (Some 100, 3 # 4, []) /\
  quad_max (processor drift_table (with_variation "quadrants" (1 # 4) (1 # 4))) sheet
    (rescaled_marker (processor drift_table (with_variation "quadrants" (1 # 4) (1 # 4))) 100)
    0 = 1 # 2 /\
  apply_filter (processor drift_table (with_variation "quadrants" (1 # 4) (1 # 4))) sheet
  = Returns (None, [LogError "Error: No circle found in Quad"]).
Proof.
  split; [vm_compute; discriminate|].
  split; [vm_compute; discriminate|].
  repeat split; vm_compute; reflexivity.
Qed.

Section BelowThreshold.
Context {cv : Cv}.
Variable self : CropOnMarkers cv.
Variable image : ndarray.

(** A best score below the threshold leaves the global search without a
    candidate: the response it scans is the one [getBestMatch] took the
    score from. *)
Lemma global_search_below_threshold (s : Z) (all_max_t : Q) (log1 : list (event cv)) :
  getBestMatch self (working self image) = Returns (Some s, all_max_t, log1) ->
  (all_max_t < min_matching_threshold self)%Q ->
  _get_centres_global self (working self image) (rescaled_marker self s)
  = (None,
     LogError "Error: Not enough markers found in global search."
     :: (if 1 <=? show_image_level (tuning self)
         then [ShowImage "Marker search"; ShowImage "matchTemplate res"] else [])).
Proof.
  intros Hbest Hlow. apply get_centres_global_few.
  destruct (getBestMatch_spec _ _ _ _ _ Hbest) as (scales & _ & Hinv & _).
  cbn [best_so_far] in Hinv. destruct Hinv as (Hamt & _).
  unfold candidates_of. rewrite collect_below; [simpl; lia|].
  rewrite Hamt in Hlow. exact Hlow.
Qed.

Lemma apply_filter_below_threshold_global (s : Z) (all_max_t : Q)
    (log1 : list (event cv)) :
  in_global self = true ->
  getBestMatch self (working self image) = Returns (Some s, all_max_t, log1) ->
  (all_max_t < min_matching_threshold self)%Q ->
  apply_filter self image
  = Returns (None,
             log1 ++ LogError "Error: Not enough markers found in global search."
                     :: (if 1 <=? show_image_level (tuning self)
                         then [ShowImage "Marker search"; ShowImage "matchTemplate res"]
                         else [])).
Proof.
  intros Hglobal Hbest Hlow. unfold apply_filter. rewrite Hbest. cbn [bind].
  rewrite (global_guard_passed self image s all_max_t log1 Hglobal Hbest).
  unfold locate_markers. rewrite Hglobal.
  now rewrite (global_search_below_threshold s all_max_t log1 Hbest Hlow).
Qed.

Lemma apply_filter_below_threshold_quadrants (s : Z) (all_max_t : Q)
    (log1 : list (event cv)) :
  in_global self = false ->
  getBestMatch self (working self image) = Returns (Some s, all_max_t, log1) ->
  (all_max_t < min_matching_threshold self)%Q ->
  resize_util_h_refused (marker self) (scaled_height (fst (shape (marker self))) s)
  || locate_refused self image (rescaled_marker self s) all_max_t = false ->
  (exists k, In k [0; 1; 2; 3]%nat /\
             quadrant_rejected self all_max_t
               (quad_max self image (rescaled_marker self s) k) = true) ->
  exists msg shows,
    apply_filter self image = Returns (None, log1 ++ LogError msg :: shows) /\
    forall e, In e shows -> exists title, e = ShowImage title.
Proof.
  intros Hglobal Hbest Hlow Hguard Hrej.
  unfold apply_filter. rewrite Hbest. cbn [bind]. rewrite Hguard.
  unfold locate_markers. rewrite Hglobal.
  destruct (in_fallback self) eqn:Hmode.
  - destruct (match_quadrants_switches self image (rescaled_marker self s) all_max_t
                [0; 1; 2; 3]%nat [] [] 0%Q Hmode Hrej) as [sum_t' Heq].
    rewrite Heq, (global_search_below_threshold s all_max_t log1 Hbest Hlow).
    eexists. eexists. split; [reflexivity|].
    intros e He. destruct (1 <=? _); [|destruct He].
    destruct He as [<-|[<-|[]]]; eauto.
  - rewrite (match_quadrants_rejects self image (rescaled_marker self s) all_max_t
               [0; 1; 2; 3]%nat [] [] 0%Q Hmode Hrej).
    eexists. eexists. split; [reflexivity|].
    intros e He. destruct (1 <=? _); [|destruct He].
    destruct He as [<-|[<-|[]]]; eauto.
Qed.

(** The warning of [getBestMatch] is logged exactly when its own test finds
    the score too low. *)
Lemma too_low_is_logged (best_scale : option Z) (all_max_t : Q) (log : list (event cv)) :
  getBestMatch self (working self image) = Returns (best_scale, all_max_t, log) ->
  In (LogWarning "Template matching too low! Consider rechecking preProcessors applied before this.")
     log <->
  too_low self best_scale all_max_t = true.
Proof.
  intro H. destruct (getBestMatch_spec _ _ _ _ _ H) as (scales & _ & _ & ->).
  destruct (too_low self best_scale all_max_t).
  - split; [reflexivity|]. intros _. now left.
  - split; [|discriminate]. cbn [app]. intro Hin.
    destruct best_scale; [destruct Hin|].
    destruct Hin as [Heq|[]]. discriminate.
Qed.

End BelowThreshold.

(** C2, as the code has it.  [getBestMatch] returns no scale exactly when no
    evaluated scale has a maximum response above 0; the score it returns is
    then 0 and [apply_filter] returns [None], with warnings (and the
    optional display) as the only trace.  When the best maximum response is
    above 0, [getBestMatch] returns that scale and its score, also below
    [min_matching_threshold].  Its warning is logged exactly when its test
    finds the score below the threshold: the score is [np.float32] once a
    scale is chosen, and the threshold is converted before the comparison.
    With a best score above 0 and below the threshold, [apply_filter] still
    returns [None]: in the global modes the global search records no
    candidate and logs the error that it found too few markers; in the
    other modes, as soon as a quadrant is rejected (and OpenCV refuses no
    match), with an error logged too. *)
Theorem getBestMatch_none_iff_no_positive_response {cv : Cv} (self : CropOnMarkers cv)
    (image : ndarray) (best_scale : option Z) (all_max_t : Q) (log : list (event cv)) :
  getBestMatch self (working self image) = Returns (best_scale, all_max_t, log) ->
  (exists scales,
      scan_order self = Returns scales /\
      (best_scale = None <->
       forall r0, In r0 (evaluated scales) ->
                  (max_at self (working self image) r0 <= 0)%Q)) /\
  (best_scale = None ->
   all_max_t = 0%Q /\
   apply_filter self image
   = Returns (None, log ++ show_if (1 <=? show_image_level (tuning self)) "Quads")) /\
  (forall s, best_scale = Some s ->
             all_max_t = max_at self (working self image) s /\ (0 < all_max_t)%Q) /\
  (In (LogWarning "Template matching too low! Consider rechecking preProcessors applied before this.")
      log <->
   match best_scale with
   | None => (all_max_t < min_matching_threshold self)%Q
   | Some _ => (all_max_t < weak (min_matching_threshold self))%Q
   end) /\
  (forall e,
      In e (log ++ show_if (1 <=? show_image_level (tuning self)) "Quads") ->
      (exists msg, e = LogWarning msg) \/ (exists title, e = ShowImage title)) /\
  (forall s,
      best_scale = Some s ->
      (all_max_t < min_matching_threshold self)%Q ->
      (in_global self = true ->
       apply_filter self image
       = Returns (None,
                  log ++ LogError "Error: Not enough markers found in global search."
                         :: (if 1 <=? show_image_level (tuning self)
                             then [ShowImage "Marker search"; ShowImage "matchTemplate res"]
                             else []))) /\
      (in_global self = false ->
       resize_util_h_refused (marker self) (scaled_height (fst (shape (marker self))) s)
       || locate_refused self image (rescaled_marker self s) all_max_t = false ->
       (exists k, In k [0; 1; 2; 3]%nat /\
                  quadrant_rejected self all_max_t
                    (quad_max self image (rescaled_marker self s) k) = true) ->
       exists msg shows,
         apply_filter self image = Returns (None, log ++ LogError msg :: shows) /\
         forall e, In e shows -> exists title, e = ShowImage title)).
Proof.
  intro H. pose proof (getBestMatch_spec self _ _ _ _ H) as (scales & Hscan & Hinv & Hlog).
  split; [|split; [|split; [|split; [|split]]]].
  - exists scales. split; [exact Hscan|]. split.
    + intros ->. now destruct Hinv.
    + intro Hall. destruct best_scale as [s|]; [|reflexivity].
      destruct Hinv as (Hamt & Hpos & before & after & Heq & _).
      exfalso. rewrite Hamt in Hpos.
      apply (Qlt_not_le _ _ Hpos). apply Hall. rewrite Heq.
      apply in_or_app. right. now left.
  - intros ->. destruct Hinv as [Hamt _]. split; [exact Hamt|].
    unfold apply_filter. now rewrite H.
  - intros s ->. destruct Hinv as (Hamt & Hpos & _). now split.
  - rewrite (too_low_is_logged self image _ _ _ H). unfold too_low.
    destruct best_scale; apply Qlt_bool_iff.
  - intros e He. apply in_app_or in He. destruct He as [He|He].
    + eapply getBestMatch_log_quiet; eauto.
    + unfold show_if in He. destruct (1 <=? _); [|destruct He].
      destruct He as [<-|[]]. right. eauto.
  - intros s -> Hlow. split.
    + intro Hglobal.
      exact (apply_filter_below_threshold_global self image s all_max_t log Hglobal H Hlow).
    + intros Hglobal Hguard Hrej.
      exact (apply_filter_below_threshold_quadrants self image s all_max_t log
               Hglobal H Hlow Hguard Hrej).
Qed.

(** Without any response above 0 no scale is returned and [apply_filter]
    returns [None] with two warnings; with a response of 0.25 everywhere and
    a threshold of 0.3 the global search logs its error. *)
Lemma getBestMatch_none_iff_no_positive_response_witness :
  ((exists scales,
       scan_order (processor zero_table half_to_full) = Returns scales /\
       (@None Z = None <->
        forall r0, In r0 (evaluated scales) ->
                   (max_at (processor zero_table half_to_full)
                           (working (processor zero_table half_to_full) sheet) r0 <= 0)%Q)) /\
   apply_filter (processor zero_table half_to_full) sheet
   = Returns (None,
              [LogWarning "Template matching too low! Consider rechecking preProcessors applied before this.";
               LogWarning "No matchings for given scaleRange:"]
              ++ show_if (1 <=? show_image_level (tuning (processor zero_table half_to_full)))
                         "Quads")) /\
  apply_filter (processor quarter_table (with_mode "global" (3 # 10))) sheet
  = Returns (None,
             [LogWarning "Template matching too low! Consider rechecking preProcessors applied before this."]
             ++ [LogError "Error: Not enough markers found in global search."]).
Proof.
  split.
  - destruct (getBestMatch_none_iff_no_positive_response
                (processor zero_table half_to_full) sheet None 0%Q
                [LogWarning "Template matching too low! Consider rechecking preProcessors applied before this.";
                 LogWarning "No matchings for given scaleRange:"])
      as (Hscales & Hnone & _).
    + vm_compute. reflexivity.
    + split; [exact Hscales|]. apply Hnone. reflexivity.
  - destruct (getBestMatch_none_iff_no_positive_response
                (processor quarter_table (with_mode "global" (3 # 10))) sheet
                (Some 100) (1 # 4)
                [LogWarning "Template matching too low! Consider rechecking preProcessors applied before this."])
      as (_ & _ & _ & _ & _ & Hbelow).
    + vm_compute. reflexivity.
    + destruct (Hbelow 100 eq_refl) as [Hglobal _]; [reflexivity|].
      apply Hglobal. reflexivity.
Defined.

(** C2 fails as stated: with a maximum response of 0.25 at every scale and
    the default threshold of 0.3 no scale reaches the threshold, yet
    [getBestMatch] returns the first scale and 0.25, not a missing scale and
    0; and what [apply_filter] leaves in the log besides the warning is an
    error: that of the quadrants in the default mode, that of the global
    search in the global mode. *)
Lemma below_threshold_counterexample :
  scan_order (processor quarter_table half_to_full)
  = Returns [100; 95; 90; 85; 80; 75; 70; 65; 60; 55] /\
  min_matching_threshold (processor quarter_table half_to_full) = 3 # 10 /\
  (forall r0,
      (max_at (processor quarter_table half_to_full)
              (working (processor quarter_table half_to_full) sheet) r0
       < min_matching_threshold (processor quarter_table half_to_full))%Q) /\
  getBestMatch (processor quarter_table half_to_full)
    (working (processor quarter_table half_to_full) sheet)
  = Returns (Some 100, 1 # 4,
             [LogWarning "Template matching too low! Consider rechecking preProcessors applied before this."]) /\
  apply_filter (processor quarter_table half_to_full) sheet
  = Returns (None,
             [LogWarning "Template matching too low! Consider rechecking preProcessors applied before this.";
              LogError "Error: No circle found in Quad"]) /\
  apply_filter (processor quarter_table (with_mode "global" (3 # 10))) sheet
  = Returns (None,
             [LogWarning "Template matching too low! Consider rechecking preProcessors applied before this.";
              LogError "Error: Not enough markers found in global search."]).
Proof.
  split; [reflexivity|]. split; [reflexivity|]. split; [intro r0; reflexivity|].
  split; [vm_compute; reflexivity|]. split; vm_compute; reflexivity.
Qed.

(** ** What the verbosity level changes *)

Section Level.
Context {cv : Cv}.
Variable self : CropOnMarkers cv.
Variable level : Z.

Lemma getBestMatch_level (image_eroded_sub : ndarray) :
  result_of (getBestMatch (with_level self level) image_eroded_sub)
  = result_of (getBestMatch self image_eroded_sub).
Proof.
  unfold getBestMatch.
  change (scan_order (with_level self level)) with (scan_order self).
  destruct (scan_order self) as [scales|e]; [|reflexivity].
  cbn [bind].
  change (refused (with_level self level)) with (refused self).
  destruct (existsb _ _); [reflexivity|].
  change (try_scale (with_level self level)) with (try_scale self).
  now destruct (fold_left (try_scale self image_eroded_sub) scales (None, None, 0%Q))
    as [[res bs] amt].
Qed.

Lemma get_centres_global_level (image_eroded_sub optimal_marker : ndarray) :
  fst (_get_centres_global (with_level self level) image_eroded_sub optimal_marker)
  = fst (_get_centres_global self image_eroded_sub optimal_marker).
Proof.
  unfold _get_centres_global. destruct (shape optimal_marker) as [h w].
  change (candidates_of (with_level self level)) with (candidates_of self).
  destruct (length _ <? 4)%nat; [reflexivity|].
  now destruct (best_combo w h _) as [[[best ba] bs]|].
Qed.

Lemma match_quadrants_level (image optimal_marker : ndarray) (all_max_t : Q)
    (ks : list nat) (centres : list (Q * Q)) (rects : list rect) (sum_t : Q) :
  strip (match_quadrants (with_level self level) image optimal_marker all_max_t
           ks centres rects sum_t)
  = strip (match_quadrants self image optimal_marker all_max_t ks centres rects sum_t).
Proof.
  revert centres rects sum_t. induction ks as [|k ks IH]; intros centres rects sum_t;
    [reflexivity|].
  cbn [match_quadrants]. destruct (shape optimal_marker) as [h w].
  change (quads (with_level self level)) with (quads self).
  change (quadrant_rejected (with_level self level)) with (quadrant_rejected self).
  change (in_fallback (with_level self level)) with (in_fallback self).
  change (working (with_level self level)) with (working self).
  change (origins (with_level self level)) with (origins self).
  destruct (quadrant_rejected self all_max_t _).
  - destruct (in_fallback self); [|reflexivity].
    pose proof (get_centres_global_level (working self image) optimal_marker) as Hg.
    destruct (_get_centres_global (with_level self level) (working self image) optimal_marker)
      as [[f1|] l1];
      destruct (_get_centres_global self (working self image) optimal_marker) as [[f2|] l2];
      cbn [fst] in Hg; try discriminate; [|reflexivity].
    inversion Hg. reflexivity.
  - apply IH.
Qed.

Lemma locate_markers_level (image optimal_marker : ndarray) (all_max_t : Q) :
  fst (locate_markers (with_level self level) image optimal_marker all_max_t)
  = fst (locate_markers self image optimal_marker all_max_t).
Proof.
  unfold locate_markers.
  change (in_global (with_level self level)) with (in_global self).
  change (working (with_level self level)) with (working self).
  destruct (in_global self); [apply get_centres_global_level|].
  pose proof (match_quadrants_level image optimal_marker all_max_t
                [0; 1; 2; 3]%nat [] [] 0%Q) as Hq.
  destruct (match_quadrants (with_level self level) image optimal_marker all_max_t
              [0; 1; 2; 3]%nat [] [] 0%Q) as [l1|[[c1 r1] a1] s1 l1|c1 r1 s1];
    destruct (match_quadrants self image optimal_marker all_max_t
                [0; 1; 2; 3]%nat [] [] 0%Q) as [l2|[[c2 r2] a2] s2 l2|c2 r2 s2];
    cbn [strip] in Hq; try discriminate; try reflexivity.
  - inversion Hq; subst.
    now destruct (quadrants_summary c2 s2 a2).
  - inversion Hq; subst. reflexivity.
Qed.

Lemma apply_filter_level (image : ndarray) :
  result_of (apply_filter (with_level self level) image)
  = result_of (apply_filter self image).
Proof.
  unfold apply_filter.
  change (working (with_level self level)) with (working self).
  pose proof (getBestMatch_level (working self image)) as Hb.
  destruct (getBestMatch (with_level self level) (working self image))
    as [[[bs1 amt1] log1]|e1];
    destruct (getBestMatch self (working self image)) as [[[bs2 amt2] log2]|e2];
    cbn [result_of] in Hb; try discriminate; [|now inversion Hb].
  inversion Hb; subst. cbn [bind].
  destruct bs2 as [s|]; [|reflexivity].
  change (rescaled_marker (with_level self level)) with (rescaled_marker self).
  change (marker (with_level self level)) with (marker self).
  change (locate_refused (with_level self level)) with (locate_refused self).
  destruct (_ || _); [reflexivity|].
  pose proof (locate_markers_level image (rescaled_marker self s) amt2) as Hl.
  destruct (locate_markers (with_level self level) image (rescaled_marker self s) amt2)
    as [[[[c1 r1] a1]|] l1];
    destruct (locate_markers self image (rescaled_marker self s) amt2)
      as [[[[c2 r2] a2]|] l2];
    cbn [fst] in Hl; try discriminate; [|reflexivity].
  inversion Hl; subst.
  change (draw_rects (with_level self level)) with (draw_rects self).
  now destruct (draw_rects self (image, working self image) r2).
Qed.

End Level.

(** ** Four markers *)

Lemma best_combo_length {cv : Cv} (w h : Z) (candidates best : list candidate) (a s : Q) :
  best_combo w h candidates = Some (best, a, s) -> length best = 4%nat.
Proof.
  unfold best_combo. intro H.
  pose proof (fold_pick w h (combinations 4 (top_k candidates)) [] None eq_refl) as Hinv.
  rewrite H in Hinv. cbn [app] in Hinv. destruct Hinv as (_ & _ & Hin & _).
  apply combinations_subseq in Hin. tauto.
Qed.

Section Four.
Context {cv : Cv}.
Variable self : CropOnMarkers cv.

Lemma get_centres_global_four (image_eroded_sub optimal_marker : ndarray)
    (centres : list (Q * Q)) (rects : list rect) (avg_t : Q) (log : list (event cv)) :
  _get_centres_global self image_eroded_sub optimal_marker
  = (Some (centres, rects, avg_t), log) ->
  length centres = 4%nat /\ length rects = 4%nat.
Proof.
  unfold _get_centres_global. destruct (shape optimal_marker) as [h w].
  destruct (length _ <? 4)%nat; [discriminate|].
  destruct (best_combo w h _) as [[[best ba] bs]|] eqn:E; [|discriminate].
  intro H. inversion H; subst. rewrite !length_map.
  apply best_combo_length in E. now split.
Qed.

Lemma locate_markers_four (image optimal_marker : ndarray) (all_max_t : Q)
    (centres : list (Q * Q)) (rects : list rect) (avg_t : Q) (log : list (event cv)) :
  locate_markers self image optimal_marker all_max_t = (Some (centres, rects, avg_t), log) ->
  length centres = 4%nat /\ length rects = 4%nat.
Proof.
  unfold locate_markers. destruct (in_global self); [apply get_centres_global_four|].
  destruct (match_quadrants self image optimal_marker all_max_t [0; 1; 2; 3]%nat [] [] 0%Q)
    as [l|[[c r] a] s l|c r s] eqn:E; [discriminate| |].
  - destruct (quadrants_summary c s a) as [a' info]. intro H. inversion H; subst.
    clear H. revert E. generalize ([] : list (Q * Q)) ([] : list rect) 0%Q.
    generalize [0; 1; 2; 3]%nat.
    intro ks. induction ks as [|k ks IH]; intros c0 r0 s0; cbn [match_quadrants];
      [discriminate|].
    destruct (shape optimal_marker) as [h w].
    destruct (quadrant_rejected _ _ _); [|apply IH].
    destruct (in_fallback self); [|discriminate].
    destruct (_get_centres_global self (working self image) optimal_marker)
      as [[found|] l'] eqn:Eg; [|discriminate].
    intro H. inversion H; subst. eapply get_centres_global_four; eauto.
  - destruct (quadrants_summary c s 0%Q) as [a' info]. intro H. inversion H; subst.
    apply match_quadrants_completed in E. simpl in E. exact E.
Qed.

End Four.

(** ** The search mode *)

Lemma in_set_iff (s : string) (l : list string) : in_set s l = true <-> In s l.
Proof.
  unfold in_set. rewrite existsb_exists. split.
  - intros [x [Hin Heq]]. apply String.eqb_eq in Heq. now subst.
  - intro Hin. exists s. split; [exact Hin|apply String.eqb_refl].
Qed.

(** C10. The search mode of a processor is the configured string (or the
    default derived from [globalSearch]) in lower case, computed once by
    [__init__].  The global search is the localiser exactly when it is
    "global", "full" or "all"; otherwise the quadrants are searched, and a
    rejected quadrant switches to the global search when the mode is "auto"
    or "fallback" and ends in a failure for every other string.  No mode
    string is an error: with any other mode the construction has the same
    outcome, the same exception or a processor around the same marker. *)
Theorem search_mode_dispatch {cv : Cv} (marker_ops : marker_options)
    (config : tuning_config) (marker_file : marker_source cv) :
  (forall mode legacy,
      match __init__ marker_ops config marker_file,
            __init__ (with_search_mode marker_ops mode legacy) config marker_file with
      | Returns self, Returns self' =>
          marker self' = marker self /\
          search_mode self' = lower (get mode (if legacy then "global" else "quadrants"))
      | Raises e, Raises e' => e' = e
      | _, _ => False
      end) /\
  (forall self,
      __init__ marker_ops config marker_file = Returns self ->
      search_mode self
      = lower (get (opt_searchMode marker_ops)
                   (if opt_globalSearch marker_ops then "global" else "quadrants")) /\
      (in_global self = true <->
       search_mode self = "global" \/ search_mode self = "full" \/ search_mode self = "all") /\
      (in_fallback self = true <->
       search_mode self = "auto" \/ search_mode self = "fallback") /\
      (forall image optimal_marker all_max_t,
          in_global self = true ->
          working self image = prepared self image /\
          locate_markers self image optimal_marker all_max_t
          = _get_centres_global self (working self image) optimal_marker) /\
      (forall image optimal_marker all_max_t k,
          in_global self = false ->
          In k [0; 1; 2; 3]%nat ->
          quadrant_rejected self all_max_t (quad_max self image optimal_marker k) = true ->
          (in_fallback self = true ->
           exists sum_t,
             match_quadrants self image optimal_marker all_max_t [0; 1; 2; 3]%nat [] [] 0%Q
             = match _get_centres_global self (working self image) optimal_marker with
               | (None, log) => Rejected log
               | (Some found, log) => Switched found sum_t log
               end) /\
          (in_fallback self = false ->
           locate_markers self image optimal_marker all_max_t
           = (None,
              LogError "Error: No circle found in Quad"
              :: (if 1 <=? show_image_level (tuning self)
                  then [ShowImage "No markers"; ShowImage "res_Q"] else [])))) /\
      (forall image optimal_marker all_max_t found sum_t log,
          in_fallback self = false ->
          match_quadrants self image optimal_marker all_max_t [0; 1; 2; 3]%nat [] [] 0%Q
          <> Switched found sum_t log)).
Proof.
  split.
  - intros mode legacy. unfold __init__.
    change (load_marker (get (opt_apply_erode_subtract (with_search_mode marker_ops mode legacy))
                             true)
              (with_search_mode marker_ops mode legacy) config marker_file)
      with (load_marker (get (opt_apply_erode_subtract marker_ops) true)
              marker_ops config marker_file).
    destruct (load_marker _ marker_ops config marker_file) as [m|e]; cbn [bind];
      [|reflexivity].
    split; reflexivity.
  - intros self Hinit.
    assert (Hmode : search_mode self
                    = lower (get (opt_searchMode marker_ops)
                                 (if opt_globalSearch marker_ops
                                  then "global" else "quadrants"))).
    { unfold __init__ in Hinit.
      destruct (load_marker _ marker_ops config marker_file) as [m|e];
        cbn [bind] in Hinit; [|discriminate].
      inversion Hinit. reflexivity. }
    split; [exact Hmode|]. split; [|split; [|split; [|split]]].
    + unfold in_global. rewrite in_set_iff. simpl. intuition congruence.
    + unfold in_fallback. rewrite in_set_iff. simpl. intuition congruence.
    + intros image optimal_marker all_max_t Hglobal.
      split.
      * unfold working. rewrite Hglobal. reflexivity.
      * unfold locate_markers. rewrite Hglobal. reflexivity.
    + intros image optimal_marker all_max_t k Hglobal Hk Hrej. split; intro Hfb.
      * apply match_quadrants_switches; [exact Hfb|].
        exists k. now split.
      * unfold locate_markers. rewrite Hglobal.
        rewrite (match_quadrants_rejects self image optimal_marker all_max_t
                   [0; 1; 2; 3]%nat [] [] 0%Q Hfb); [reflexivity|].
        exists k. now split.
    + intros image optimal_marker all_max_t found sum_t log Hfb.
      now apply match_quadrants_strict.
Qed.

(** A misspelt mode is no error and selects the strict quadrant search;
    the processor is built around the same marker as with the mode
    "global". *)
Lemma search_mode_dispatch_witness :
  search_mode (processor corners_table (with_mode "Globl" (3 # 10))) = "globl" /\
  in_global (processor corners_table (with_mode "Globl" (3 # 10))) = false /\
  in_fallback (processor corners_table (with_mode "Globl" (3 # 10))) = false /\
  match @__init__ (symbolic corners_table) (with_mode "Globl" (3 # 10)) quiet
          (marker_image corners_table),
        @__init__ (symbolic corners_table)
          (with_search_mode (with_mode "Globl" (3 # 10)) (Some "global") false) quiet
          (marker_image corners_table) with
  | Returns self, Returns self' =>
      marker self' = marker self /\ search_mode self' = "global"
  | Raises e, Raises e' => e' = e
  | _, _ => False
  end.
Proof.
  destruct (@search_mode_dispatch (symbolic corners_table) (with_mode "Globl" (3 # 10))
              quiet (marker_image corners_table)) as [Hret Hself].
  destruct (Hself (processor corners_table (with_mode "Globl" (3 # 10))) eq_refl)
    as (Hmode & Hglobal & Hfallback & _).
  split; [exact Hmode|].
  split; [|split; [|exact (Hret (Some "global") false)]].
  - destruct (in_global (processor corners_table (with_mode "Globl" (3 # 10)))) eqn:E;
      [|reflexivity].
    destruct Hglobal as [Hg _]. destruct (Hg eq_refl) as [H|[H|H]]; discriminate H.
  - destruct (in_fallback (processor corners_table (with_mode "Globl" (3 # 10)))) eqn:E;
      [|reflexivity].
    destruct Hfallback as [Hf _]. destruct (Hf eq_refl) as [H|H]; discriminate H.
Defined.

(** The modes are recognised in any letter case. *)
Lemma search_mode_letter_case :
  in_global (processor corners_table (with_mode "GLOBAL" (3 # 10))) = true /\
  in_global (processor corners_table (with_mode "Full" (3 # 10))) = true /\
  in_global (processor corners_table (with_mode "aLL" (3 # 10))) = true /\
  in_fallback (processor corners_table (with_mode "Auto" (3 # 10))) = true /\
  in_fallback (processor corners_table (with_mode "FALLBACK" (3 # 10))) = true /\
  in_global (processor corners_table no_options) = false /\
  in_fallback (processor corners_table no_options) = false.
Proof. repeat split. Qed.

(** ** The erosion-subtract flag *)

Lemma prepared_spec {cv : Cv} (self : CropOnMarkers cv) (image : ndarray) :
  prepared self image
  = if apply_erode_subtract self then normalize_util image
    else normalize_util (subtract image (erode image)).
Proof. unfold prepared. now destruct (apply_erode_subtract self). Qed.

(** C1 does not hold of the code: the flag is tested the wrong way round in
    [apply_filter].  With [apply_erode_subtract] true the marker is
    erosion-subtracted by [load_marker], but the image matched against it is
    only normalised; with the flag false the image is erosion-subtracted and
    the marker is not. *)
Theorem erode_subtract_flag_inverted :
  apply_erode_subtract (processor corners_table (with_flag true)) = true /\
  marker (processor corners_table (with_flag true))
  = Subtract (Normalize (Blur (Given "marker"))) (Erode (Normalize (Blur (Given "marker")))) /\
  working (processor corners_table (with_flag true)) sheet = NormalizeUtil sheet /\
  NormalizeUtil sheet <> NormalizeUtil (Subtract sheet (Erode sheet)) /\
  apply_erode_subtract (processor corners_table (with_flag false)) = false /\
  marker (processor corners_table (with_flag false)) = Normalize (Blur (Given "marker")) /\
  working (processor corners_table (with_flag false)) sheet
  = NormalizeUtil (Subtract sheet (Erode sheet)).
Proof. repeat split. discriminate. Qed.

(** The processor of C1 is the one [__init__] builds. *)
Lemma processor_is_constructed (table : term -> term -> response)
    (marker_ops : marker_options) :
  opt_sheetToMarkerWidthRatio marker_ops = None ->
  @__init__ (symbolic table) marker_ops quiet (marker_image table)
  = Returns (processor table marker_ops).
Proof.
  intro H. unfold __init__, load_marker, processor, loaded_marker. rewrite H.
  cbn [bind]. now destruct (get (opt_apply_erode_subtract marker_ops) true).
Qed.

(** * Further properties of the processor *)

(** ** When [apply_filter] raises *)

Lemma scan_order_raises_iff {cv : Cv} (self : CropOnMarkers cv) :
  (exists e, scan_order self = Raises e) <->
  marker_rescale_steps self = 0 \/
  (snd (marker_rescale_range self) - fst (marker_rescale_range self))
  / marker_rescale_steps self = 0.
Proof.
  unfold scan_order, descent_per_step, floordiv.
  destruct (marker_rescale_steps self =? 0) eqn:E.
  - apply Z.eqb_eq in E. cbn [bind]. split; [now left|eauto].
  - apply Z.eqb_neq in E. cbn [bind]. unfold arange.
    destruct (-1 * ((snd (marker_rescale_range self) - fst (marker_rescale_range self))
                    / marker_rescale_steps self) =? 0) eqn:E'.
    + apply Z.eqb_eq in E'. split; [intros _; right; lia|eauto].
    + apply Z.eqb_neq in E'. split.
      * intros [e He]. discriminate.
      * intros [H|H]; [contradiction|lia].
Qed.

Lemma scan_order_raises_zero_division {cv : Cv} (self : CropOnMarkers cv) (e : exn) :
  scan_order self = Raises e -> e = ZeroDivisionError.
Proof.
  unfold scan_order, descent_per_step, floordiv, arange.
  destruct (marker_rescale_steps self =? 0); cbn [bind]; [now inversion 1|].
  destruct (_ =? 0); [now inversion 1|discriminate].
Qed.

Lemma getBestMatch_zero_division {cv : Cv} (self : CropOnMarkers cv)
    (image_eroded_sub : ndarray) :
  getBestMatch self image_eroded_sub = Raises ZeroDivisionError <->
  exists e, scan_order self = Raises e.
Proof.
  split.
  - intro H. apply getBestMatch_raises in H.
    destruct H as [[_ H]|[H _]]; [eauto|discriminate].
  - intros [e He]. pose proof (scan_order_raises_zero_division self e He) as ->.
    unfold getBestMatch. now rewrite He.
Qed.

(** [apply_filter] raises what [getBestMatch] raises, or raises because
    OpenCV refuses a call after [getBestMatch] returned a scale. *)
Lemma apply_filter_raises {cv : Cv} (self : CropOnMarkers cv) (image : ndarray) (e : exn) :
  apply_filter self image = Raises e <->
  getBestMatch self (working self image) = Raises e \/
  (e = LibraryError /\
   exists s all_max_t log1,
     getBestMatch self (working self image) = Returns (Some s, all_max_t, log1) /\
     resize_util_h_refused (marker self) (scaled_height (fst (shape (marker self))) s)
     || locate_refused self image (rescaled_marker self s) all_max_t = true).
Proof.
  unfold apply_filter.
  destruct (getBestMatch self (working self image)) as [[[bs amt] log1]|e0]; cbn [bind].
  - destruct bs as [s|].
    + destruct (_ || _) eqn:Hguard.
      * split.
        -- intro H. inversion H; subst. right. split; [reflexivity|].
           exists s, amt, log1. now split.
        -- intros [H|[-> _]]; [discriminate|reflexivity].
      * destruct (locate_markers self image (rescaled_marker self s) amt)
          as [[[[centres rects] avg_t]|] log2].
        -- destruct (draw_rects self (image, working self image) rects).
           split; [discriminate|].
           intros [H|(_ & s' & amt' & log1' & Heq & Hg)]; [discriminate|].
           inversion Heq; subst. congruence.
        -- split; [discriminate|].
           intros [H|(_ & s' & amt' & log1' & Heq & Hg)]; [discriminate|].
           inversion Heq; subst. congruence.
    + split; [discriminate|].
      intros [H|(_ & s' & amt' & log1' & Heq & _)]; discriminate.
  - split.
    + intro H. inversion H. now left.
    + intros [H|(_ & s' & amt' & log1' & Heq & _)]; [now inversion H|discriminate].
Qed.

(** X1. [apply_filter] raises a [ZeroDivisionError] exactly when the step of
    the scale search is undefined or zero, that is when
    [marker_rescale_steps] is 0 or the floor of [(high - low) / steps] is 0;
    with a positive step count this is the case exactly when
    [0 <= high - low < steps].  The only other exception comes from OpenCV:
    it is raised exactly when OpenCV refuses the marker at a scale that
    [getBestMatch] evaluates, or refuses a call that follows once
    [getBestMatch] has returned a scale. *)
Theorem apply_filter_raises_iff {cv : Cv} (self : CropOnMarkers cv) (image : ndarray) :
  (apply_filter self image = Raises ZeroDivisionError <->
   marker_rescale_steps self = 0 \/
   (snd (marker_rescale_range self) - fst (marker_rescale_range self))
   / marker_rescale_steps self = 0) /\
  (forall e, apply_filter self image = Raises e ->
             e = ZeroDivisionError \/ e = LibraryError) /\
  (apply_filter self image = Raises LibraryError <->
   (exists scales r0,
       scan_order self = Returns scales /\ In r0 (evaluated scales) /\
       refused self (working self image) r0 = true) \/
   (exists s all_max_t log1,
       getBestMatch self (working self image) = Returns (Some s, all_max_t, log1) /\
       resize_util_h_refused (marker self) (scaled_height (fst (shape (marker self))) s)
       || locate_refused self image (rescaled_marker self s) all_max_t = true)) /\
  (0 < marker_rescale_steps self ->
   (apply_filter self image = Raises ZeroDivisionError <->
    0 <= snd (marker_rescale_range self) - fst (marker_rescale_range self)
      < marker_rescale_steps self)).
Proof.
  assert (Hiff : apply_filter self image = Raises ZeroDivisionError <->
                 (exists e, scan_order self = Raises e)).
  { rewrite apply_filter_raises, getBestMatch_zero_division. split.
    - intros [H|[H _]]; [exact H|discriminate].
    - intro H. now left. }
  split; [|split; [|split]].
  - rewrite Hiff. apply scan_order_raises_iff.
  - intros e He. apply apply_filter_raises in He. destruct He as [He|[-> _]]; [|now right].
    apply getBestMatch_raises in He. destruct He as [[-> _]|[-> _]]; [now left|now right].
  - rewrite apply_filter_raises. split.
    + intros [H|[_ H]]; [|now right].
      apply getBestMatch_raises in H. destruct H as [[H _]|[_ H]]; [discriminate|now left].
    + intros [(scales & r0 & Hscan & Hin & Href)|H]; [|right; now split].
      left. unfold getBestMatch. rewrite Hscan. cbn [bind].
      assert (E : existsb (refused self (working self image)) (evaluated scales) = true)
        by (apply existsb_exists; eauto).
      now rewrite E.
  - intro Hsteps. rewrite Hiff, scan_order_raises_iff.
    rewrite Z.div_small_iff by lia. lia.
Qed.

Lemma apply_filter_raises_iff_witness :
  apply_filter (processor corners_table (with_range (95, 100) 10)) sheet
  = Raises ZeroDivisionError <->
  0 <= snd (marker_rescale_range (processor corners_table (with_range (95, 100) 10)))
       - fst (marker_rescale_range (processor corners_table (with_range (95, 100) 10)))
    < marker_rescale_steps (processor corners_table (with_range (95, 100) 10)).
Proof.
  destruct (apply_filter_raises_iff (processor corners_table (with_range (95, 100) 10)) sheet)
    as (_ & _ & _ & Hpos).
  apply Hpos. reflexivity.
Defined.

(** With the default range, 35 to 100 percent, a marker file of 2 x 2 is
    scaled down to nothing at 46 percent, which OpenCV refuses. *)
Lemma default_range_refused :
  apply_filter (processor corners_table no_options) sheet = Raises LibraryError /\
  refused (processor corners_table no_options)
    (working (processor corners_table no_options) sheet) 46 = true.
Proof. split; vm_compute; reflexivity. Qed.

(** ** How many scales the search runs over *)

Lemma scan_order_regular {cv : Cv} (self : CropOnMarkers cv) (low high steps : Z) :
  marker_rescale_range self = (low, high) ->
  marker_rescale_steps self = steps ->
  1 <= steps -> steps <= high - low ->
  scan_order self
  = Returns (map (fun i => high + i * (-1 * ((high - low) / steps)))
                 (range (Z.to_nat ((high - low + (high - low) / steps - 1)
                                   / ((high - low) / steps))))).
Proof.
  intros Hrange Hsteps H1 H2.
  assert (Hd : 1 <= (high - low) / steps) by (apply Z.div_le_lower_bound; lia).
  unfold scan_order, descent_per_step, floordiv. rewrite Hrange, Hsteps. cbn [fst snd].
  destruct (steps =? 0) eqn:E; [apply Z.eqb_eq in E; lia|].
  cbn [bind]. unfold arange, arange_len.
  destruct (-1 * ((high - low) / steps) =? 0) eqn:E'; [apply Z.eqb_eq in E'; lia|].
  destruct (0 <? -1 * ((high - low) / steps)) eqn:E''; [apply Z.ltb_lt in E''; lia|].
  replace (- (-1 * ((high - low) / steps))) with ((high - low) / steps) by lia.
  reflexivity.
Qed.

(** X2. [marker_rescale_steps] bounds the number of turns of the scale search
    from below only: with [1 <= steps <= high - low] the loop runs over at
    least [steps] and fewer than [2 * steps] percents. *)
Theorem scan_order_length_bounds {cv : Cv} (self : CropOnMarkers cv) (low high steps : Z) :
  marker_rescale_range self = (low, high) ->
  marker_rescale_steps self = steps ->
  1 <= steps -> steps <= high - low ->
  exists scales,
    scan_order self = Returns scales /\
    steps <= Z.of_nat (length scales) < 2 * steps.
Proof.
  intros Hrange Hsteps H1 H2.
  rewrite (scan_order_regular self low high steps Hrange Hsteps H1 H2).
  eexists. split; [reflexivity|].
  rewrite length_map. unfold range. rewrite length_map, length_seq.
  set (D := high - low). set (d := D / steps).
  assert (Hd : 1 <= d) by (apply Z.div_le_lower_bound; lia).
  assert (Hmod : D = steps * d + D mod steps) by (apply Z.div_mod; lia).
  assert (Hr : 0 <= D mod steps < steps) by (apply Z.mod_pos_bound; lia).
  assert (Hq : 0 <= (D + d - 1) / d) by (apply Z.div_pos; lia).
  rewrite Z2Nat.id by exact Hq.
  split.
  - apply Z.div_le_lower_bound; nia.
  - apply Z.div_lt_upper_bound; nia.
Qed.

Lemma scan_order_length_bounds_witness :
  exists scales,
    scan_order (processor corners_table no_options) = Returns scales /\
    10 <= Z.of_nat (length scales) < 2 * 10.
Proof.
  apply (scan_order_length_bounds (processor corners_table no_options) 35 100 10);
    [reflexivity | reflexivity | lia | lia].
Defined.

(** ** What a run leaves in the log *)

Section Diagnostics.
Context {cv : Cv}.
Variable self : CropOnMarkers cv.

Lemma get_centres_global_none (image_eroded_sub optimal_marker : ndarray)
    (log : list (event cv)) :
  _get_centres_global self image_eroded_sub optimal_marker = (None, log) ->
  In (LogError "Error: Not enough markers found in global search.") log.
Proof.
  unfold _get_centres_global. destruct (shape optimal_marker) as [h w].
  destruct (length _ <? 4)%nat eqn:E.
  - intro H. inversion H. now left.
  - apply Nat.ltb_ge in E.
    destruct (best_combo_spec w h _ E) as (best & Hbest & _).
    rewrite Hbest. discriminate.
Qed.

Lemma get_centres_global_some (image_eroded_sub optimal_marker : ndarray)
    (found : located) (log : list (event cv)) :
  _get_centres_global self image_eroded_sub optimal_marker = (Some found, log) -> log = [].
Proof.
  unfold _get_centres_global. destruct (shape optimal_marker) as [h w].
  destruct (length _ <? 4)%nat; [discriminate|].
  destruct (best_combo w h _) as [[[best ba] bs]|]; [|discriminate].
  intro H. now inversion H.
Qed.

Lemma match_quadrants_rejected_log (image optimal_marker : ndarray) (all_max_t : Q)
    (ks : list nat) (centres : list (Q * Q)) (rects : list rect) (sum_t : Q)
    (log : list (event cv)) :
  match_quadrants self image optimal_marker all_max_t ks centres rects sum_t = Rejected log ->
  In (LogError "Error: Not enough markers found in global search.") log \/
  In (LogError "Error: No circle found in Quad") log.
Proof.
  revert centres rects sum_t. induction ks as [|k ks IH]; intros centres rects sum_t;
    cbn [match_quadrants]; [discriminate|].
  destruct (shape optimal_marker) as [h w].
  destruct (quadrant_rejected _ _ _); [|apply IH].
  destruct (in_fallback self).
  - destruct (_get_centres_global self (working self image) optimal_marker)
      as [[found|] l] eqn:E; [discriminate|].
    intro H. inversion H; subst. left. eapply get_centres_global_none; eauto.
  - intro H. inversion H. right. now left.
Qed.

Lemma match_quadrants_switched_log (image optimal_marker : ndarray) (all_max_t : Q)
    (ks : list nat) (centres : list (Q * Q)) (rects : list rect) (sum_t sum_t' : Q)
    (found : located) (log : list (event cv)) :
  match_quadrants self image optimal_marker all_max_t ks centres rects sum_t
  = Switched found sum_t' log ->
  log = [].
Proof.
  revert centres rects sum_t. induction ks as [|k ks IH]; intros centres rects sum_t;
    cbn [match_quadrants]; [discriminate|].
  destruct (shape optimal_marker) as [h w].
  destruct (quadrant_rejected _ _ _); [|apply IH].
  destruct (in_fallback self); [|discriminate].
  destruct (_get_centres_global self (working self image) optimal_marker)
    as [[f|] l] eqn:E; [|discriminate].
  intro H. inversion H; subst. eapply get_centres_global_some; eauto.
Qed.

Lemma quadrants_summary_log (centres : list (Q * Q)) (sum_t avg_t : Q) (e : event cv) :
  In e (snd (@quadrants_summary cv centres sum_t avg_t)) -> exists msg, e = LogInfo msg.
Proof.
  unfold quadrants_summary. destruct centres; [intros []|].
  intros [<-|[<-|[]]]; eauto.
Qed.

Lemma locate_markers_none (image optimal_marker : ndarray) (all_max_t : Q)
    (log : list (event cv)) :
  locate_markers self image optimal_marker all_max_t = (None, log) ->
  In (LogError "Error: Not enough markers found in global search.") log \/
  In (LogError "Error: No circle found in Quad") log.
Proof.
  unfold locate_markers. destruct (in_global self).
  - intro H. left. eapply get_centres_global_none; eauto.
  - destruct (match_quadrants self image optimal_marker all_max_t [0; 1; 2; 3]%nat [] [] 0%Q)
      as [l|[[c r] a] s l|c r s] eqn:E.
    + intro H. inversion H; subst. eapply match_quadrants_rejected_log; eauto.
    + destruct (quadrants_summary c s a). discriminate.
    + destruct (quadrants_summary c s 0%Q). discriminate.
Qed.

Lemma locate_markers_some_log (image optimal_marker : ndarray) (all_max_t : Q)
    (found : located) (log : list (event cv)) (e : event cv) :
  locate_markers self image optimal_marker all_max_t = (Some found, log) ->
  In e log -> exists msg, e = LogInfo msg.
Proof.
  unfold locate_markers. destruct (in_global self).
  - intros H Hin. apply get_centres_global_some in H. subst. destruct Hin.
  - destruct (match_quadrants self image optimal_marker all_max_t [0; 1; 2; 3]%nat [] [] 0%Q)
      as [l|[[c r] a] s l|c r s] eqn:E; [discriminate| |].
    + apply match_quadrants_switched_log in E. subst l.
      pose proof (quadrants_summary_log c s a e) as Hs.
      destruct (quadrants_summary c s a) as [a' info]. intro H. inversion H; subst.
      exact Hs.
    + pose proof (quadrants_summary_log c s 0%Q e) as Hs.
      destruct (quadrants_summary c s 0%Q) as [a' info]. intro H. inversion H; subst.
      exact Hs.
Qed.

End Diagnostics.

(** X3. A failure of [apply_filter] is never silent, and a success never logs
    an error: when it returns [None] the log holds the warning that no scale
    matched or one of the two errors of the localisers; when it returns an
    image the log holds no error. *)
Theorem apply_filter_failure_is_logged {cv : Cv} (self : CropOnMarkers cv)
    (image : ndarray) :
  (forall log,
      apply_filter self image = Returns (None, log) ->
      In (LogWarning "No matchings for given scaleRange:") log \/
      In (LogError "Error: Not enough markers found in global search.") log \/
      In (LogError "Error: No circle found in Quad") log) /\
  (forall out log msg,
      apply_filter self image = Returns (Some out, log) -> ~ In (LogError msg) log).
Proof.
  split.
  - intro log. unfold apply_filter.
    destruct (getBestMatch self (working self image)) as [[[bs amt] log1]|e] eqn:Hbest;
      cbn [bind]; [|discriminate].
    destruct bs as [s|].
    + destruct (_ || _); [discriminate|].
      destruct (locate_markers self image (rescaled_marker self s) amt)
        as [[[[centres rects] avg_t]|] log2] eqn:E.
      * destruct (draw_rects self (image, working self image) rects). discriminate.
      * intro H. inversion H; subst. right.
        apply locate_markers_none in E.
        destruct E as [E|E]; [left|right]; apply in_or_app; now right.
    + intro H. inversion H; subst. left.
      apply getBestMatch_spec in Hbest. destruct Hbest as (scales & _ & _ & ->).
      apply in_or_app. left. apply in_or_app. right. now left.
  - intros out log msg. unfold apply_filter.
    destruct (getBestMatch self (working self image)) as [[[bs amt] log1]|e] eqn:Hbest;
      cbn [bind]; [|discriminate].
    destruct bs as [s|]; [|discriminate].
    destruct (_ || _); [discriminate|].
    destruct (locate_markers self image (rescaled_marker self s) amt)
      as [[[[centres rects] avg_t]|] log2] eqn:E; [|discriminate].
    destruct (draw_rects self (image, working self image) rects) as [image' sub'].
    intro H. inversion H; subst; clear H. intro Hin.
    apply in_app_or in Hin. destruct Hin as [Hin|Hin].
    { destruct (getBestMatch_log_quiet self _ _ _ _ _ Hbest Hin) as [[m Hm]|[t Ht]];
        discriminate. }
    apply in_app_or in Hin. destruct Hin as [Hin|Hin].
    { destruct (locate_markers_some_log self _ _ _ _ _ _ E Hin) as [m Hm]. discriminate. }
    apply in_app_or in Hin. destruct Hin as [Hin|Hin].
    { destruct (truthy avg_t); [|destruct Hin]. destruct Hin as [Hin|[]]. discriminate. }
    destruct Hin as [Hin|[Hin|Hin]]; try discriminate.
    unfold show_if in Hin. destruct (_ && _); [|destruct Hin].
    destruct Hin as [Hin|[]]. discriminate.
Qed.

Lemma apply_filter_failure_is_logged_witness :
  In (LogWarning "No matchings for given scaleRange:")
     [@LogWarning (symbolic quarter_table)
        "Template matching too low! Consider rechecking preProcessors applied before this.";
      LogError "Error: No circle found in Quad"] \/
  In (LogError "Error: Not enough markers found in global search.")
     [@LogWarning (symbolic quarter_table)
        "Template matching too low! Consider rechecking preProcessors applied before this.";
      LogError "Error: No circle found in Quad"] \/
  In (LogError "Error: No circle found in Quad")
     [@LogWarning (symbolic quarter_table)
        "Template matching too low! Consider rechecking preProcessors applied before this.";
      LogError "Error: No circle found in Quad"].
Proof.
  destruct (apply_filter_failure_is_logged (processor quarter_table half_to_full) sheet)
    as [Hnone _].
  apply Hnone. vm_compute. reflexivity.
Defined.

(** ** The quadrants that are accepted *)

Section Accepted.
Context {cv : Cv}.
Variable self : CropOnMarkers cv.
Variables (image optimal_marker : ndarray) (all_max_t : Q).

(** The loop completes exactly when no quadrant is rejected, and then it has
    appended the marker of each quadrant, in order. *)
Lemma match_quadrants_completed_iff (ks : list nat) (centres centres' : list (Q * Q))
    (rects rects' : list rect) (sum_t sum_t' : Q) :
  match_quadrants self image optimal_marker all_max_t ks centres rects sum_t
  = Completed centres' rects' sum_t' <->
  (forall k, In k ks ->
             quadrant_rejected self all_max_t (quad_max self image optimal_marker k) = false) /\
  centres' = centres
             ++ map (centre_of (snd (shape optimal_marker)) (fst (shape optimal_marker)))
                    (map (quad_candidate self image optimal_marker) ks) /\
  rects' = rects
           ++ map (rect_of (snd (shape optimal_marker)) (fst (shape optimal_marker)))
                  (map (quad_candidate self image optimal_marker) ks) /\
  sum_t' = fold_left Qplus
             (map cand_score (map (quad_candidate self image optimal_marker) ks)) sum_t.
Proof.
  revert centres rects sum_t. induction ks as [|k ks IH]; intros centres rects sum_t.
  - cbn [match_quadrants map fold_left]. rewrite !app_nil_r. split.
    + intro H. inversion H. repeat split. intros k [].
    + intros (_ & -> & -> & ->). reflexivity.
  - cbn [match_quadrants]. destruct (shape optimal_marker) as [h w] eqn:Hshape.
    fold (quad_max self image optimal_marker k).
    destruct (quadrant_rejected self all_max_t (quad_max self image optimal_marker k)) eqn:E.
    + split.
      * destruct (in_fallback self); [|discriminate].
        destruct (_get_centres_global _ _ _) as [[f|] l]; discriminate.
      * intros (Hall & _). rewrite Hall in E by now left. discriminate.
    + rewrite IH. cbn [fst snd map fold_left]. rewrite <- !app_assoc. cbn [app].
      split.
      * intros (Hall & Hc & Hr & Hs). split; [|now repeat split].
        intros k' [<-|Hin]; [exact E|now apply Hall].
      * intros (Hall & Hc & Hr & Hs). split; [|now repeat split].
        intros k' Hin. apply Hall. now right.
Qed.


End Accepted.



(** ** The four markers of a successful run *)

Lemma Subseq_In {A : Type} (c l : list A) (x : A) : Subseq c l -> In x c -> In x l.
Proof.
  intro Hs. induction Hs as [l|y c l Hs IH|y c l Hs IH]; intro Hin.
  - destruct Hin.
  - destruct Hin as [->|Hin]; [now left|right; now apply IH].
  - right. now apply IH.
Qed.

Lemma ForallOrdPairs_Subseq {A : Type} (R : A -> A -> Prop) (c l : list A) :
  Subseq c l -> ForallOrdPairs R l -> ForallOrdPairs R c.
Proof.
  intro Hs. induction Hs as [l|y c l Hs IH|y c l Hs IH]; intro Hf.
  - constructor.
  - inversion Hf; subst. constructor; [|now apply IH].
    apply Forall_forall. intros x Hx. rewrite Forall_forall in H1. apply H1.
    eapply Subseq_In; eauto.
  - inversion Hf; subst. now apply IH.
Qed.

Lemma best_combo_in {cv : Cv} (w h : Z) (candidates best : list candidate) (a s : Q) :
  best_combo w h candidates = Some (best, a, s) ->
  Subseq best (firstn 12 candidates) /\ length best = 4%nat.
Proof.
  unfold best_combo. intro H.
  pose proof (fold_pick w h (combinations 4 (top_k candidates)) [] None eq_refl) as Hinv.
  rewrite H in Hinv. cbn [app] in Hinv. destruct Hinv as (_ & _ & Hin & _).
  rewrite top_k_firstn in Hin. now apply combinations_subseq in Hin.
Qed.

Section Markers.
Context {cv : Cv}.
Variable self : CropOnMarkers cv.

Lemma get_centres_global_form (image_eroded_sub optimal_marker : ndarray)
    (centres : list (Q * Q)) (rects : list rect) (avg_t : Q) (log : list (event cv)) :
  _get_centres_global self image_eroded_sub optimal_marker
  = (Some (centres, rects, avg_t), log) ->
  exists best,
    centres = map (centre_of (snd (shape optimal_marker)) (fst (shape optimal_marker))) best /\
    rects = map (rect_of (snd (shape optimal_marker)) (fst (shape optimal_marker))) best /\
    avg_t = (score best / 4)%Q /\
    length best = 4%nat /\
    Subseq best
      (firstn 12 (candidates_of self (matchTemplate image_eroded_sub optimal_marker)
                                (snd (shape optimal_marker)) (fst (shape optimal_marker)))).
Proof.
  unfold _get_centres_global. destruct (shape optimal_marker) as [h w]. cbn [fst snd].
  destruct (length _ <? 4)%nat; [discriminate|].
  destruct (best_combo w h _) as [[[best ba] bs]|] eqn:E; [|discriminate].
  intro H. inversion H; subst. exists best.
  apply best_combo_in in E. destruct E as [Hs Hl]. now repeat split.
Qed.

Lemma match_quadrants_switched_global (image optimal_marker : ndarray) (all_max_t : Q)
    (ks : list nat) (centres : list (Q * Q)) (rects : list rect) (sum_t sum_t' : Q)
    (found : located) (log : list (event cv)) :
  match_quadrants self image optimal_marker all_max_t ks centres rects sum_t
  = Switched found sum_t' log ->
  in_fallback self = true /\
  _get_centres_global self (working self image) optimal_marker = (Some found, log).
Proof.
  revert centres rects sum_t. induction ks as [|k ks IH]; intros centres rects sum_t;
    cbn [match_quadrants]; [discriminate|].
  destruct (shape optimal_marker) as [h w].
  destruct (quadrant_rejected _ _ _); [|apply IH].
  destruct (in_fallback self); [|discriminate].
  destruct (_get_centres_global self (working self image) optimal_marker)
    as [[f|] l]; [|discriminate].
  intro H. inversion H; subst. now split.
Qed.

Lemma quadrants_summary_cons (centres : list (Q * Q)) (sum_t avg_t : Q) :
  centres <> [] ->
  @quadrants_summary cv centres sum_t avg_t
  = (if truthy sum_t then (sum_t / 4)%Q else 0%Q,
     [LogInfo "Matching Marker:  "; LogInfo "Optimal Scale: "]).
Proof. destruct centres; [contradiction|reflexivity]. Qed.

(** Whatever the strategy, the markers handed back are four: four of the
    first twelve candidates of the global search on the whole image, or the
    markers of the four quadrants when none is rejected; the centres and
    rectangles are computed from them. *)
Lemma locate_markers_form (image optimal_marker : ndarray) (all_max_t : Q)
    (centres : list (Q * Q)) (rects : list rect) (avg_t : Q) (log : list (event cv)) :
  locate_markers self image optimal_marker all_max_t = (Some (centres, rects, avg_t), log) ->
  exists markers,
    length markers = 4%nat /\
    centres = map (centre_of (snd (shape optimal_marker)) (fst (shape optimal_marker)))
                  markers /\
    rects = map (rect_of (snd (shape optimal_marker)) (fst (shape optimal_marker))) markers /\
    (((in_global self = true \/ in_fallback self = true) /\
      Subseq markers
        (firstn 12 (candidates_of self (matchTemplate (working self image) optimal_marker)
                                  (snd (shape optimal_marker)) (fst (shape optimal_marker)))))
     \/
     (in_global self = false /\
      markers = map (quad_candidate self image optimal_marker) [0; 1; 2; 3]%nat /\
      forall k, In k [0; 1; 2; 3]%nat ->
                quadrant_rejected self all_max_t (quad_max self image optimal_marker k)
                = false)).
Proof.
  unfold locate_markers. destruct (in_global self) eqn:Hglobal.
  - intro H. apply get_centres_global_form in H.
    destruct H as (best & Hc & Hr & Ha & Hl & Hs).
    exists best. split; [exact Hl|]. split; [exact Hc|]. split; [exact Hr|].
    left. split; [now left|exact Hs].
  - destruct (match_quadrants self image optimal_marker all_max_t [0; 1; 2; 3]%nat [] [] 0%Q)
      as [l|[[c r] a] s l|c r s] eqn:E; [discriminate| |].
    + apply match_quadrants_switched_global in E. destruct E as [Hfb E].
      apply get_centres_global_form in E.
      destruct E as (best & Hc & Hr & Ha & Hl & Hs).
      destruct (quadrants_summary c s a) as [a' info]. intro H. inversion H; subst.
      exists best. split; [exact Hl|]. split; [reflexivity|]. split; [reflexivity|].
      left. split; [now right|exact Hs].
    + apply match_quadrants_completed_iff in E. destruct E as (Hall & -> & -> & ->).
      cbn [app].
      set (markers := map (quad_candidate self image optimal_marker) [0; 1; 2; 3]%nat).
      change (fold_left Qplus (map cand_score markers) 0%Q) with (score markers).
      rewrite quadrants_summary_cons by (unfold markers; discriminate).
      intro H. inversion H; subst; clear H.
      exists markers.
      split; [reflexivity|]. split; [reflexivity|]. split; [reflexivity|].
      right. split; [reflexivity|]. split; [reflexivity|exact Hall].
Qed.

(** A successful run: the scale, the four markers, the image returned and
    the log. *)
Lemma apply_filter_success (image out : ndarray) (log : list (event cv)) :
  apply_filter self image = Returns (Some out, log) ->
  exists s all_max_t log1 log2 avg_t markers,
    getBestMatch self (working self image) = Returns (Some s, all_max_t, log1) /\
    length markers = 4%nat /\
    (((in_global self = true \/ in_fallback self = true) /\
      Subseq markers
        (firstn 12 (candidates_of self
                      (matchTemplate (working self image) (rescaled_marker self s))
                      (snd (shape (rescaled_marker self s)))
                      (fst (shape (rescaled_marker self s))))))
     \/
     (in_global self = false /\
      markers = map (quad_candidate self image (rescaled_marker self s)) [0; 1; 2; 3]%nat /\
      forall k, In k [0; 1; 2; 3]%nat ->
                quadrant_rejected self all_max_t
                  (quad_max self image (rescaled_marker self s) k) = false)) /\
    out = four_point_transform
            (fst (draw_rects self (image, working self image)
                    (map (rect_of (snd (shape (rescaled_marker self s)))
                                  (fst (shape (rescaled_marker self s)))) markers)))
            (map (centre_of (snd (shape (rescaled_marker self s)))
                            (fst (shape (rescaled_marker self s)))) markers) /\
    log = log1 ++ log2
          ++ (if truthy avg_t then [ThresholdCircle avg_t] else [])
          ++ [Transform
                (fst (draw_rects self (image, working self image)
                        (map (rect_of (snd (shape (rescaled_marker self s)))
                                      (fst (shape (rescaled_marker self s)))) markers)))
                (map (centre_of (snd (shape (rescaled_marker self s)))
                                (fst (shape (rescaled_marker self s)))) markers);
              AppendSaveImg
                (snd (draw_rects self (image, working self image)
                        (map (rect_of (snd (shape (rescaled_marker self s)))
                                      (fst (shape (rescaled_marker self s)))) markers)))]
          ++ show_if ((2 <=? show_image_level (tuning self))
                      && (show_image_level (tuning self) <? 4)) "Warped".
Proof.
  unfold apply_filter.
  destruct (getBestMatch self (working self image)) as [[[bs amt] log1]|e] eqn:Hbest;
    cbn [bind]; [|discriminate].
  destruct bs as [s|]; [|discriminate].
  destruct (_ || _); [discriminate|].
  destruct (locate_markers self image (rescaled_marker self s) amt)
    as [[[[centres rects] avg_t]|] log2] eqn:E; [|discriminate].
  apply locate_markers_form in E. destruct E as (markers & Hl & -> & -> & Horigin).
  destruct (draw_rects self (image, working self image) _) as [image' sub'] eqn:Ed.
  intro H. inversion H; subst; clear H.
  exists s, amt, log1, log2, avg_t, markers. rewrite Ed. cbn [fst snd].
  split; [reflexivity|]. split; [exact Hl|]. split; [exact Horigin|].
  split; reflexivity.
Qed.

(** The rectangles of four markers, one after the other, on both images. *)
Lemma draw_rects_four (image image_eroded_sub : ndarray) (w h : Z)
    (t1 : Q) (x1 y1 : Z) (t2 : Q) (x2 y2 : Z) (t3 : Q) (x3 y3 : Z) (t4 : Q) (x4 y4 : Z) :
  draw_rects self (image, image_eroded_sub)
    (map (rect_of w h) [(t1, x1, y1); (t2, x2, y2); (t3, x3, y3); (t4, x4, y4)])
  = (rectangle
       (rectangle
          (rectangle
             (rectangle image (x1, y1) (x1 + w, y1 + h)
                MARKER_RECTANGLE_COLOR DEFAULT_LINE_WIDTH)
             (x2, y2) (x2 + w, y2 + h) MARKER_RECTANGLE_COLOR DEFAULT_LINE_WIDTH)
          (x3, y3) (x3 + w, y3 + h) MARKER_RECTANGLE_COLOR DEFAULT_LINE_WIDTH)
       (x4, y4) (x4 + w, y4 + h) MARKER_RECTANGLE_COLOR DEFAULT_LINE_WIDTH,
     rectangle
       (rectangle
          (rectangle
             (rectangle image_eroded_sub (x1, y1) (x1 + w, y1 + h)
                (if apply_erode_subtract self then ERODE_RECT_COLOR else NORMAL_RECT_COLOR) 4)
             (x2, y2) (x2 + w, y2 + h)
             (if apply_erode_subtract self then ERODE_RECT_COLOR else NORMAL_RECT_COLOR) 4)
          (x3, y3) (x3 + w, y3 + h)
          (if apply_erode_subtract self then ERODE_RECT_COLOR else NORMAL_RECT_COLOR) 4)
       (x4, y4) (x4 + w, y4 + h)
       (if apply_erode_subtract self then ERODE_RECT_COLOR else NORMAL_RECT_COLOR) 4).
Proof. reflexivity. Qed.

End Markers.

(** C9, as the code has it.  Whenever [apply_filter] returns an image, it
    has accepted four markers at the scale [getBestMatch] chose: four of the
    first twelve candidates of the global search (in the global modes, and
    in the modes [auto] and [fallback] after a rejected quadrant), or the
    markers of the four quadrants, none of them rejected.  At each of them,
    in this order, a rectangle of the size of the scaled marker has been
    drawn on the original image (in the marker colour, with the default line
    width) and on the working image (in the colour that goes with the
    erosion flag, with a line width of 4), whatever the verbosity level.
    The original image with the four rectangles is what the 4-point
    transform receives, together with the centres of the four rectangles;
    the working image with them is what is saved.  The verbosity level
    changes the trace only, never the result. *)
Theorem rectangles_drawn_at_every_level {cv : Cv} (self : CropOnMarkers cv)
    (image : ndarray) :
  (forall out log,
      apply_filter self image = Returns (Some out, log) ->
      exists s all_max_t log1 h w t1 x1 y1 t2 x2 y2 t3 x3 y3 t4 x4 y4,
        getBestMatch self (working self image) = Returns (Some s, all_max_t, log1) /\
        shape (rescaled_marker self s) = (h, w) /\
        (((in_global self = true \/ in_fallback self = true) /\
          Subseq [(t1, x1, y1); (t2, x2, y2); (t3, x3, y3); (t4, x4, y4)]
            (firstn 12 (candidates_of self
                          (matchTemplate (working self image) (rescaled_marker self s))
                          w h)))
         \/
         (in_global self = false /\
          [(t1, x1, y1); (t2, x2, y2); (t3, x3, y3); (t4, x4, y4)]
          = map (quad_candidate self image (rescaled_marker self s)) [0; 1; 2; 3]%nat /\
          forall k, In k [0; 1; 2; 3]%nat ->
                    quadrant_rejected self all_max_t
                      (quad_max self image (rescaled_marker self s) k) = false)) /\
        let image' :=
          rectangle
            (rectangle
               (rectangle
                  (rectangle image (x1, y1) (x1 + w, y1 + h)
                     MARKER_RECTANGLE_COLOR DEFAULT_LINE_WIDTH)
                  (x2, y2) (x2 + w, y2 + h) MARKER_RECTANGLE_COLOR DEFAULT_LINE_WIDTH)
               (x3, y3) (x3 + w, y3 + h) MARKER_RECTANGLE_COLOR DEFAULT_LINE_WIDTH)
            (x4, y4) (x4 + w, y4 + h) MARKER_RECTANGLE_COLOR DEFAULT_LINE_WIDTH in
        let colour :=
          if apply_erode_subtract self then ERODE_RECT_COLOR else NORMAL_RECT_COLOR in
        let image_eroded_sub' :=
          rectangle
            (rectangle
               (rectangle
                  (rectangle (working self image) (x1, y1) (x1 + w, y1 + h) colour 4)
                  (x2, y2) (x2 + w, y2 + h) colour 4)
               (x3, y3) (x3 + w, y3 + h) colour 4)
            (x4, y4) (x4 + w, y4 + h) colour 4 in
        let centres :=
          [((inject_Z x1 + inject_Z w / 2)%Q, (inject_Z y1 + inject_Z h / 2)%Q);
           ((inject_Z x2 + inject_Z w / 2)%Q, (inject_Z y2 + inject_Z h / 2)%Q);
           ((inject_Z x3 + inject_Z w / 2)%Q, (inject_Z y3 + inject_Z h / 2)%Q);
           ((inject_Z x4 + inject_Z w / 2)%Q, (inject_Z y4 + inject_Z h / 2)%Q)] in
        out = four_point_transform image' centres /\
        In (Transform image' centres) log /\
        In (AppendSaveImg image_eroded_sub') log) /\
  (forall level,
      result_of (apply_filter (with_level self level) image)
      = result_of (apply_filter self image)).
Proof.
  split; [|intro level; apply apply_filter_level].
  intros out log H.
  destruct (apply_filter_success self image out log H)
    as (s & amt & log1 & log2 & avg_t & markers & Hbest & Hl & Horigin & Hout & Hlog).
  destruct (shape (rescaled_marker self s)) as [h w] eqn:Hshape. cbn [fst snd] in *.
  destruct markers as [|[[t1 x1] y1] [|[[t2 x2] y2] [|[[t3 x3] y3] [|[[t4 x4] y4] [|m l]]]]];
    try discriminate.
  exists s, amt, log1, h, w, t1, x1, y1, t2, x2, y2, t3, x3, y3, t4, x4, y4.
  split; [exact Hbest|]. split; [exact Hshape|]. split; [exact Horigin|].
  rewrite draw_rects_four in Hout, Hlog. cbn [fst snd map centre_of] in Hout, Hlog.
  cbv zeta.
  split; [exact Hout|].
  rewrite Hlog.
  split; apply in_or_app; right; apply in_or_app; right; apply in_or_app; right;
    simpl; auto.
Qed.

(** On the sheet with a peak in each corner the four rectangles are those
    of the corners. *)
Lemma rectangles_drawn_at_every_level_witness :
  exists s all_max_t log1 h w t1 x1 y1 t2 x2 y2 t3 x3 y3 t4 x4 y4,
    getBestMatch (processor corners_table (with_mode "global" (3 # 10)))
      (working (processor corners_table (with_mode "global" (3 # 10))) sheet)
    = Returns (Some s, all_max_t, log1) /\
    shape (rescaled_marker (processor corners_table (with_mode "global" (3 # 10))) s)
    = (h, w) /\
    (((in_global (processor corners_table (with_mode "global" (3 # 10))) = true \/
       in_fallback (processor corners_table (with_mode "global" (3 # 10))) = true) /\
      Subseq [(t1, x1, y1); (t2, x2, y2); (t3, x3, y3); (t4, x4, y4)]
        (firstn 12
           (candidates_of (processor corners_table (with_mode "global" (3 # 10)))
              (matchTemplate
                 (working (processor corners_table (with_mode "global" (3 # 10))) sheet)
                 (rescaled_marker (processor corners_table (with_mode "global" (3 # 10))) s))
              w h)))
     \/
     (in_global (processor corners_table (with_mode "global" (3 # 10))) = false /\
      [(t1, x1, y1); (t2, x2, y2); (t3, x3, y3); (t4, x4, y4)]
      = map (quad_candidate (processor corners_table (with_mode "global" (3 # 10))) sheet
               (rescaled_marker (processor corners_table (with_mode "global" (3 # 10))) s))
            [0; 1; 2; 3]%nat /\
      forall k, In k [0; 1; 2; 3]%nat ->
                quadrant_rejected (processor corners_table (with_mode "global" (3 # 10)))
                  all_max_t
                  (quad_max (processor corners_table (with_mode "global" (3 # 10))) sheet
                     (rescaled_marker (processor corners_table (with_mode "global" (3 # 10))) s)
                     k) = false)) /\
    let image' :=
      Rectangle
        (Rectangle
           (Rectangle
              (Rectangle sheet (x1, y1) (x1 + w, y1 + h) MARKER_RECTANGLE_COLOR 2)
              (x2, y2) (x2 + w, y2 + h) MARKER_RECTANGLE_COLOR 2)
           (x3, y3) (x3 + w, y3 + h) MARKER_RECTANGLE_COLOR 2)
        (x4, y4) (x4 + w, y4 + h) MARKER_RECTANGLE_COLOR 2 in
    let image_eroded_sub' :=
      Rectangle
        (Rectangle
           (Rectangle
              (Rectangle (NormalizeUtil sheet) (x1, y1) (x1 + w, y1 + h) ERODE_RECT_COLOR 4)
              (x2, y2) (x2 + w, y2 + h) ERODE_RECT_COLOR 4)
           (x3, y3) (x3 + w, y3 + h) ERODE_RECT_COLOR 4)
        (x4, y4) (x4 + w, y4 + h) ERODE_RECT_COLOR 4 in
    let centres :=
      [((inject_Z x1 + inject_Z w / 2)%Q, (inject_Z y1 + inject_Z h / 2)%Q);
       ((inject_Z x2 + inject_Z w / 2)%Q, (inject_Z y2 + inject_Z h / 2)%Q);
       ((inject_Z x3 + inject_Z w / 2)%Q, (inject_Z y3 + inject_Z h / 2)%Q);
       ((inject_Z x4 + inject_Z w / 2)%Q, (inject_Z y4 + inject_Z h / 2)%Q)] in
    corners_out = FourPoint image' centres /\
    In (@Transform (symbolic corners_table) image' centres) corners_log /\
    In (@AppendSaveImg (symbolic corners_table) image_eroded_sub') corners_log.
Proof.
  destruct (rectangles_drawn_at_every_level
              (processor corners_table (with_mode "global" (3 # 10))) sheet) as [Hout _].
  apply (Hout corners_out corners_log).
  vm_compute. reflexivity.
Defined.

(** C9 fails as stated: at verbosity level 0, which asks for no
    diagnostics, a successful run hands the 4-point transform the sheet with
    the four marker rectangles drawn on it, not the sheet as given. *)
Lemma quiet_run_counterexample :
  show_image_level (tuning (processor corners_table (with_mode "global" (3 # 10)))) = 0 /\
  result_of (apply_filter (processor corners_table (with_mode "global" (3 # 10))) sheet)
  = Returns (Some (FourPoint annotated_sheet
                     [(2 # 2, 2 # 2); (14 # 2, 2 # 2); (2 # 2, 14 # 2); (14 # 2, 14 # 2)])) /\
  In (@Transform (symbolic corners_table) annotated_sheet
        [(2 # 2, 2 # 2); (14 # 2, 2 # 2); (2 # 2, 14 # 2); (14 # 2, 14 # 2)])
     corners_log /\
  annotated_sheet <> sheet.
Proof.
  split; [reflexivity|]. split; [vm_compute; reflexivity|].
  split; [vm_compute; auto|]. discriminate.
Qed.

(** X5. Whenever [apply_filter] returns an image, it has accepted four
    markers, each with a score that reaches [min_matching_threshold] as the
    code compares them: a candidate of the global search has a score (a
    Python float) of at least the threshold; the marker of a quadrant has a
    score (a [np.float32]) of at least the converted threshold, and within
    the converted variation of [all_max_t].  Every rectangle drawn has the
    size of the marker at the chosen scale, every centre given to the
    4-point transform is the top-left corner of its rectangle plus half that
    size, and the image returned is the 4-point transform, at these centres,
    of the original image with the rectangles drawn on it. *)
Theorem apply_filter_accepts_four_markers {cv : Cv} (self : CropOnMarkers cv)
    (image out : ndarray) (log : list (event cv)) :
  apply_filter self image = Returns (Some out, log) ->
  exists s all_max_t log1 h w markers,
    getBestMatch self (working self image) = Returns (Some s, all_max_t, log1) /\
    shape (rescaled_marker self s) = (h, w) /\
    length markers = 4%nat /\
    (forall c, In c markers ->
       ((in_global self = true \/ in_fallback self = true) /\
        In c (candidates_of self
                (matchTemplate (working self image) (rescaled_marker self s)) w h) /\
        (min_matching_threshold self <= cand_score c)%Q)
       \/
       (in_global self = false /\
        (exists k, In k [0; 1; 2; 3]%nat /\
                   c = quad_candidate self image (rescaled_marker self s) k) /\
        (weak (min_matching_threshold self) <= cand_score c)%Q /\
        (Qabs (float32 (all_max_t - cand_score c)) < weak (max_matching_variation self))%Q)) /\
    out = four_point_transform
            (fold_left
               (fun img c =>
                  rectangle img (cand_loc c) (fst (cand_loc c) + w, snd (cand_loc c) + h)
                    MARKER_RECTANGLE_COLOR DEFAULT_LINE_WIDTH)
               markers image)
            (map (fun c => ((inject_Z (fst (cand_loc c)) + inject_Z w / 2)%Q,
                            (inject_Z (snd (cand_loc c)) + inject_Z h / 2)%Q))
                 markers).
Proof.
  intro H.
  destruct (apply_filter_success self image out log H)
    as (s & amt & log1 & log2 & avg_t & markers & Hbest & Hl & Horigin & Hout & _).
  destruct (shape (rescaled_marker self s)) as [h w] eqn:Hshape. cbn [fst snd] in *.
  exists s, amt, log1, h, w, markers.
  split; [exact Hbest|]. split; [exact Hshape|]. split; [exact Hl|]. split.
  - intros c Hc. destruct Horigin as [[Hmode Hsub]|(Hglobal & Hmarkers & Hall)].
    + left. split; [exact Hmode|].
      assert (Hin : In c (candidates_of self
                            (matchTemplate (working self image) (rescaled_marker self s)) w h)).
      { eapply Subseq_In; [apply firstn_subseq|]. eapply Subseq_In; eauto. }
      split; [exact Hin|]. eapply collect_above. exact Hin.
    + right. split; [exact Hglobal|]. rewrite Hmarkers in Hc.
      apply in_map_iff in Hc. destruct Hc as [k [<- Hk]].
      split; [eauto|].
      specialize (Hall k Hk). unfold quadrant_rejected in Hall.
      apply orb_false_iff in Hall. destruct Hall as [Hthr Hvar].
      change (cand_score (quad_candidate self image (rescaled_marker self s) k))
        with (quad_max self image (rescaled_marker self s) k).
      split; [now apply Qlt_bool_false_iff in Hthr|].
      apply Qnot_le_lt. intro Hle. apply Qle_bool_iff in Hle.
      rewrite Hle in Hvar. discriminate.
  - rewrite Hout. f_equal.
    + clear. generalize image, (working self image).
      induction markers as [|[[t x] y] l IH]; intros img sub; [reflexivity|].
      cbn [map rect_of draw_rects fold_left draw_rect cand_loc fst snd].
      apply (IH _ _).
    + apply map_ext. intros [[t x] y]. reflexivity.
Qed.

Lemma apply_filter_accepts_four_markers_witness :
  exists s all_max_t log1 h w markers,
    getBestMatch (processor corners_table (with_mode "global" (3 # 10)))
      (working (processor corners_table (with_mode "global" (3 # 10))) sheet)
    = Returns (Some s, all_max_t, log1) /\
    shape (rescaled_marker (processor corners_table (with_mode "global" (3 # 10))) s)
    = (h, w) /\
    length markers = 4%nat /\
    (forall c, In c markers ->
       ((in_global (processor corners_table (with_mode "global" (3 # 10))) = true \/
         in_fallback (processor corners_table (with_mode "global" (3 # 10))) = true) /\
        In c (candidates_of (processor corners_table (with_mode "global" (3 # 10)))
                (matchTemplate
                   (working (processor corners_table (with_mode "global" (3 # 10))) sheet)
                   (rescaled_marker (processor corners_table (with_mode "global" (3 # 10))) s))
                w h) /\
        (min_matching_threshold (processor corners_table (with_mode "global" (3 # 10)))
         <= cand_score c)%Q)
       \/
       (in_global (processor corners_table (with_mode "global" (3 # 10))) = false /\
        (exists k, In k [0; 1; 2; 3]%nat /\
                   c = quad_candidate (processor corners_table (with_mode "global" (3 # 10)))
                         sheet
                         (rescaled_marker
                            (processor corners_table (with_mode "global" (3 # 10))) s) k) /\
        (min_matching_threshold (processor corners_table (with_mode "global" (3 # 10)))
         <= cand_score c)%Q /\
        (Qabs (all_max_t - cand_score c)
         < max_matching_variation (processor corners_table (with_mode "global" (3 # 10))))%Q)) /\
    corners_out
    = FourPoint
        (fold_left
           (fun img c =>
              Rectangle img (cand_loc c) (fst (cand_loc c) + w, snd (cand_loc c) + h)
                MARKER_RECTANGLE_COLOR 2)
           markers sheet)
        (map (fun c => ((inject_Z (fst (cand_loc c)) + inject_Z w / 2)%Q,
                        (inject_Z (snd (cand_loc c)) + inject_Z h / 2)%Q))
             markers).
Proof.
  apply (apply_filter_accepts_four_markers
           (processor corners_table (with_mode "global" (3 # 10))) sheet corners_out corners_log).
  vm_compute. reflexivity.
Defined.

(** ** The average recorded after a fallback *)




(** ** The markers of the global search *)

Lemma ForallOrdPairs_map {A B : Type} (R : B -> B -> Prop) (f : A -> B) (l : list A) :
  ForallOrdPairs (fun a b => R (f a) (f b)) l -> ForallOrdPairs R (map f l).
Proof.
  intro H. induction H as [|a l Ha Hl IH]; simpl; constructor; [|exact IH].
  apply Forall_forall. intros y Hy. apply in_map_iff in Hy. destruct Hy as [x [<- Hx]].
  rewrite Forall_forall in Ha. now apply Ha.
Qed.

Lemma ForallOrdPairs_weaken {A : Type} (R R' : A -> A -> Prop) (l : list A) :
  (forall a b, In a l -> In b l -> R a b -> R' a b) ->
  ForallOrdPairs R l -> ForallOrdPairs R' l.
Proof.
  intros Himp H. induction H as [|a l Ha Hl IH]; constructor.
  - apply Forall_forall. intros b Hb. rewrite Forall_forall in Ha.
    apply Himp; [now left|now right|now apply Ha].
  - apply IH. intros x y Hx Hy. apply Himp; now right.
Qed.

Lemma collect_in_bounds (thr : Q) (sx sy : Z) (n : nat) (res : response) (c : candidate) :
  In c (fst (collect n thr sx sy res)) -> In (cand_loc c) (locations res).
Proof.
  revert res. induction n as [|n IH]; intro res; [intros []|].
  rewrite collect_step. destruct (Qlt_bool _ _); cbn [fst snd]; [intros []|].
  intros [<-|Hin].
  - unfold cand_loc. cbn [fst snd].
    pose proof (minMaxLoc_in res) as H. now destruct (snd (minMaxLoc res)).
  - apply IH in Hin. now rewrite suppress_locations in Hin.
Qed.

Lemma outside_window_apart (res : response) (sx sy x y x' y' : Z) :
  In (x', y') (locations res) ->
  in_window (window res sx sy x y) (x', y') = false ->
  sx < Z.abs (x - x') \/ sy < Z.abs (y - y').
Proof.
  intros Hin Hout. apply in_locations in Hin.
  destruct (Z_lt_le_dec sx (Z.abs (x - x'))) as [H|Hx]; [now left|].
  destruct (Z_lt_le_dec sy (Z.abs (y - y'))) as [H|Hy]; [now right|].
  exfalso.
  assert (Htrue : in_window (window res sx sy x y) (x', y') = true).
  { apply in_window_iff. cbn [fst snd]. lia. }
  congruence.
Qed.

(** X8. With a threshold above 0, the four rectangles the global search hands
    back lie inside the response array, have the size of the marker, and any
    two of them are more than the suppression radius apart, horizontally or
    vertically: they are four different places. *)
Theorem global_markers_apart {cv : Cv} (self : CropOnMarkers cv)
    (image_eroded_sub optimal_marker : ndarray) (h w : Z)
    (centres : list (Q * Q)) (rects : list rect) (avg_t : Q) (log : list (event cv)) :
  shape optimal_marker = (h, w) ->
  (0 < min_matching_threshold self)%Q ->
  _get_centres_global self image_eroded_sub optimal_marker
  = (Some (centres, rects, avg_t), log) ->
  ForallOrdPairs (apart (suppress_radius w) (suppress_radius h)) rects /\
  (forall x y rw rh,
      In (x, y, rw, rh) rects ->
      0 <= x <= Z.of_nat (last_col (matchTemplate image_eroded_sub optimal_marker)) /\
      0 <= y <= Z.of_nat (last_row (matchTemplate image_eroded_sub optimal_marker)) /\
      rw = w /\ rh = h).
Proof.
  intros Hshape Hthr H. apply get_centres_global_form in H.
  rewrite Hshape in H. cbn [fst snd] in H.
  destruct H as (best & _ & -> & _ & _ & Hsub).
  set (res := matchTemplate image_eroded_sub optimal_marker) in *.
  assert (Hin : forall c, In c best -> In (cand_loc c) (locations res)).
  { intros c Hc. eapply collect_in_bounds.
    eapply Subseq_In; [apply firstn_subseq|]. eapply Subseq_In; eauto. }
  split.
  - apply ForallOrdPairs_map.
    apply ForallOrdPairs_weaken
      with (R := fun c c' : candidate =>
                   in_window (window res (suppress_radius w) (suppress_radius h)
                                     (fst (cand_loc c)) (snd (cand_loc c)))
                             (cand_loc c') = false).
    + intros [[t x] y] [[t' x'] y'] Ha Hb Hw. unfold cand_loc in Hw. cbn [fst snd] in Hw.
      unfold apart, rect_of. eapply outside_window_apart; eauto.
      apply (Hin _ Hb).
    + eapply ForallOrdPairs_Subseq; [exact Hsub|].
      eapply ForallOrdPairs_Subseq; [apply firstn_subseq|].
      apply collect_apart; auto.
  - intros x y rw rh Hr. apply in_map_iff in Hr. destruct Hr as [[[t x0] y0] [Heq Hc]].
    unfold rect_of in Heq. inversion Heq; subst.
    apply Hin in Hc. unfold cand_loc in Hc. cbn [fst snd] in Hc.
    apply in_locations in Hc. tauto.
Qed.

Lemma global_markers_apart_witness :
  ForallOrdPairs (apart (suppress_radius 2) (suppress_radius 2))
    [(0, 0, 2, 2); (6, 0, 2, 2); (0, 6, 2, 2); (6, 6, 2, 2)] /\
  (forall x y rw rh,
      In (x, y, rw, rh) [(0, 0, 2, 2); (6, 0, 2, 2); (0, 6, 2, 2); (6, 6, 2, 2)] ->
      0 <= x <= Z.of_nat (last_col (@matchTemplate (symbolic corners_table)
                                      (NormalizeUtil sheet)
                                      (ResizeUtilH (loaded_marker true) 2))) /\
      0 <= y <= Z.of_nat (last_row (@matchTemplate (symbolic corners_table)
                                      (NormalizeUtil sheet)
                                      (ResizeUtilH (loaded_marker true) 2))) /\
      rw = 2 /\ rh = 2).
Proof.
  apply (global_markers_apart (processor corners_table (with_mode "global" (3 # 10)))
           (NormalizeUtil sheet) (ResizeUtilH (loaded_marker true) 2) 2 2
           [(2 # 2, 2 # 2); (14 # 2, 2 # 2); (2 # 2, 14 # 2); (14 # 2, 14 # 2)]
           [(0, 0, 2, 2); (6, 0, 2, 2); (0, 6, 2, 2); (6, 6, 2, 2)]
           (4 # 4) []).
  - reflexivity.
  - reflexivity.
  - vm_compute. reflexivity.
Defined.

(** ** The cost of the selection *)

Lemma combinations_count {A : Type} (k : nat) (l : list A) :
  length (combinations k l) = binom (length l) k.
Proof.
  revert k. induction l as [|x l IH]; intro k; destruct k; simpl; try reflexivity.
  now rewrite length_app, length_map, !IH.
Qed.

Lemma binom_twelve (n : nat) : (n <= 12)%nat -> (binom n 4 <= 495)%nat.
Proof.
  intro H. do 13 (destruct n as [|n]; [vm_compute; lia|]). lia.
Qed.

(** X9. The selection loop of the global search takes one turn for each choice
    of 4 among the first [min(n, 12)] of the [n] recorded candidates: never
    more than 495 turns, and exactly 495 once 12 candidates are recorded. *)
Theorem selection_turns (candidates : list candidate) :
  length (combinations 4 (top_k candidates))
  = binom (Nat.min (length candidates) 12) 4 /\
  (length (combinations 4 (top_k candidates)) <= 495)%nat /\
  ((12 <= length candidates)%nat ->
   length (combinations 4 (top_k candidates)) = 495%nat).
Proof.
  assert (Hlen : length (top_k candidates) = Nat.min (length candidates) 12).
  { unfold top_k. rewrite length_firstn. lia. }
  rewrite combinations_count, Hlen.
  split; [reflexivity|]. split.
  - apply binom_twelve. lia.
  - intro H. rewrite Nat.min_r by exact H. reflexivity.
Qed.

(** ** The quadrants tile the image *)

Lemma quads_bounds {cv : Cv} (self : CropOnMarkers cv) (image : ndarray) (k : nat) :
  quads self image k
  = slice (working self image)
          (fst (fst (fst (quad_bounds self image k))))
          (snd (fst (fst (quad_bounds self image k))))
          (snd (fst (quad_bounds self image k)))
          (snd (quad_bounds self image k)).
Proof.
  unfold quads, quad_bounds.
  destruct (shape (prepared self image)) as [h1 w1].
  destruct (midpoints (prepared self image)) as [midh midw].
  destruct k as [|[|[|k]]]; reflexivity.
Qed.

(** X10. With division factors of at least 1, the four quadrants are slices of
    the working image that tile it: every pixel lies in exactly one of them;
    and the origin by which the marker of a quadrant is translated is the
    top-left corner of that quadrant. *)
Theorem quadrants_tile_the_image {cv : Cv} (self : CropOnMarkers cv) (image : ndarray)
    (h1 w1 : Z) :
  shape (prepared self image) = (h1, w1) ->
  0 <= h1 -> 0 <= w1 ->
  1 <= height_factor -> 1 <= width_factor ->
  (forall k, (k < 4)%nat ->
     exists y0 y1 x0 x1,
       quad_bounds self image k = (y0, y1, x0, x1) /\
       quads self image k = slice (working self image) y0 y1 x0 x1 /\
       origins self image k = (x0, y0) /\
       0 <= y0 <= y1 /\ y1 <= h1 /\ 0 <= x0 <= x1 /\ x1 <= w1) /\
  (forall x y,
     0 <= y < h1 -> 0 <= x < w1 ->
     exists k, (k < 4)%nat /\ in_bounds (quad_bounds self image k) x y /\
               forall k', (k' < 4)%nat -> in_bounds (quad_bounds self image k') x y -> k' = k).
Proof.
  intros Hshape Hh Hw Hhf Hwf.
  assert (Hmid : midpoints (prepared self image) = (h1 / height_factor, w1 / width_factor)).
  { unfold midpoints. now rewrite Hshape. }
  assert (Hmh : 0 <= h1 / height_factor <= h1).
  { split; [apply Z.div_pos; lia|]. apply Z.div_le_upper_bound; nia. }
  assert (Hmw : 0 <= w1 / width_factor <= w1).
  { split; [apply Z.div_pos; lia|]. apply Z.div_le_upper_bound; nia. }
  split.
  - intros k Hk. pose proof (quads_bounds self image k) as Hq.
    unfold origins. unfold quad_bounds in *. rewrite Hshape, Hmid in *.
    destruct k as [|[|[|[|k]]]]; try lia; cbn [fst snd nth] in *;
      do 4 eexists; (split; [reflexivity|]); (split; [exact Hq|]);
      (split; [reflexivity|]); lia.
  - intros x y Hy Hx. unfold quad_bounds. rewrite Hshape, Hmid.
    destruct (Z_lt_le_dec y (h1 / height_factor)) as [Hyl|Hyl];
      destruct (Z_lt_le_dec x (w1 / width_factor)) as [Hxl|Hxl].
    + exists 0%nat. split; [lia|]. split; [unfold in_bounds; lia|].
      intros [|[|[|[|k']]]] Hk' Hb; unfold in_bounds in Hb; lia.
    + exists 1%nat. split; [lia|]. split; [unfold in_bounds; lia|].
      intros [|[|[|[|k']]]] Hk' Hb; unfold in_bounds in Hb; lia.
    + exists 2%nat. split; [lia|]. split; [unfold in_bounds; lia|].
      intros [|[|[|[|k']]]] Hk' Hb; unfold in_bounds in Hb; lia.
    + exists 3%nat. split; [lia|]. split; [unfold in_bounds; lia|].
      intros [|[|[|[|k']]]] Hk' Hb; unfold in_bounds in Hb; lia.
Qed.

Lemma quadrants_tile_the_image_witness :
  (forall k, (k < 4)%nat ->
     exists y0 y1 x0 x1,
       quad_bounds (processor corners_table no_options) sheet k = (y0, y1, x0, x1) /\
       quads (processor corners_table no_options) sheet k
       = @slice (symbolic corners_table)
           (working (processor corners_table no_options) sheet) y0 y1 x0 x1 /\
       origins (processor corners_table no_options) sheet k = (x0, y0) /\
       0 <= y0 <= y1 /\ y1 <= 8 /\ 0 <= x0 <= x1 /\ x1 <= 8) /\
  (forall x y,
     0 <= y < 8 -> 0 <= x < 8 ->
     exists k, (k < 4)%nat /\
               in_bounds (quad_bounds (processor corners_table no_options) sheet k) x y /\
               forall k', (k' < 4)%nat ->
                          in_bounds (quad_bounds (processor corners_table no_options) sheet k')
                                    x y ->
                          k' = k).
Proof.
  apply (quadrants_tile_the_image (processor corners_table no_options) sheet 8 8).
  - reflexivity.
  - lia.
  - lia.
  - simpl. lia.
  - simpl. lia.
Defined.

(** ** The verbosity level and the log *)

Lemma hush_app {cv : Cv} (l1 l2 : list (event cv)) : hush (l1 ++ l2) = hush l1 ++ hush l2.
Proof. apply filter_app. Qed.

Lemma hush_show_if {cv : Cv} (b : bool) (title : string) : hush (show_if b title) = [].
Proof. now destruct b. Qed.

Section Hushed.
Context {cv : Cv}.
Variable self : CropOnMarkers cv.
Variable level : Z.

Lemma getBestMatch_hushed (image_eroded_sub : ndarray) :
  hushed (getBestMatch (with_level self level) image_eroded_sub)
  = hushed (getBestMatch self image_eroded_sub).
Proof.
  unfold getBestMatch.
  change (scan_order (with_level self level)) with (scan_order self).
  destruct (scan_order self) as [scales|e]; [|reflexivity].
  cbn [bind].
  change (refused (with_level self level)) with (refused self).
  destruct (existsb _ _); [reflexivity|].
  change (try_scale (with_level self level)) with (try_scale self).
  destruct (fold_left (try_scale self image_eroded_sub) scales (None, None, 0%Q))
    as [[res bs] amt].
  change (too_low (with_level self level)) with (too_low self).
  cbn [hushed]. rewrite !hush_app.
  destruct (too_low self bs amt); [|reflexivity].
  unfold hush at 1 3. cbn [filter is_show negb].
  fold (hush (show_if (1 <=? show_image_level (tuning (with_level self level))) "res")).
  fold (hush (show_if (1 <=? show_image_level (tuning self)) "res")).
  now rewrite !hush_show_if.
Qed.

Lemma get_centres_global_hushed (image_eroded_sub optimal_marker : ndarray) :
  fst (_get_centres_global (with_level self level) image_eroded_sub optimal_marker)
  = fst (_get_centres_global self image_eroded_sub optimal_marker) /\
  hush (snd (_get_centres_global (with_level self level) image_eroded_sub optimal_marker))
  = hush (snd (_get_centres_global self image_eroded_sub optimal_marker)).
Proof.
  unfold _get_centres_global. destruct (shape optimal_marker) as [h w].
  change (candidates_of (with_level self level)) with (candidates_of self).
  destruct (length _ <? 4)%nat.
  - split; [reflexivity|]. cbn [snd]. unfold hush. cbn [filter is_show negb].
    f_equal.
    destruct (1 <=? show_image_level (tuning (with_level self level)));
      destruct (1 <=? show_image_level (tuning self)); reflexivity.
  - destruct (best_combo w h _) as [[[best ba] bs]|]; split; reflexivity.
Qed.

Lemma match_quadrants_hushed (image optimal_marker : ndarray) (all_max_t : Q)
    (ks : list nat) (centres : list (Q * Q)) (rects : list rect) (sum_t : Q) :
  hush_quadrants (match_quadrants (with_level self level) image optimal_marker all_max_t
                    ks centres rects sum_t)
  = hush_quadrants (match_quadrants self image optimal_marker all_max_t
                      ks centres rects sum_t).
Proof.
  revert centres rects sum_t. induction ks as [|k ks IH]; intros centres rects sum_t;
    [reflexivity|].
  cbn [match_quadrants]. destruct (shape optimal_marker) as [h w].
  change (quads (with_level self level)) with (quads self).
  change (quadrant_rejected (with_level self level)) with (quadrant_rejected self).
  change (in_fallback (with_level self level)) with (in_fallback self).
  change (working (with_level self level)) with (working self).
  change (origins (with_level self level)) with (origins self).
  destruct (quadrant_rejected self all_max_t _); [|apply IH].
  destruct (in_fallback self).
  - destruct (get_centres_global_hushed (working self image) optimal_marker) as [Hf Hl].
    destruct (_get_centres_global (with_level self level) (working self image) optimal_marker)
      as [[f1|] l1];
      destruct (_get_centres_global self (working self image) optimal_marker) as [[f2|] l2];
      cbn [fst snd] in Hf, Hl; try discriminate; cbn [hush_quadrants]; rewrite Hl;
      [inversion Hf|]; reflexivity.
  - cbn [hush_quadrants]. unfold hush. cbn [filter is_show negb]. do 2 f_equal.
    destruct (1 <=? show_image_level (tuning (with_level self level)));
      destruct (1 <=? show_image_level (tuning self)); reflexivity.
Qed.

Lemma locate_markers_hushed (image optimal_marker : ndarray) (all_max_t : Q) :
  fst (locate_markers (with_level self level) image optimal_marker all_max_t)
  = fst (locate_markers self image optimal_marker all_max_t) /\
  hush (snd (locate_markers (with_level self level) image optimal_marker all_max_t))
  = hush (snd (locate_markers self image optimal_marker all_max_t)).
Proof.
  unfold locate_markers.
  change (in_global (with_level self level)) with (in_global self).
  change (working (with_level self level)) with (working self).
  destruct (in_global self); [apply get_centres_global_hushed|].
  pose proof (match_quadrants_hushed image optimal_marker all_max_t
                [0; 1; 2; 3]%nat [] [] 0%Q) as Hq.
  destruct (match_quadrants (with_level self level) image optimal_marker all_max_t
              [0; 1; 2; 3]%nat [] [] 0%Q) as [l1|[[c1 r1] a1] s1 l1|c1 r1 s1];
    destruct (match_quadrants self image optimal_marker all_max_t
                [0; 1; 2; 3]%nat [] [] 0%Q) as [l2|[[c2 r2] a2] s2 l2|c2 r2 s2];
    cbn [hush_quadrants] in Hq; try discriminate.
  - inversion Hq. now split.
  - inversion Hq; subst.
    destruct (quadrants_summary c2 s2 a2) as [a' info]. cbn [fst snd].
    split; [reflexivity|]. rewrite !hush_app. congruence.
  - inversion Hq; subst. now split.
Qed.

End Hushed.

(** X11. The verbosity level decides which images are displayed and nothing else:
    at any two levels [apply_filter] returns the same result, or raises the
    same exception, and leaves the same log once the displays are taken out:
    the same warnings and errors, the same average for [threshold_circles],
    the same call of the 4-point transform and the same saved image. *)
Theorem verbosity_only_gates_displays {cv : Cv} (self : CropOnMarkers cv) (level : Z)
    (image : ndarray) :
  hushed (apply_filter (with_level self level) image) = hushed (apply_filter self image).
Proof.
  unfold apply_filter.
  change (working (with_level self level)) with (working self).
  pose proof (getBestMatch_hushed self level (working self image)) as Hb.
  destruct (getBestMatch (with_level self level) (working self image))
    as [[[bs1 amt1] log1]|e1];
    destruct (getBestMatch self (working self image)) as [[[bs2 amt2] log2]|e2];
    cbn [hushed] in Hb; try discriminate; [|now inversion Hb].
  inversion Hb as [[Hbs Hamt Hlog]]. subst bs1 amt1. cbn [bind].
  destruct bs2 as [s|].
  - change (rescaled_marker (with_level self level)) with (rescaled_marker self).
    change (marker (with_level self level)) with (marker self).
    change (locate_refused (with_level self level)) with (locate_refused self).
    destruct (_ || _); [reflexivity|].
    destruct (locate_markers_hushed self level image (rescaled_marker self s) amt2)
      as [Hf Hl].
    destruct (locate_markers (with_level self level) image (rescaled_marker self s) amt2)
      as [[[[c1 r1] a1]|] l1];
      destruct (locate_markers self image (rescaled_marker self s) amt2)
        as [[[[c2 r2] a2]|] l2];
      cbn [fst snd] in Hf, Hl; try discriminate.
    + inversion Hf; subst.
      change (draw_rects (with_level self level)) with (draw_rects self).
      destruct (draw_rects self (image, working self image) r2) as [image' sub'].
      cbn [hushed]. rewrite !hush_app, !hush_show_if, Hlog, Hl. reflexivity.
    + cbn [hushed]. rewrite !hush_app, Hlog, Hl. reflexivity.
  - cbn [hushed]. rewrite !hush_app, !hush_show_if, Hlog. reflexivity.
Qed.

(** ** The construction of a processor *)

(** X12. The construction exits with code 31 exactly when there is no marker
    file.  With a marker file it raises a [ZeroDivisionError] exactly when
    [sheetToMarkerWidthRatio] is configured and its integer part is 0 (the
    quotient is computed before the marker is resized), and it fails inside
    the libraries exactly when the ratio is not 0 and the file is no image
    or the resize is refused; in every other case it returns a processor.
    The legacy flag [globalSearch] is looked at only when no [searchMode] is
    configured: it then selects the global search when it is set and the
    strict quadrant search when it is not, and never the fallback; a
    configured [searchMode] decides alone. *)
Theorem construction_outcome {cv : Cv} (marker_ops : marker_options)
    (config : tuning_config) (marker_file : marker_source cv) :
  (forall code,
      __init__ marker_ops config marker_file = Raises (SystemExit code) <->
      marker_file = NoFile /\ code = 31) /\
  (__init__ marker_ops config marker_file = Raises ZeroDivisionError <->
   marker_file <> NoFile /\ opt_sheetToMarkerWidthRatio marker_ops = Some 0) /\
  (__init__ marker_ops config marker_file = Raises LibraryError <->
   opt_sheetToMarkerWidthRatio marker_ops <> Some 0 /\
   (marker_file = NotAnImage \/
    exists img ratio,
      marker_file = ImageFile img /\
      opt_sheetToMarkerWidthRatio marker_ops = Some ratio /\
      resize_util_refused img (processing_width config) ratio = true)) /\
  ((exists self, __init__ marker_ops config marker_file = Returns self) <->
   exists img,
     marker_file = ImageFile img /\
     match opt_sheetToMarkerWidthRatio marker_ops with
     | None => True
     | Some ratio =>
         ratio <> 0 /\ resize_util_refused img (processing_width config) ratio = false
     end) /\
  (forall self,
      __init__ marker_ops config marker_file = Returns self ->
      (opt_searchMode marker_ops = None ->
       in_global self = opt_globalSearch marker_ops /\ in_fallback self = false) /\
      (forall mode,
          opt_searchMode marker_ops = Some mode -> search_mode self = lower mode)).
Proof.
  split; [|split; [|split; [|split]]].
  - intro code. unfold __init__, load_marker.
    destruct marker_file as [| |img]; cbn [bind].
    + split; [intro H; now inversion H|]. intros [_ ->]. reflexivity.
    + destruct (opt_sheetToMarkerWidthRatio marker_ops) as [ratio|];
        [destruct (ratio =? 0)|]; cbn [bind];
        (split; [discriminate|intros [H _]; discriminate]).
    + destruct (opt_sheetToMarkerWidthRatio marker_ops) as [ratio|];
        [destruct (ratio =? 0); [|destruct (resize_util_refused _ _ _)]|]; cbn [bind];
        (split; [discriminate|intros [H _]; discriminate]).
  - unfold __init__, load_marker.
    destruct marker_file as [| |img]; cbn [bind].
    + split; [discriminate|]. intros [H _]. congruence.
    + destruct (opt_sheetToMarkerWidthRatio marker_ops) as [ratio|];
        [destruct (ratio =? 0) eqn:E|]; cbn [bind].
      * apply Z.eqb_eq in E. subst. split; [|reflexivity]. intros _. split; [discriminate|reflexivity].
      * apply Z.eqb_neq in E. split; [discriminate|]. intros [_ H]. congruence.
      * split; [discriminate|]. intros [_ H]. discriminate.
    + destruct (opt_sheetToMarkerWidthRatio marker_ops) as [ratio|];
        [destruct (ratio =? 0) eqn:E; [|destruct (resize_util_refused _ _ _)]|]; cbn [bind].
      * apply Z.eqb_eq in E. subst. split; [|reflexivity]. intros _. split; [discriminate|reflexivity].
      * apply Z.eqb_neq in E. split; [discriminate|]. intros [_ H]. congruence.
      * apply Z.eqb_neq in E. split; [discriminate|]. intros [_ H]. congruence.
      * split; [discriminate|]. intros [_ H]. discriminate.
  - unfold __init__, load_marker.
    destruct marker_file as [| |img]; cbn [bind].
    + split; [discriminate|].
      intros [_ [H|(img & ratio & H & _)]]; discriminate.
    + destruct (opt_sheetToMarkerWidthRatio marker_ops) as [ratio|];
        [destruct (ratio =? 0) eqn:E|]; cbn [bind].
      * apply Z.eqb_eq in E. subst. split; [discriminate|]. intros [H _]. congruence.
      * apply Z.eqb_neq in E. split; [|reflexivity]. intros _.
        split; [congruence|now left].
      * split; [|reflexivity]. intros _. split; [discriminate|now left].
    + destruct (opt_sheetToMarkerWidthRatio marker_ops) as [ratio|];
        [destruct (ratio =? 0) eqn:E;
         [|destruct (resize_util_refused img (processing_width config) ratio) eqn:Er]|];
        cbn [bind].
      * apply Z.eqb_eq in E. subst. split; [discriminate|]. intros [H _]. congruence.
      * apply Z.eqb_neq in E. split; [|reflexivity]. intros _.
        split; [congruence|]. right. exists img, ratio. now repeat split.
      * split; [discriminate|].
        intros [_ [H|(img' & ratio' & Hi & Hr & Href)]]; [discriminate|].
        inversion Hi; subst. inversion Hr; subst. congruence.
      * split; [discriminate|].
        intros [_ [H|(img' & ratio' & Hi & Hr & Href)]]; discriminate.
  - unfold __init__, load_marker.
    destruct marker_file as [| |img]; cbn [bind].
    + split; [intros [self H]; discriminate|intros [img [H _]]; discriminate].
    + destruct (opt_sheetToMarkerWidthRatio marker_ops) as [ratio|];
        [destruct (ratio =? 0)|]; cbn [bind];
        (split; [intros [self H]; discriminate|intros [img [H _]]; discriminate]).
    + destruct (opt_sheetToMarkerWidthRatio marker_ops) as [ratio|];
        [destruct (ratio =? 0) eqn:E;
         [|destruct (resize_util_refused img (processing_width config) ratio) eqn:Er]|];
        cbn [bind].
      * apply Z.eqb_eq in E. split; [intros [self H]; discriminate|].
        intros [img' [Hi [H _]]]. contradiction.
      * split; [intros [self H]; discriminate|].
        intros [img' [Hi [_ H]]]. inversion Hi; subst. congruence.
      * apply Z.eqb_neq in E. split; [|eauto]. intros _. exists img. now repeat split.
      * split; [|eauto]. intros _. exists img. now split.
  - intros self Hinit. unfold __init__ in Hinit.
    destruct (load_marker _ marker_ops config marker_file) as [m|e];
      cbn [bind] in Hinit; [|discriminate].
    inversion Hinit; subst; clear Hinit.
    split.
    + intro Hnone. unfold in_global, in_fallback, with_defaults. cbn [search_mode].
      rewrite Hnone. cbn [get]. now destruct (opt_globalSearch marker_ops).
    + intros mode Hmode. unfold with_defaults. cbn [search_mode]. now rewrite Hmode.
Qed.

Lemma construction_outcome_witness :
  in_global (processor corners_table no_options) = opt_globalSearch no_options /\
  in_fallback (processor corners_table no_options) = false.
Proof.
  destruct (@construction_outcome (symbolic corners_table) no_options quiet
              (marker_image corners_table)) as (_ & _ & _ & _ & Hself).
  destruct (Hself (processor corners_table no_options) eq_refl) as [Hlegacy _].
  apply Hlegacy. reflexivity.
Defined.

(** * The generated ID sheet *)

Lemma even_clamp (m : Z) :
  12 <= m ->
  12 <= Z.max 12 (if m mod 2 =? 1 then m - 1 else m) /\
  Z.max 12 (if m mod 2 =? 1 then m - 1 else m) mod 2 = 0.
Proof.
  intro Hm. pose proof (Z.mod_pos_bound m 2 ltac:(lia)) as Hb.
  pose proof (Z.div_mod m 2 ltac:(lia)) as Hdm.
  destruct (m mod 2 =? 1) eqn:E.
  - apply Z.eqb_eq in E.
    assert (H13 : 13 <= m) by lia.
    rewrite Z.max_r by lia. split; [lia|].
    rewrite Zminus_mod, E. reflexivity.
  - apply Z.eqb_neq in E. rewrite Z.max_r by lia. split; lia.
Qed.

(** X13. The marker of a generated sheet is at least 12 pixels wide and high,
    and both sizes are even, whatever the parameters, the default marker
    image and the roundings. *)
Theorem marker_size_even {fl : id_sheet_generator.PyFloat}
    (params : id_sheet_generator.IdSheetParams) (base : Z * Z) :
  12 <= fst (id_sheet_generator.marker_size params base) /\
  fst (id_sheet_generator.marker_size params base) mod 2 = 0 /\
  12 <= snd (id_sheet_generator.marker_size params base) /\
  snd (id_sheet_generator.marker_size params base) mod 2 = 0.
Proof.
  unfold id_sheet_generator.marker_size. destruct base as [base_w base_h].
  set (cw := Z.max 12 (Z.min _ _)).
  set (ch := if base_w =? 0 then cw else id_sheet_generator.round_scale cw base_h base_w).
  destruct ((_ <? ch) && _).
  - cbn [fst snd].
    split; [apply even_clamp; lia|]. split; [apply even_clamp; lia|].
    split; apply even_clamp; lia.
  - cbn [fst snd].
    split; [apply even_clamp; lia|]. split; [apply even_clamp; lia|].
    split; apply even_clamp; lia.
Qed.

Lemma marker_size_bounds {fl : id_sheet_generator.PyFloat}
    (params : id_sheet_generator.IdSheetParams) (base : Z * Z) :
  12 <= fst (id_sheet_generator.marker_size params base) /\
  12 <= snd (id_sheet_generator.marker_size params base).
Proof.
  unfold id_sheet_generator.marker_size. destruct base as [base_w base_h].
  destruct (if _ && _ then _ else _) as [cw ch]. cbn [fst snd]. lia.
Qed.

Section Sheet.
Context {fl : id_sheet_generator.PyFloat}.
Variable params : id_sheet_generator.IdSheetParams.
Variable base : Z * Z.

Lemma rendered_marker_size :
  (id_sheet_generator.marker_w (id_sheet_generator.render_sheet_image params base),
   id_sheet_generator.marker_h (id_sheet_generator.render_sheet_image params base))
  = id_sheet_generator.marker_size params base.
Proof.
  unfold id_sheet_generator.render_sheet_image.
  destruct (id_sheet_generator.marker_size params base) as [mw mh].
  now destruct (id_sheet_generator.region_origin params base).
Qed.

Lemma rendered_pasted :
  id_sheet_generator.pasted (id_sheet_generator.render_sheet_image params base)
  = if 0 <? id_sheet_generator.total_columns params then
      [(fst (id_sheet_generator.region_origin params base)
        - id_sheet_generator.gap params
        - fst (id_sheet_generator.marker_size params base),
        snd (id_sheet_generator.region_origin params base)
        - id_sheet_generator.gap params
        - snd (id_sheet_generator.marker_size params base));
       (fst (id_sheet_generator.region_origin params base)
        + id_sheet_generator.region_width params + id_sheet_generator.gap params,
        snd (id_sheet_generator.region_origin params base)
        - id_sheet_generator.gap params
        - snd (id_sheet_generator.marker_size params base));
       (fst (id_sheet_generator.region_origin params base)
        - id_sheet_generator.gap params
        - fst (id_sheet_generator.marker_size params base),
        snd (id_sheet_generator.region_origin params base)
        + id_sheet_generator.region_height params + id_sheet_generator.gap params);
       (fst (id_sheet_generator.region_origin params base)
        + id_sheet_generator.region_width params + id_sheet_generator.gap params,
        snd (id_sheet_generator.region_origin params base)
        + id_sheet_generator.region_height params + id_sheet_generator.gap params)]
    else [].
Proof.
  unfold id_sheet_generator.render_sheet_image.
  destruct (id_sheet_generator.marker_size params base) as [mw mh].
  now destruct (id_sheet_generator.region_origin params base).
Qed.

Lemma rendered_label_start :
  id_sheet_generator.label_start_x (id_sheet_generator.render_sheet_image params base)
  = fst (id_sheet_generator.region_origin params base)
    + id_sheet_generator.bubble_radius params /\
  id_sheet_generator.label_start_y (id_sheet_generator.render_sheet_image params base)
  = snd (id_sheet_generator.region_origin params base)
    + id_sheet_generator.bubble_radius params.
Proof.
  unfold id_sheet_generator.render_sheet_image.
  destruct (id_sheet_generator.marker_size params base) as [mw mh].
  now destruct (id_sheet_generator.region_origin params base).
Qed.

End Sheet.

(** X14. When the page has room for the markers on both sides of the bubble
    region, all four markers are pasted inside the page, at least one pixel
    away from its border. *)
Theorem markers_inside_page {fl : id_sheet_generator.PyFloat}
    (params : id_sheet_generator.IdSheetParams) (base : Z * Z) (mw mh : Z) :
  id_sheet_generator.marker_size params base = (mw, mh) ->
  0 < id_sheet_generator.total_columns params ->
  id_sheet_generator.gap params + mw + 1
  <= id_sheet_generator.page_width params - id_sheet_generator.region_width params
     - id_sheet_generator.gap params - mw - 1 ->
  id_sheet_generator.gap params + mh + 1
  <= id_sheet_generator.page_height params - id_sheet_generator.region_height params
     - id_sheet_generator.gap params - mh - 1 ->
  length (id_sheet_generator.pasted (id_sheet_generator.render_sheet_image params base))
  = 4%nat /\
  forall x y,
    In (x, y) (id_sheet_generator.pasted (id_sheet_generator.render_sheet_image params base)) ->
    1 <= x /\ x + mw <= id_sheet_generator.page_width params - 1 /\
    1 <= y /\ y + mh <= id_sheet_generator.page_height params - 1.
Proof.
  intros Hsize Hcols Hfitx Hfity.
  rewrite rendered_pasted.
  destruct (0 <? id_sheet_generator.total_columns params) eqn:E;
    [|apply Z.ltb_ge in E; lia].
  split; [reflexivity|].
  unfold id_sheet_generator.region_origin. rewrite Hsize. cbn [fst snd].
  destruct (id_sheet_generator.page_width params - _ - _ - mw - 1 <? _) eqn:Ex;
    [apply Z.ltb_lt in Ex; lia|].
  destruct (id_sheet_generator.page_height params - _ - _ - mh - 1 <? _) eqn:Ey;
    [apply Z.ltb_lt in Ey; lia|].
  clear E Ex Ey.
  pose proof (marker_size_bounds params base) as Hm. rewrite Hsize in Hm.
  cbn [fst snd] in Hm.
  assert (Hgap : 0 <= id_sheet_generator.gap params)
    by (unfold id_sheet_generator.gap; lia).
  assert (Hrw : 0 <= id_sheet_generator.region_width params)
    by (unfold id_sheet_generator.region_width; lia).
  assert (Hrh : 0 <= id_sheet_generator.region_height params)
    by (unfold id_sheet_generator.region_height; lia).
  intros x y [H|[H|[H|[H|[]]]]]; inversion H; subst; lia.
Qed.

Lemma markers_inside_page_witness :
  length (id_sheet_generator.pasted
            (@id_sheet_generator.render_sheet_image exact_rounding sample_params sample_base))
  = 4%nat /\
  forall x y,
    In (x, y) (id_sheet_generator.pasted
                 (@id_sheet_generator.render_sheet_image exact_rounding sample_params
                    sample_base)) ->
    1 <= x /\ x + 72 <= id_sheet_generator.page_width sample_params - 1 /\
    1 <= y /\ y + 72 <= id_sheet_generator.page_height sample_params - 1.
Proof.
  apply (@markers_inside_page exact_rounding sample_params sample_base 72 72).
  - vm_compute. reflexivity.
  - vm_compute. reflexivity.
  - vm_compute. discriminate.
  - vm_compute. discriminate.
Defined.

Lemma half_even (m : Z) : m mod 2 = 0 -> (inject_Z (m / 2) == inject_Z m / 2)%Q.
Proof.
  intro Hm. pose proof (Z.div_mod m 2 ltac:(lia)) as Hdm.
  assert (E : m = 2 * (m / 2)) by lia.
  rewrite E at 2. rewrite inject_Z_mult. field.
Qed.

(** Half the width and half the height of the marker are whole numbers of
    pixels. *)
Lemma marker_size_halves {fl : id_sheet_generator.PyFloat}
    (params : id_sheet_generator.IdSheetParams) (base : Z * Z) :
  (inject_Z (fst (id_sheet_generator.marker_size params base) / 2)
   == inject_Z (fst (id_sheet_generator.marker_size params base)) / 2)%Q /\
  (inject_Z (snd (id_sheet_generator.marker_size params base) / 2)
   == inject_Z (snd (id_sheet_generator.marker_size params base)) / 2)%Q.
Proof.
  unfold id_sheet_generator.marker_size. destruct base as [base_w base_h].
  destruct (if _ && _ then _ else _) as [cw ch]. cbn [fst snd].
  split; apply half_even; apply even_clamp; lia.
Qed.

Lemma generated_field_blocks {fl : id_sheet_generator.PyFloat}
    (params : id_sheet_generator.IdSheetParams) (base : Z * Z) :
  exists student rest,
    template_model.field_blocks (id_sheet_generator.generated_template params base)
    = student :: rest /\
    template_model.id student = "StudentID" /\
    template_model.origin_x student
    = inject_Z (fst (id_sheet_generator.marker_size params base) / 2
                + id_sheet_generator.gap params
                + id_sheet_generator.bubble_radius params) /\
    template_model.origin_y student
    = inject_Z (snd (id_sheet_generator.marker_size params base) / 2
                + id_sheet_generator.gap params
                + id_sheet_generator.bubble_radius params).
Proof.
  unfold id_sheet_generator.generated_template.
  cbn [template_model.field_blocks].
  eexists. eexists. split; [reflexivity|].
  cbn [template_model.id template_model.origin_x template_model.origin_y].
  rewrite <- rendered_marker_size. cbn [fst snd]. now split.
Qed.

Lemma generated_page {fl : id_sheet_generator.PyFloat}
    (params : id_sheet_generator.IdSheetParams) (base : Z * Z) :
  template_model.width
    (template_model.page (id_sheet_generator.generated_template params base))
  = id_sheet_generator.region_width params + 2 * id_sheet_generator.gap params
    + fst (id_sheet_generator.marker_size params base) /\
  template_model.height
    (template_model.page (id_sheet_generator.generated_template params base))
  = id_sheet_generator.region_height params + 2 * id_sheet_generator.gap params
    + snd (id_sheet_generator.marker_size params base).
Proof.
  unfold id_sheet_generator.generated_template.
  cbn [template_model.page template_model.width template_model.height].
  rewrite <- rendered_marker_size. cbn [fst snd]. now split.
Qed.

(** X15. The template that is saved with a sheet describes the sheet as it looks
    once it is cropped at the marker centres: with the centre of a marker
    taken as the processor takes it, the centres of the four pasted markers
    are the corners of a rectangle of exactly the template's page size, and
    the centre of the first bubble lies at the origin of the StudentID block
    measured from the top-left centre. *)
Theorem template_measured_from_marker_centres {fl : id_sheet_generator.PyFloat}
    (params : id_sheet_generator.IdSheetParams) (base : Z * Z) :
  0 < id_sheet_generator.total_columns params ->
  exists tl tr bl br student rest,
    let r := id_sheet_generator.render_sheet_image params base in
    let t := id_sheet_generator.generated_template params base in
    let centre p :=
      centre_of (id_sheet_generator.marker_w r) (id_sheet_generator.marker_h r)
                (0%Q, fst p, snd p) in
    id_sheet_generator.pasted r = [tl; tr; bl; br] /\
    template_model.field_blocks t = student :: rest /\
    (fst (centre tr) - fst (centre tl)
     == inject_Z (template_model.width (template_model.page t)))%Q /\
    (snd (centre bl) - snd (centre tl)
     == inject_Z (template_model.height (template_model.page t)))%Q /\
    (fst (centre bl) == fst (centre tl))%Q /\
    (snd (centre tr) == snd (centre tl))%Q /\
    (fst (centre br) == fst (centre tr))%Q /\
    (snd (centre br) == snd (centre bl))%Q /\
    (inject_Z (id_sheet_generator.label_start_x r) - fst (centre tl)
     == template_model.origin_x student)%Q /\
    (inject_Z (id_sheet_generator.label_start_y r) - snd (centre tl)
     == template_model.origin_y student)%Q.
Proof.
  intro Hcols.
  destruct (generated_field_blocks params base)
    as [student [rest [Hblocks [_ [Hox Hoy]]]]].
  destruct (generated_page params base) as [Hw Hh].
  destruct (rendered_label_start params base) as [Hlx Hly].
  pose proof (rendered_marker_size params base) as Hsize.
  pose proof (rendered_pasted params base) as Hpasted.
  apply Z.ltb_lt in Hcols. rewrite Hcols in Hpasted.
  destruct (marker_size_halves params base) as [Hew Heh].
  destruct (id_sheet_generator.marker_size params base) as [mw mh].
  inversion Hsize as [[Hmw Hmh]]. cbn [fst snd] in *.
  do 4 eexists. exists student, rest. cbv zeta.
  split; [exact Hpasted|]. split; [exact Hblocks|].
  rewrite Hw, Hh, Hlx, Hly, Hox, Hoy, Hmw, Hmh.
  unfold centre_of. cbn [fst snd].
  unfold Z.sub.
  repeat rewrite ?inject_Z_plus, ?inject_Z_opp, ?inject_Z_mult.
  rewrite Hew, Heh.
  repeat split; field.
Qed.

Lemma template_measured_from_marker_centres_witness :
  exists tl tr bl br student rest,
    let r := @id_sheet_generator.render_sheet_image exact_rounding sample_params
               sample_base in
    let t := @id_sheet_generator.generated_template exact_rounding sample_params
               sample_base in
    let centre p :=
      centre_of (id_sheet_generator.marker_w r) (id_sheet_generator.marker_h r)
                (0%Q, fst p, snd p) in
    id_sheet_generator.pasted r = [tl; tr; bl; br] /\
    template_model.field_blocks t = student :: rest /\
    (fst (centre tr) - fst (centre tl)
     == inject_Z (template_model.width (template_model.page t)))%Q /\
    (snd (centre bl) - snd (centre tl)
     == inject_Z (template_model.height (template_model.page t)))%Q /\
    (fst (centre bl) == fst (centre tl))%Q /\
    (snd (centre tr) == snd (centre tl))%Q /\
    (fst (centre br) == fst (centre tr))%Q /\
    (snd (centre br) == snd (centre bl))%Q /\
    (inject_Z (id_sheet_generator.label_start_x r) - fst (centre tl)
     == template_model.origin_x student)%Q /\
    (inject_Z (id_sheet_generator.label_start_y r) - snd (centre tl)
     == template_model.origin_y student)%Q.
Proof.
  apply (@template_measured_from_marker_centres exact_rounding sample_params sample_base).
  vm_compute. reflexivity.
Defined.

Section Bubbles.
Context {fl : id_sheet_generator.PyFloat}.
Variable params : id_sheet_generator.IdSheetParams.
Variable base : Z * Z.
Hypothesis labels_gap_nonneg : 0 <= id_sheet_generator.labels_gap params.
Hypothesis bubbles_gap_nonneg : 0 <= id_sheet_generator.bubbles_gap params.
Hypothesis bubble_radius_nonneg : 0 <= id_sheet_generator.bubble_radius params.
Hypothesis num_digits_nonneg : 0 <= id_sheet_generator.num_digits params.
Hypothesis class_digits_nonneg : 0 <= id_sheet_generator.class_digits params.



End Bubbles.



(** * Templates written and read back *)


(** ** Dicts *)

Lemma dict_set_fresh {A : Type} (key : string) (v : A) (d : list (string * A)) :
  ~ In key (map fst d) -> template_io.dict_set key v d = d ++ [(key, v)].
Proof.
  induction d as [|[k v'] d IH]; intro Hfresh; [reflexivity|].
  cbn [template_io.dict_set]. cbn [map fst In] in Hfresh.
  destruct (String.eqb_spec k key) as [->|Hne]; [tauto|].
  rewrite IH by tauto. reflexivity.
Qed.

Lemma dict_set_keys {A : Type} (key : string) (v : A) (d : list (string * A)) :
  map fst (template_io.dict_set key v d)
  = if in_set key (map fst d) then map fst d else map fst d ++ [key].
Proof.
  induction d as [|[k v'] d IH]; [reflexivity|].
  cbn [template_io.dict_set map fst]. unfold in_set in *. cbn [existsb].
  rewrite (String.eqb_sym key k).
  destruct (String.eqb_spec k key) as [->|Hne]; [reflexivity|].
  cbn [map fst orb]. rewrite IH. now destruct (existsb (String.eqb key) (map fst d)).
Qed.

(** A dict filled from a list of records, one key and one value for each:
    the entries are those of records of the list, under keys that differ. *)
Lemma fold_dict_set {A B : Type} (key : B -> string) (val : B -> A) (l done : list B) :
  NoDup (map key done) ->
  exists kept,
    fold_left (fun d b => template_io.dict_set (key b) (val b) d) l
              (map (fun b => (key b, val b)) done)
    = map (fun b => (key b, val b)) kept /\
    NoDup (map key kept) /\
    (forall b, In b kept -> In b done \/ In b l) /\
    (NoDup (map key (done ++ l)) -> kept = done ++ l).
Proof.
  revert done. induction l as [|b l IH]; intros done Hnd.
  - exists done. cbn [fold_left]. rewrite app_nil_r. repeat split; auto.
  - cbn [fold_left].
    assert (Hset : exists done',
               template_io.dict_set (key b) (val b) (map (fun b => (key b, val b)) done)
               = map (fun b => (key b, val b)) done' /\
               NoDup (map key done') /\
               (forall x, In x done' -> In x done \/ x = b) /\
               (~ In (key b) (map key done) -> done' = done ++ [b])).
    { clear IH. induction done as [|c done IHd].
      - exists [b]. cbn. repeat split; auto.
        + constructor; [intros []|constructor].
        + intros x [<-|[]]. now right.
      - cbn [map template_io.dict_set].
        destruct (String.eqb_spec (key c) (key b)) as [Heq|Hne].
        + exists (b :: done). cbn [map]. rewrite Heq. repeat split.
          * cbn [map] in Hnd. rewrite Heq in Hnd. exact Hnd.
          * intros x [<-|Hx]; [now right|left; now right].
          * intro Hfresh. exfalso. apply Hfresh. left. reflexivity.
        + cbn [map] in Hnd. inversion Hnd as [|? ? Hc Hnd']; subst.
          destruct (IHd Hnd') as [done' [Hd [Hnd'' [Hin Hfr]]]].
          exists (c :: done'). cbn [map]. rewrite Hd. repeat split.
          * constructor; [|exact Hnd''].
            intro Hc'. apply in_map_iff in Hc'. destruct Hc' as [x [Hx Hxin]].
            destruct (Hin x Hxin) as [Hxd| ->]; [|congruence].
            apply Hc. rewrite <- Hx. now apply in_map.
          * intros x [<-|Hx]; [left; now left|].
            destruct (Hin x Hx) as [Hxd|Hxb]; [left; now right|now right].
          * intro Hfresh. cbn [map In] in Hfresh. rewrite Hfr by tauto. reflexivity. }
    destruct Hset as [done' [Hd [Hnd' [Hin Hfr]]]]. rewrite Hd.
    destruct (IH done' Hnd') as [kept [Hk [Hndk [Hink Hall]]]].
    exists kept. repeat split; auto.
    + intros x Hx. destruct (Hink x Hx) as [Hxd|Hxl]; [|right; now right].
      destruct (Hin x Hxd) as [Hxd'| ->]; [now left|right; now left].
    + intro Hndall. rewrite map_app in Hndall. cbn [map] in Hndall.
      assert (Hfresh : ~ In (key b) (map key done)).
      { intro Hb. apply NoDup_remove_2 in Hndall. apply Hndall.
        apply in_or_app. now left. }
      rewrite (Hfr Hfresh) in *. rewrite Hall.
      * now rewrite <- app_assoc.
      * rewrite <- app_assoc. cbn [app]. now rewrite map_app.
Qed.

(** ** Labels *)

Lemma span_app (p : ascii -> bool) (s a b : string) :
  template_io.span p s = (a, b) -> s = (a ++ b)%string.
Proof.
  revert a b. induction s as [|c s IH]; intros a b H; cbn [template_io.span] in H.
  - now inversion H.
  - destruct (p c).
    + destruct (template_io.span p s) as [a' b']. inversion H; subst.
      cbn [String.append]. f_equal. now apply IH.
    + now inversion H.
Qed.

Lemma span_all (p : ascii -> bool) (s a b : string) (c : ascii) :
  template_io.span p s = (a, b) -> In c (list_ascii_of_string a) -> p c = true.
Proof.
  revert a b. induction s as [|c' s IH]; intros a b H Hin; cbn [template_io.span] in H.
  - inversion H; subst. destruct Hin.
  - destruct (p c') eqn:Hp.
    + destruct (template_io.span p s) as [a' b']. inversion H; subst.
      cbn [list_ascii_of_string In] in Hin. destruct Hin as [<-|Hin]; [exact Hp|].
      now apply (IH _ _ eq_refl).
    + inversion H; subst. destruct Hin.
Qed.

Lemma span_spec (p : ascii -> bool) (a b : string) :
  (forall c, In c (list_ascii_of_string a) -> p c = true) ->
  match b with String c _ => p c = false | EmptyString => True end ->
  template_io.span p (a ++ b) = (a, b).
Proof.
  intros Ha Hb. induction a as [|c a IH]; cbn [String.append].
  - destruct b as [|c b]; [reflexivity|]. cbn [template_io.span]. now rewrite Hb.
  - cbn [template_io.span]. rewrite (Ha c) by now left.
    rewrite IH; [reflexivity|]. intros c' Hc'. apply Ha. now right.
Qed.

Lemma list_ascii_app (a b : string) :
  list_ascii_of_string (a ++ b) = list_ascii_of_string a ++ list_ascii_of_string b.
Proof.
  induction a as [|c a IH]; [reflexivity|]. cbn. now rewrite IH.
Qed.

Lemma take_skip (n : nat) (s : string) :
  s = (template_io.take n s ++ template_io.skip n s)%string.
Proof.
  revert s. induction n as [|n IH]; intro s; [now destruct s|].
  destruct s as [|c s]; [reflexivity|].
  cbn [template_io.take template_io.skip String.append]. f_equal. apply IH.
Qed.

Lemma digits_app {conv : template_io.PyStr} (s a b : string) :
  template_io.digits s = (a, b) -> s = (a ++ b)%string.
Proof. unfold template_io.digits. intro H. inversion H. apply take_skip. Qed.

Lemma match_range_some {conv : template_io.PyStr} (label prefix start end_ : string) :
  template_io.match_range label = Some (prefix, start, end_) ->
  In "."%char (list_ascii_of_string label) /\
  (forall c, In c (list_ascii_of_string prefix) -> template_io.is_letter c = true).
Proof.
  unfold template_io.match_range.
  destruct (template_io.span template_io.is_letter label) as [p rest] eqn:Hp.
  destruct (template_io.digits rest) as [s rest'] eqn:Hs.
  intro H.
  destruct rest' as [|c1 rest']; [discriminate|].
  destruct (Ascii.eqb_spec c1 ".") as [->|Hne].
  2:{ destruct c1 as [[] [] [] [] [] [] [] []]; try discriminate. now elim Hne. }
  destruct rest' as [|c2 rest']; [discriminate|].
  destruct (Ascii.eqb_spec c2 ".") as [->|Hne].
  2:{ destruct c2 as [[] [] [] [] [] [] [] []]; try discriminate. now elim Hne. }
  destruct (template_io.digits rest') as [e tail].
  destruct (_ || _); [discriminate|]. inversion H; subst.
  split.
  - apply span_app in Hp. apply digits_app in Hs. subst label rest.
    rewrite !list_ascii_app. apply in_or_app. right. apply in_or_app. right. now left.
  - intros c Hc. exact (span_all _ _ _ _ _ Hp Hc).
Qed.

Lemma match_range_dotless {conv : template_io.PyStr} (label : string) :
  ~ In "."%char (list_ascii_of_string label) -> template_io.match_range label = None.
Proof.
  intro Hdot. destruct (template_io.match_range label) as [[[p s] e]|] eqn:H; [|reflexivity].
  apply match_range_some in H. tauto.
Qed.

Lemma string_of_uint_digits (d : Decimal.uint) (c : ascii) :
  In c (list_ascii_of_string (NilEmpty.string_of_uint d)) -> template_io.is_digit c = true.
Proof.
  induction d; cbn [NilEmpty.string_of_uint list_ascii_of_string In];
    try (intros [<-|H]; [reflexivity|auto]).
  intros [].
Qed.

Lemma str_int_chars (z : Z) (c : ascii) :
  In c (list_ascii_of_string (str_int z)) -> template_io.is_digit c = true \/ c = "-"%char.
Proof.
  unfold str_int, NilZero.string_of_int.
  destruct (Z.to_int z) as [d|d].
  - unfold NilZero.string_of_uint. destruct d; intro H;
      try (left; now apply (string_of_uint_digits _ _ H)).
    cbn in H. destruct H as [<-|[]]. now left.
  - cbn [list_ascii_of_string In]. intros [<-|H]; [now right|].
    unfold NilZero.string_of_uint in H. destruct d;
      try (left; now apply (string_of_uint_digits _ _ H)).
    cbn in H. destruct H as [<-|[]]. now left.
Qed.

Lemma numbered_label_dotless {conv : template_io.PyStr} (prefix : string) (z : Z) :
  (forall c, In c (list_ascii_of_string prefix) -> template_io.is_letter c = true) ->
  template_io.match_range (prefix ++ str_int z) = None.
Proof.
  intro Hp. apply match_range_dotless. rewrite list_ascii_app. intro H.
  apply in_app_or in H. destruct H as [H|H].
  - apply Hp in H. discriminate.
  - apply str_int_chars in H. destruct H; discriminate.
Qed.

Section Saved.
Context {conv : template_io.PyStr}.

Lemma expand_all_plain (ls : list string) :
  (forall l, In l ls -> template_io.match_range l = None) ->
  template_io.expand_all (map JStr ls) = Some ls.
Proof.
  induction ls as [|l ls IH]; intro H; [reflexivity|].
  cbn [map template_io.expand_all]. unfold template_io.expand_label.
  rewrite (H l) by now left. cbn [template_io.and_then].
  rewrite IH by (intros l' Hl'; apply H; now right). reflexivity.
Qed.

Lemma expand_label_out (label : string) (out : list string) :
  template_io.expand_label label = Some out ->
  forall l, In l out -> template_io.match_range l = None.
Proof.
  unfold template_io.expand_label.
  destruct (template_io.match_range label) as [[[prefix start] end_]|] eqn:Hm.
  - destruct (template_io.int_of_str start) as [a|]; [|discriminate].
    destruct (template_io.int_of_str end_) as [b|]; [|discriminate].
    cbn [template_io.and_then]. intro H. inversion H; subst. intros l Hl.
    apply in_map_iff in Hl. destruct Hl as [idx [<- _]].
    apply numbered_label_dotless. now apply (match_range_some _ _ _ _ Hm).
  - intro H. inversion H; subst. intros l [<-|[]]. exact Hm.
Qed.

Lemma expand_all_out (ls : list string) (out : list string) :
  template_io.expand_all (map JStr ls) = Some out ->
  forall l, In l out -> template_io.match_range l = None.
Proof.
  revert out. induction ls as [|l0 ls IH]; intros out H.
  - inversion H; subst. intros l [].
  - cbn [map template_io.expand_all] in H.
    destruct (template_io.expand_label l0) as [here|] eqn:Hh; [|discriminate].
    cbn [template_io.and_then] in H.
    destruct (template_io.expand_all (map JStr ls)) as [more|]; [|discriminate].
    cbn [template_io.and_then] in H. inversion H; subst.
    intros l Hl. apply in_app_or in Hl. destruct Hl as [Hl|Hl].
    + exact (expand_label_out _ _ Hh l Hl).
    + exact (IH more eq_refl l Hl).
Qed.

End Saved.

Lemma Qfloor_inject (z : Z) : Qfloor (inject_Z z) = z.
Proof. unfold Qfloor, inject_Z. apply Z.div_1_r. Qed.

Lemma round_half_even_int (z : Z) : round_half_even (inject_Z z) = z.
Proof.
  unfold round_half_even. rewrite Qfloor_inject.
  assert (H : Qlt_bool (inject_Z z - inject_Z z) (1 # 2) = true).
  { apply Qlt_bool_iff. setoid_replace (inject_Z z - inject_Z z)%Q with 0%Q by ring.
    reflexivity. }
  now rewrite H.
Qed.

Lemma field_type_saved (t : string) :
  template_io._map_field_type_from_omr (JStr (template_io._map_field_type_to_omr t))
  = Some (if in_set t ["INT"; "MCQ4"; "MCQ5"; "BOOLEAN"] then t else "INT").
Proof.
  unfold template_io._map_field_type_to_omr, template_io.FIELD_TYPE_TO_OMR, in_set.
  cbn [template_io.dict_get existsb].
  rewrite !(String.eqb_sym t).
  destruct (String.eqb_spec "INT" t) as [<-|_]; [reflexivity|].
  destruct (String.eqb_spec "MCQ4" t) as [<-|_]; [reflexivity|].
  destruct (String.eqb_spec "MCQ5" t) as [<-|_]; [reflexivity|].
  destruct (String.eqb_spec "BOOLEAN" t) as [<-|_]; reflexivity.
Qed.

Section Reloaded.
Context {conv : template_io.PyStr}.

Lemma load_saved_block (block_id : string) (b : template_model.FieldBlock) :
  template_io.load_block block_id (template_io.saved_block b)
  = template_io.and_then (template_io.expand_all (map JStr (template_model.labels b)))
      (fun labels =>
         Some {| template_model.id := block_id;
                 template_model.field_type :=
                   if in_set (template_model.field_type b) ["INT"; "MCQ4"; "MCQ5"; "BOOLEAN"]
                   then template_model.field_type b else "INT";
                 template_model.labels := labels;
                 template_model.origin_x :=
                   inject_Z (round_half_even (template_model.origin_x b));
                 template_model.origin_y :=
                   inject_Z (round_half_even (template_model.origin_y b));
                 template_model.labels_gap := template_model.labels_gap b;
                 template_model.bubbles_gap := template_model.bubbles_gap b |}).
Proof.
  unfold template_io.load_block, template_io.saved_block.
  cbn [template_io.get template_io.dict_get String.eqb Ascii.eqb Bool.eqb
       template_io.and_then].
  unfold template_io._expand_labels. cbn [template_io.elements template_io.and_then].
  destruct (template_io.expand_all (map JStr (template_model.labels b))) as [labels|];
    [|reflexivity].
  cbn [template_io.and_then]. rewrite field_type_saved. reflexivity.
Qed.

End Reloaded.

Lemma elements_or_else (l : list json) :
  template_io.elements (template_io.or_else (JList l) (JList [])) = Some l.
Proof. now destruct l. Qed.

Lemma items_or_else (d : list (string * json)) :
  template_io.items (template_io.or_else (JObj d) (JObj [])) = Some d.
Proof. now destruct d. Qed.

Section RoundTrip.
Context {conv : template_io.PyStr}.

(** What [load_template] makes of the document that [save_template] writes:
    the page, the bubble size, the pre-processors and the output columns
    come back as they are; the blocks and the groups are read from their
    dicts. *)
Lemma load_save (m : template_model.TemplateModel) :
  template_io.load_template (template_io.save_template m)
  = template_io.and_then
      (template_io.load_blocks
         (fold_left (fun blocks block =>
                       template_io.dict_set (template_model.id block)
                                            (template_io.saved_block block) blocks)
                    (template_model.field_blocks m) []))
      (fun field_blocks =>
         template_io.and_then
           (template_io.load_groups
              (fold_left (fun groups group =>
                            template_io.dict_set (template_model.name group)
                              (JList (map JStr (template_model.component_labels group)))
                              groups)
                         (template_model.custom_labels m) []))
           (fun custom_labels =>
              Some {| template_model.page := template_model.page m;
                      template_model.bubble_dimensions := template_model.bubble_dimensions m;
                      template_model.pre_processors := template_model.pre_processors m;
                      template_model.field_blocks := field_blocks;
                      template_model.custom_labels := custom_labels;
                      template_model.output_columns := template_model.output_columns m |})).
Proof.
  destruct m as [[w h] bd pre blocks groups columns].
  unfold template_io.load_template, template_io.save_template.
  cbn [template_model.page template_model.width template_model.height
       template_model.bubble_dimensions template_model.pre_processors
       template_model.field_blocks template_model.custom_labels
       template_model.output_columns].
  destruct bd as [[a b]|]; destruct groups as [|g groups];
    destruct columns as [|c columns];
    cbn -[template_io.load_blocks template_io.load_groups fold_left template_io.or_else];
    rewrite elements_or_else;
    cbn -[template_io.load_blocks template_io.load_groups fold_left template_io.or_else];
    (destruct (template_io.load_blocks _) as [fb|]; [|reflexivity]);
    cbn -[template_io.load_groups fold_left template_io.or_else];
    rewrite ?items_or_else;
    cbn -[template_io.load_groups fold_left];
    try reflexivity;
    (destruct (template_io.load_groups _) as [cl|]; reflexivity).
Qed.

End RoundTrip.

Section Kept.
Context {conv : template_io.PyStr}.

Lemma in_set_In (s : string) (l : list string) : in_set s l = true <-> In s l.
Proof.
  unfold in_set. rewrite existsb_exists. split.
  - intros [x [Hx Heq]]. apply String.eqb_eq in Heq. now subst.
  - intro H. exists s. split; [exact H|apply String.eqb_refl].
Qed.

Lemma field_type_kept (t : string) :
  In (if in_set t ["INT"; "MCQ4"; "MCQ5"; "BOOLEAN"] then t else "INT")
     ["INT"; "MCQ4"; "MCQ5"; "BOOLEAN"].
Proof.
  destruct (in_set t _) eqn:E; [exact (proj1 (in_set_In _ _) E)|now left].
Qed.

Lemma load_blocks_saved (bs fb : list template_model.FieldBlock) :
  template_io.load_blocks
    (map (fun b => (template_model.id b, template_io.saved_block b)) bs) = Some fb ->
  Forall2 (fun b b' => template_model.id b' = template_model.id b /\
                       (kept_block b' /\ reloaded b b')) bs fb.
Proof.
  revert fb. induction bs as [|b bs IH]; intros fb H.
  - inversion H. constructor.
  - cbn [map template_io.load_blocks] in H. rewrite load_saved_block in H.
    destruct (template_io.expand_all (map JStr (template_model.labels b)))
      as [labels|] eqn:Hl; [|discriminate].
    cbn [template_io.and_then] in H.
    destruct (template_io.load_blocks _) as [more|]; [|discriminate].
    cbn [template_io.and_then] in H. injection H as <-. constructor; [|now apply IH].
    split; [reflexivity|]. split; [|now repeat split]. unfold kept_block.
    cbn [template_model.field_type template_model.labels template_model.origin_x
         template_model.origin_y].
    split; [|split; [|split]].
    + apply field_type_kept.
    + exact (expand_all_out _ _ Hl).
    + unfold whole. now rewrite round_half_even_int.
    + unfold whole. now rewrite round_half_even_int.
Qed.

Lemma load_blocks_kept (bs : list template_model.FieldBlock) :
  Forall kept_block bs ->
  template_io.load_blocks
    (map (fun b => (template_model.id b, template_io.saved_block b)) bs) = Some bs.
Proof.
  induction 1 as [|b bs [Ht [Hl [Hx Hy]]] _ IH]; [reflexivity|].
  cbn [map template_io.load_blocks]. rewrite load_saved_block, IH.
  rewrite (expand_all_plain _ Hl). cbn [template_io.and_then].
  apply in_set_In in Ht. rewrite Ht. unfold whole in Hx, Hy. rewrite <- Hx, <- Hy.
  now destruct b.
Qed.

Lemma load_groups_saved (gs cl : list template_model.CustomLabelGroup) :
  template_io.load_groups
    (map (fun g => (template_model.name g,
                    JList (map JStr (template_model.component_labels g)))) gs)
  = Some cl ->
  Forall2 (fun g g' => template_model.name g' = template_model.name g /\
                       plain_labels (template_model.component_labels g')) gs cl.
Proof.
  revert cl. induction gs as [|g gs IH]; intros cl H.
  - inversion H. constructor.
  - cbn [map template_io.load_groups] in H. unfold template_io._expand_labels in H.
    cbn [template_io.elements template_io.and_then] in H.
    destruct (template_io.expand_all _) as [labels|] eqn:Hl; [|discriminate].
    cbn [template_io.and_then] in H.
    destruct (template_io.load_groups _) as [more|]; [|discriminate].
    cbn [template_io.and_then] in H. inversion H; subst. constructor; [|now apply IH].
    split; [reflexivity|]. exact (expand_all_out _ _ Hl).
Qed.

Lemma load_groups_kept (gs : list template_model.CustomLabelGroup) :
  Forall (fun g => plain_labels (template_model.component_labels g)) gs ->
  template_io.load_groups
    (map (fun g => (template_model.name g,
                    JList (map JStr (template_model.component_labels g)))) gs)
  = Some gs.
Proof.
  induction 1 as [|g gs Hl _ IH]; [reflexivity|].
  cbn [map template_io.load_groups]. unfold template_io._expand_labels.
  cbn [template_io.elements template_io.and_then].
  rewrite (expand_all_plain _ Hl), IH. cbn [template_io.and_then]. now destruct g.
Qed.

Lemma Forall2_keys {A B : Type} (P : A -> B -> Prop)
    (f : A -> string) (g : B -> string) (l : list A) (l' : list B) :
  Forall2 (fun a b => g b = f a /\ P a b) l l' ->
  map g l' = map f l /\ (forall b, In b l' -> exists a, In a l /\ P a b).
Proof.
  induction 1 as [|a b l l' [Hk Hp] _ [IHk IHp]]; [split; [reflexivity|intros b []]|].
  cbn [map]. rewrite Hk, IHk. split; [reflexivity|].
  intros b' [<-|Hb'].
  - exists a. split; [now left|exact Hp].
  - destruct (IHp b' Hb') as [a' [Ha' Hp']]. exists a'. split; [now right|exact Hp'].
Qed.

Lemma saved_dict {A : Type} (key : A -> string) (val : A -> json) (l : list A) :
  exists kept,
    fold_left (fun d a => template_io.dict_set (key a) (val a) d) l []
    = map (fun a => (key a, val a)) kept /\
    NoDup (map key kept) /\
    incl kept l /\
    (NoDup (map key l) -> kept = l).
Proof.
  destruct (fold_dict_set key val l [] (NoDup_nil _)) as [kept [Hk [Hnd [Hin Hall]]]].
  exists kept. repeat split; auto.
  intros a Ha. now destruct (Hin a Ha) as [[]|H].
Qed.

Lemma load_save_kept (m m' : template_model.TemplateModel) :
  template_io.load_template (template_io.save_template m) = Some m' ->
  kept_template m' /\
  template_model.page m' = template_model.page m /\
  template_model.bubble_dimensions m' = template_model.bubble_dimensions m /\
  template_model.pre_processors m' = template_model.pre_processors m /\
  template_model.output_columns m' = template_model.output_columns m /\
  (forall b', In b' (template_model.field_blocks m') ->
              exists b, In b (template_model.field_blocks m) /\ reloaded b b').
Proof.
  rewrite load_save.
  destruct (saved_dict template_model.id template_io.saved_block
              (template_model.field_blocks m)) as [bs [-> [Hbs [Hincl _]]]].
  destruct (saved_dict template_model.name
              (fun g => JList (map JStr (template_model.component_labels g)))
              (template_model.custom_labels m)) as [gs [-> [Hgs _]]].
  destruct (template_io.load_blocks _) as [fb|] eqn:Hfb; [|discriminate].
  cbn [template_io.and_then].
  destruct (template_io.load_groups _) as [cl|] eqn:Hcl; [|discriminate].
  cbn [template_io.and_then]. intro H. inversion H; subst m'. clear H.
  cbn [template_model.page template_model.bubble_dimensions template_model.pre_processors
       template_model.output_columns template_model.field_blocks].
  apply load_blocks_saved, Forall2_keys in Hfb. destruct Hfb as [Hkeys Hkept].
  apply load_groups_saved, Forall2_keys in Hcl. destruct Hcl as [Hnames Hplain].
  split; [|repeat split].
  - unfold kept_template.
    cbn [template_model.field_blocks template_model.custom_labels].
    rewrite Hkeys, Hnames. repeat split; auto.
    + apply Forall_forall. intros b' Hb'. now destruct (Hkept b' Hb') as [b [_ [Hk _]]].
    + apply Forall_forall. intros g' Hg'. now destruct (Hplain g' Hg') as [g [_ Hp]].
  - intros b' Hb'. destruct (Hkept b' Hb') as [b [Hb [_ Hr]]].
    exists b. split; [now apply Hincl|exact Hr].
Qed.

Lemma kept_load_save (m : template_model.TemplateModel) :
  kept_template m ->
  template_io.load_template (template_io.save_template m) = Some m.
Proof.
  intros [Hids [Hblocks [Hnames Hgroups]]]. rewrite load_save.
  destruct (saved_dict template_model.id template_io.saved_block
              (template_model.field_blocks m)) as [bs [-> [_ [_ Hbs]]]].
  destruct (saved_dict template_model.name
              (fun g => JList (map JStr (template_model.component_labels g)))
              (template_model.custom_labels m)) as [gs [-> [_ [_ Hgs]]]].
  rewrite (Hbs Hids), (Hgs Hnames).
  rewrite (load_blocks_kept _ Hblocks), (load_groups_kept _ Hgroups).
  cbn [template_io.and_then]. now destruct m.
Qed.

End Kept.


(** X17. A template comes back from its file as it was written exactly when its
    blocks, and its groups, have names that differ, its field types are
    among INT, MCQ4, MCQ5 and BOOLEAN, none of its labels begins in the form
    of a range (letters or underscores, decimal digits of any script, two
    dots, decimal digits), and its origins are whole numbers. *)
Theorem template_round_trip {conv : template_io.PyStr} (m : template_model.TemplateModel) :
  template_io.load_template (template_io.save_template m) = Some m <-> kept_template m.
Proof.
  split.
  - intro H. exact (proj1 (load_save_kept m m H)).
  - apply kept_load_save.
Qed.

(** X18. Writing a template and reading it back normalises it: what is read
    comes back unchanged from a second round, keeps the page, the bubble
    size, the pre-processors and the output columns, and each of its blocks
    is a block of the template written, with the same name and gaps, its
    origin rounded, its labels expanded, and its field type replaced by INT
    where it was none of the four. *)
Theorem save_load_normalises {conv : template_io.PyStr}
    (m m' : template_model.TemplateModel) :
  template_io.load_template (template_io.save_template m) = Some m' ->
  template_io.load_template (template_io.save_template m') = Some m' /\
  kept_template m' /\
  template_model.page m' = template_model.page m /\
  template_model.bubble_dimensions m' = template_model.bubble_dimensions m /\
  template_model.pre_processors m' = template_model.pre_processors m /\
  template_model.output_columns m' = template_model.output_columns m /\
  (forall b', In b' (template_model.field_blocks m') ->
              exists b, In b (template_model.field_blocks m) /\ reloaded b b').
Proof.
  intro H. destruct (load_save_kept m m' H) as [Hkept Hrest].
  split; [now apply kept_load_save|]. split; [exact Hkept|exact Hrest].
Qed.

Lemma save_load_normalises_witness :
  @template_io.load_template plain_numerals (template_io.save_template tidied_template)
  = Some tidied_template /\
  @kept_template plain_numerals tidied_template /\
  template_model.page tidied_template = template_model.page untidy_template /\
  template_model.bubble_dimensions tidied_template
  = template_model.bubble_dimensions untidy_template /\
  template_model.pre_processors tidied_template
  = template_model.pre_processors untidy_template /\
  template_model.output_columns tidied_template
  = template_model.output_columns untidy_template /\
  (forall b', In b' (template_model.field_blocks tidied_template) ->
              exists b, In b (template_model.field_blocks untidy_template) /\
                        @reloaded plain_numerals b b').
Proof.
  apply (@save_load_normalises plain_numerals untidy_template tidied_template).
  vm_compute. reflexivity.
Defined.

(** ** The template of a generated sheet *)

Lemma whole_inject (z : Z) : whole (inject_Z z).
Proof. unfold whole. now rewrite round_half_even_int. Qed.

Lemma generated_labels_plain {conv : template_io.PyStr} (prefix : string)
    (columns : list Z) :
  (forall c, In c (list_ascii_of_string prefix) -> template_io.is_letter c = true) ->
  plain_labels (map (fun col => prefix ++ str_int (col + 1))%string columns).
Proof.
  intros Hp label Hl. apply in_map_iff in Hl. destruct Hl as [col [<- _]].
  now apply numbered_label_dotless.
Qed.

Lemma rendered_labels {fl : id_sheet_generator.PyFloat} {conv : template_io.PyStr}
    (params : id_sheet_generator.IdSheetParams) (base : Z * Z) :
  plain_labels (id_sheet_generator.labels
                  (id_sheet_generator.render_sheet_image params base)) /\
  plain_labels (id_sheet_generator.class_labels
                  (id_sheet_generator.render_sheet_image params base)).
Proof.
  unfold id_sheet_generator.render_sheet_image.
  destruct (id_sheet_generator.marker_size params base) as [mw mh].
  destruct (id_sheet_generator.region_origin params base) as [rx ry].
  cbn [id_sheet_generator.labels id_sheet_generator.class_labels].
  split; apply generated_labels_plain; intros c Hc; cbn in Hc;
    repeat (destruct Hc as [<-|Hc]; [reflexivity|]); destruct Hc.
Qed.

(** X19. The template that [generate_id_sheet] saves is read back by
    [load_template] exactly as it was built, whatever the parameters of the
    sheet. *)
Theorem generated_template_round_trip {fl : id_sheet_generator.PyFloat}
    {conv : template_io.PyStr} (params : id_sheet_generator.IdSheetParams) (base : Z * Z) :
  template_io.load_template
    (template_io.save_template (id_sheet_generator.generated_template params base))
  = Some (id_sheet_generator.generated_template params base).
Proof.
  apply kept_load_save.
  destruct (rendered_labels params base) as [Hsid Hclass].
  unfold id_sheet_generator.generated_template, kept_template.
  cbn [template_model.field_blocks template_model.custom_labels].
  set (r := id_sheet_generator.render_sheet_image params base) in *.
  destruct (id_sheet_generator.class_labels r) as [|l ls] eqn:Hcl.
  - repeat split.
    + constructor; [intros []|constructor].
    + constructor; [|constructor]. repeat split; [now left|exact Hsid| |]; apply whole_inject.
    + constructor; [intros []|constructor].
    + constructor; [exact Hsid|constructor].
  - repeat split.
    + constructor; [intros [H|[]]; discriminate|]. constructor; [intros []|constructor].
    + constructor; [|constructor; [|constructor]].
      * repeat split; [now left|exact Hsid| |]; apply whole_inject.
      * repeat split; [now left|exact Hclass| |apply whole_inject].
        cbn [template_model.origin_x]. unfold whole.
        match goal with |- ?q = _ =>
          change q with (inject_Z (Qnum q)) end.
        now rewrite round_half_even_int.
    + constructor; [intros [H|[]]; discriminate|]. constructor; [intros []|constructor].
    + constructor; [exact Hsid|]. constructor; [exact Hclass|constructor].
Qed.

(** ** Labels given as a range *)

Lemma digit_not_letter (c : ascii) :
  template_io.is_digit c = true -> template_io.is_letter c = false.
Proof.
  destruct c as [[] [] [] [] [] [] [] []]; intro H; try discriminate H; reflexivity.
Qed.

Lemma forallb_chars (p : ascii -> bool) (s : string) :
  forallb p (list_ascii_of_string s) = true ->
  forall c, In c (list_ascii_of_string s) -> p c = true.
Proof. intro H. now apply forallb_forall. Qed.

Lemma nonempty_eqb (s : string) : s <> "" -> (s =? "")%string = false.
Proof. intro H. now apply String.eqb_neq. Qed.

Lemma letter_is_ascii (c : ascii) :
  template_io.is_letter c = true -> (nat_of_ascii c <? 128)%nat = true.
Proof.
  destruct c as [[] [] [] [] [] [] [] []]; intro H; try discriminate H; reflexivity.
Qed.

(** A run of decimal digits does not start with a letter. *)
Lemma digits_head {conv : template_io.PyStr} (s a b : string) :
  template_io.digits s = (a, b) -> a <> "" ->
  match s with String c _ => template_io.is_letter c = false | EmptyString => True end.
Proof.
  destruct s as [|c s]; [trivial|].
  unfold template_io.digits. cbn [String.length template_io.digit_run].
  intros H Ha.
  destruct (template_io.is_digit c) eqn:Hd; [now apply digit_not_letter|].
  destruct (nat_of_ascii c <? 128)%nat eqn:Hc.
  - inversion H; subst. now elim Ha.
  - destruct (template_io.is_letter c) eqn:Hl; [|reflexivity].
    apply letter_is_ascii in Hl. congruence.
Qed.

Lemma match_range_spec {conv : template_io.PyStr} (prefix start end_ rest : string) :
  prefix <> "" -> forallb template_io.is_letter (list_ascii_of_string prefix) = true ->
  start <> "" ->
  template_io.digits (start ++ ".." ++ end_ ++ rest) = (start, (".." ++ end_ ++ rest)%string) ->
  end_ <> "" ->
  template_io.digits (end_ ++ rest) = (end_, rest) ->
  template_io.match_range (prefix ++ start ++ ".." ++ end_ ++ rest)
  = Some (prefix, start, end_).
Proof.
  intros Hp Hpl Hs Hsd He Hed. unfold template_io.match_range.
  rewrite (span_spec template_io.is_letter prefix); [|now apply forallb_chars|].
  2:{ exact (digits_head _ _ _ Hsd Hs). }
  rewrite Hsd. cbn [String.append]. rewrite Hed.
  now rewrite !nonempty_eqb.
Qed.

(** On ASCII text the digits are the ten of ASCII, whatever the
    interpreter knows of the other scripts. *)
Lemma digit_run_ascii {conv : template_io.PyStr} (a b : string) (fuel : nat) :
  forallb template_io.is_digit (list_ascii_of_string a) = true ->
  match b with
  | String c _ => template_io.is_digit c = false /\ (nat_of_ascii c <? 128)%nat = true
  | EmptyString => True
  end ->
  (String.length a < fuel)%nat ->
  template_io.digit_run fuel (a ++ b) = String.length a.
Proof.
  revert fuel. induction a as [|c a IH]; intros fuel Ha Hb Hfuel.
  - cbn [String.append String.length]. destruct fuel as [|fuel]; [reflexivity|].
    destruct b as [|c b]; [reflexivity|]. cbn [template_io.digit_run].
    destruct Hb as [Hd Hc]. now rewrite Hd, Hc.
  - cbn [String.append String.length] in *. destruct fuel as [|fuel]; [lia|].
    cbn [list_ascii_of_string forallb] in Ha. apply andb_true_iff in Ha.
    destruct Ha as [Hc Ha]. cbn [template_io.digit_run]. rewrite Hc.
    f_equal. apply IH; [exact Ha|exact Hb|lia].
Qed.

Lemma take_app (a b : string) : template_io.take (String.length a) (a ++ b) = a.
Proof.
  induction a as [|c a IH]; [now destruct b|].
  cbn [String.length String.append template_io.take]. now rewrite IH.
Qed.

Lemma skip_app (a b : string) : template_io.skip (String.length a) (a ++ b) = b.
Proof.
  induction a as [|c a IH]; [now destruct b|].
  cbn [String.length String.append template_io.skip]. exact IH.
Qed.

Lemma length_append (a b : string) :
  String.length (a ++ b) = (String.length a + String.length b)%nat.
Proof. induction a as [|c a IH]; [reflexivity|]. cbn. now rewrite IH. Qed.

Lemma append_nil (a : string) : (a ++ "")%string = a.
Proof. induction a as [|c a IH]; [reflexivity|]. cbn. now rewrite IH. Qed.

Lemma digit_run_all {conv : template_io.PyStr} (a : string) :
  forallb template_io.is_digit (list_ascii_of_string a) = true ->
  template_io.digit_run (String.length a) a = String.length a.
Proof.
  induction a as [|c a IH]; intro Ha; [reflexivity|].
  cbn [list_ascii_of_string forallb] in Ha. apply andb_true_iff in Ha.
  destruct Ha as [Hc Ha]. cbn [String.length template_io.digit_run]. rewrite Hc.
  f_equal. now apply IH.
Qed.

Lemma digits_ascii {conv : template_io.PyStr} (a b : string) :
  forallb template_io.is_digit (list_ascii_of_string a) = true ->
  match b with
  | String c _ => template_io.is_digit c = false /\ (nat_of_ascii c <? 128)%nat = true
  | EmptyString => True
  end ->
  template_io.digits (a ++ b) = (a, b).
Proof.
  intros Ha Hb. unfold template_io.digits.
  destruct b as [|c b].
  - rewrite append_nil, (digit_run_all a Ha).
    pose proof (take_app a "") as Ht. pose proof (skip_app a "") as Hk.
    rewrite append_nil in Ht, Hk. now rewrite Ht, Hk.
  - rewrite digit_run_ascii; [|exact Ha|exact Hb|].
    + now rewrite take_app, skip_app.
    + rewrite length_append. cbn [String.length]. lia.
Qed.

Lemma range3_up (a b : Z) :
  a <= b ->
  template_io.range3 a (b + 1) 1 = map (fun i => a + i) (range (Z.to_nat (b - a + 1))).
Proof.
  intro H. unfold template_io.range3, arange_len. cbn [Z.ltb Z.compare].
  rewrite Z.div_1_r. replace (b + 1 - a + 1 - 1) with (b - a + 1) by lia.
  apply map_ext. intro i. lia.
Qed.

Lemma range3_down (a b : Z) :
  b < a ->
  template_io.range3 a (b + -1) (-1) = map (fun i => a - i) (range (Z.to_nat (a - b + 1))).
Proof.
  intro H. unfold template_io.range3, arange_len. cbn [Z.ltb Z.compare Z.opp].
  rewrite Z.div_1_r. replace (a - (b + -1) + 1 - 1) with (a - b + 1) by lia.
  apply map_ext. intro i. lia.
Qed.

(** X20. A label made of letters or underscores, a number, two dots and a
    number stands for the labels from the first number to the second,
    upwards or downwards, both ends included; what follows the second number
    is dropped.  A number is a run of decimal digits as [\d] has them, those
    of ASCII and those of the other scripts, as long as it can be: the first
    one ends at the two dots, the second one where [rest] begins. *)
Theorem expand_labels_range {conv : template_io.PyStr}
    (prefix start end_ rest : string) (a b : Z) :
  prefix <> "" -> forallb template_io.is_letter (list_ascii_of_string prefix) = true ->
  start <> "" ->
  template_io.digits (start ++ ".." ++ end_ ++ rest) = (start, (".." ++ end_ ++ rest)%string) ->
  end_ <> "" ->
  template_io.digits (end_ ++ rest) = (end_, rest) ->
  template_io.int_of_str start = Some a ->
  template_io.int_of_str end_ = Some b ->
  template_io._expand_labels (JList [JStr (prefix ++ start ++ ".." ++ end_ ++ rest)])
  = Some (map (fun i => String.append prefix (str_int (if a <=? b then a + i else a - i)))
              (range (Z.to_nat (Z.abs (b - a) + 1)))).
Proof.
  intros Hp Hpl Hs Hsd He Hed Ha Hb.
  unfold template_io._expand_labels.
  cbn [template_io.elements template_io.and_then template_io.expand_all].
  unfold template_io.expand_label.
  rewrite match_range_spec by assumption. rewrite Ha, Hb.
  cbn [template_io.and_then]. rewrite app_nil_r. f_equal.
  destruct (Z.leb_spec a b) as [Hle|Hlt].
  - rewrite range3_up by exact Hle. rewrite map_map.
    now replace (Z.abs (b - a) + 1) with (b - a + 1) by lia.
  - rewrite range3_down by exact Hlt. rewrite map_map.
    now replace (Z.abs (b - a) + 1) with (a - b + 1) by lia.
Qed.

Lemma expand_labels_range_witness :
  @template_io._expand_labels plain_numerals (JList [JStr ("q" ++ "12" ++ ".." ++ "9" ++ "a")])
  = Some (map (fun i => String.append "q" (str_int (if 12 <=? 9 then 12 + i else 12 - i)))
              (range (Z.to_nat (Z.abs (9 - 12) + 1)))).
Proof.
  apply (@expand_labels_range plain_numerals "q" "12" "9" "a" 12 9);
    try discriminate; reflexivity.
Defined.

(** With numbers written in the digits of ASCII the runs are those of
    ASCII digits, for every interpreter. *)
Lemma match_range_ascii {conv : template_io.PyStr} :
  template_io.match_range "q12..9a" = Some ("q", "12", "9") /\
  template_io.match_range "q12.9" = None /\
  template_io.match_range "12..9" = None.
Proof. repeat split. Qed.

(** * The bubbles of a generated sheet *)

Section Grid.
Context {fl : id_sheet_generator.PyFloat}.
Variable params : id_sheet_generator.IdSheetParams.
Variable base : Z * Z.

Lemma rendered_ellipses_form :
  id_sheet_generator.ellipses (id_sheet_generator.render_sheet_image params base)
  = flat_map (fun col =>
                id_sheet_generator.column_bubbles params
                  (id_sheet_generator.label_start_x
                     (id_sheet_generator.render_sheet_image params base)
                   + col * id_sheet_generator.labels_gap params)
                  (id_sheet_generator.label_start_y
                     (id_sheet_generator.render_sheet_image params base)))
             (range (Z.to_nat (id_sheet_generator.num_digits params)))
    ++ flat_map (fun col =>
                   id_sheet_generator.column_bubbles params
                     (id_sheet_generator.label_start_x
                        (id_sheet_generator.render_sheet_image params base)
                      + id_sheet_generator.num_digits params
                        * id_sheet_generator.labels_gap params
                      + id_sheet_generator.labels_gap params
                      + col * id_sheet_generator.labels_gap params)
                     (id_sheet_generator.label_start_y
                        (id_sheet_generator.render_sheet_image params base)))
                (if id_sheet_generator.include_class params
                    && (0 <? id_sheet_generator.class_digits params)
                 then range (Z.to_nat (id_sheet_generator.class_digits params)) else []).
Proof.
  unfold id_sheet_generator.render_sheet_image.
  destruct (id_sheet_generator.marker_size params base) as [mw mh].
  now destruct (id_sheet_generator.region_origin params base).
Qed.

Lemma rendered_labels_form :
  id_sheet_generator.labels (id_sheet_generator.render_sheet_image params base)
  = map (fun col => "sid" ++ str_int (col + 1))%string
        (range (Z.to_nat (id_sheet_generator.num_digits params))) /\
  id_sheet_generator.class_labels (id_sheet_generator.render_sheet_image params base)
  = map (fun col => "class" ++ str_int (col + 1))%string
        (if id_sheet_generator.include_class params
            && (0 <? id_sheet_generator.class_digits params)
         then range (Z.to_nat (id_sheet_generator.class_digits params)) else []).
Proof.
  unfold id_sheet_generator.render_sheet_image.
  destruct (id_sheet_generator.marker_size params base) as [mw mh].
  now destruct (id_sheet_generator.region_origin params base).
Qed.

Lemma column_bubbles_length (column_x label_start_y : Z) :
  length (id_sheet_generator.column_bubbles params column_x label_start_y) = 10%nat.
Proof. reflexivity. Qed.

Lemma range_length (n : nat) : length (range n) = n.
Proof. unfold range. now rewrite length_map, length_seq. Qed.

Lemma column_bubbles_at (column_x label_start_y digit : Z) :
  0 <= digit < 10 ->
  In (column_x - id_sheet_generator.bubble_radius params,
      label_start_y + digit * id_sheet_generator.bubbles_gap params
      - id_sheet_generator.bubble_radius params,
      column_x + id_sheet_generator.bubble_radius params,
      label_start_y + digit * id_sheet_generator.bubbles_gap params
      + id_sheet_generator.bubble_radius params)
     (id_sheet_generator.column_bubbles params column_x label_start_y).
Proof.
  intro H. unfold id_sheet_generator.column_bubbles. apply in_map_iff.
  exists digit. split; [reflexivity|]. apply in_range. lia.
Qed.


Lemma generated_blocks :
  template_model.field_blocks (id_sheet_generator.generated_template params base)
  = {| template_model.id := "StudentID";
       template_model.field_type := "INT";
       template_model.labels :=
         id_sheet_generator.labels (id_sheet_generator.render_sheet_image params base);
       template_model.origin_x :=
         inject_Z (fst (id_sheet_generator.marker_size params base) / 2
                   + id_sheet_generator.gap params
                   + id_sheet_generator.bubble_radius params);
       template_model.origin_y :=
         inject_Z (snd (id_sheet_generator.marker_size params base) / 2
                   + id_sheet_generator.gap params
                   + id_sheet_generator.bubble_radius params);
       template_model.labels_gap := inject_Z (id_sheet_generator.labels_gap params);
       template_model.bubbles_gap := inject_Z (id_sheet_generator.bubbles_gap params) |}
    :: match id_sheet_generator.class_labels
               (id_sheet_generator.render_sheet_image params base) with
       | [] => []
       | _ :: _ =>
           [{| template_model.id := "Class";
               template_model.field_type := "INT";
               template_model.labels :=
                 id_sheet_generator.class_labels
                   (id_sheet_generator.render_sheet_image params base);
               template_model.origin_x :=
                 (inject_Z (fst (id_sheet_generator.marker_size params base) / 2
                            + id_sheet_generator.gap params
                            + id_sheet_generator.bubble_radius params)
                  + inject_Z (id_sheet_generator.num_digits params
                              * id_sheet_generator.labels_gap params)
                  + inject_Z (id_sheet_generator.labels_gap params))%Q;
               template_model.origin_y :=
                 inject_Z (snd (id_sheet_generator.marker_size params base) / 2
                           + id_sheet_generator.gap params
                           + id_sheet_generator.bubble_radius params);
               template_model.labels_gap := inject_Z (id_sheet_generator.labels_gap params);
               template_model.bubbles_gap :=
                 inject_Z (id_sheet_generator.bubbles_gap params) |}]
       end.
Proof.
  unfold id_sheet_generator.generated_template.
  cbn [template_model.field_blocks].
  rewrite <- rendered_marker_size. cbn [fst snd].
  now destruct (id_sheet_generator.class_labels _).
Qed.

End Grid.

(** X21. Every bubble that the template of a generated sheet describes is drawn
    on the sheet, and no other: the sheet shows ten bubbles for each label
    of each block, and the bubble of the label at index [col] for the digit
    [digit] has its centre at the block's origin plus [col] label gaps and
    [digit] bubble gaps, measured from the centre of the top-left marker;
    its diameter is the template's bubble size. *)
Theorem bubbles_on_template_grid {fl : id_sheet_generator.PyFloat}
    (params : id_sheet_generator.IdSheetParams) (base : Z * Z) :
  0 < id_sheet_generator.total_columns params ->
  exists tl rest,
    let r := id_sheet_generator.render_sheet_image params base in
    let t := id_sheet_generator.generated_template params base in
    let radius := id_sheet_generator.bubble_radius params in
    let centre :=
      centre_of (id_sheet_generator.marker_w r) (id_sheet_generator.marker_h r)
                (0%Q, fst tl, snd tl) in
    id_sheet_generator.pasted r = tl :: rest /\
    template_model.bubble_dimensions t = Some (radius * 2, radius * 2) /\
    length (id_sheet_generator.ellipses r)
    = (10 * list_sum (map (fun b => length (template_model.labels b))
                          (template_model.field_blocks t)))%nat /\
    forall b col digit,
      In b (template_model.field_blocks t) ->
      (col < length (template_model.labels b))%nat -> (digit < 10)%nat ->
      exists cx cy,
        In (cx - radius, cy - radius, cx + radius, cy + radius)
           (id_sheet_generator.ellipses r) /\
        (inject_Z cx - fst centre
         == template_model.origin_x b
            + inject_Z (Z.of_nat col) * template_model.labels_gap b)%Q /\
        (inject_Z cy - snd centre
         == template_model.origin_y b
            + inject_Z (Z.of_nat digit) * template_model.bubbles_gap b)%Q.
Proof.
  intro Hcols.
  pose proof (rendered_pasted params base) as Hpasted.
  apply Z.ltb_lt in Hcols. rewrite Hcols in Hpasted.
  destruct (rendered_label_start params base) as [Hlx Hly].
  pose proof (rendered_marker_size params base) as Hsize.
  destruct (rendered_labels_form params base) as [Hlabels Hclass].
  pose proof (rendered_ellipses_form params base) as Hell.
  pose proof (generated_blocks params base) as Hblocks.
  destruct (marker_size_halves params base) as [Hew Heh].
  destruct (id_sheet_generator.marker_size params base) as [mw mh].
  inversion Hsize as [[Hmw Hmh]]. cbn [fst snd] in *.
  eexists. eexists. cbv zeta. split; [exact Hpasted|]. split; [reflexivity|].
  rewrite Hblocks, Hell, Hmw, Hmh, Hlx, Hly. clear Hblocks Hell Hpasted.
  set (classes := if id_sheet_generator.include_class params
                     && (0 <? id_sheet_generator.class_digits params)
                  then range (Z.to_nat (id_sheet_generator.class_digits params))
                  else []) in *.
  set (rx := fst (id_sheet_generator.region_origin params base)) in *.
  set (ry := snd (id_sheet_generator.region_origin params base)) in *.
  set (radius := id_sheet_generator.bubble_radius params) in *.
  set (lg := id_sheet_generator.labels_gap params) in *.
  set (bg := id_sheet_generator.bubbles_gap params) in *.
  set (nd := id_sheet_generator.num_digits params) in *.
  set (gap := id_sheet_generator.gap params) in *.
  split.
  - rewrite length_app.
    rewrite !(@flat_map_constant_length _ _ 10%nat)
      by (intros; apply column_bubbles_length).
    rewrite Hlabels, Hclass. rewrite range_length.
    destruct classes as [|c classes];
      cbn [map list_sum length template_model.labels fold_right];
      rewrite ?length_map, ?range_length; cbn [length]; lia.
  - intros b col digit Hb Hcol Hdigit.
    assert (Hq : forall cx cy ox oy : Z,
               cx = rx + radius + ox -> cy = ry + radius + oy ->
               (inject_Z cx - (inject_Z (rx - gap - mw) + inject_Z mw / 2)
                == inject_Z (mw / 2 + gap + radius) + inject_Z ox)%Q /\
               (inject_Z cy - (inject_Z (ry - gap - mh) + inject_Z mh / 2)
                == inject_Z (mh / 2 + gap + radius) + inject_Z oy)%Q).
    { intros cx cy ox oy -> ->. unfold Z.sub.
      repeat rewrite ?inject_Z_plus, ?inject_Z_opp. rewrite Hew, Heh. split; field. }
    cbn [fst snd centre_of].
    destruct Hb as [<-|Hb].
    + cbn [template_model.labels template_model.origin_x template_model.origin_y
           template_model.labels_gap template_model.bubbles_gap] in *.
      rewrite Hlabels, length_map, range_length in Hcol.
      exists (rx + radius + Z.of_nat col * lg), (ry + radius + Z.of_nat digit * bg).
      split.
      * apply in_or_app. left. apply in_flat_map. exists (Z.of_nat col).
        split; [apply in_range; lia|]. apply column_bubbles_at. lia.
      * rewrite <- !inject_Z_mult. now apply Hq.
    + destruct (id_sheet_generator.class_labels _) as [|l ls] eqn:Hcl; [destruct Hb|].
      destruct Hb as [<-|[]].
      cbn [template_model.labels template_model.origin_x template_model.origin_y
           template_model.labels_gap template_model.bubbles_gap] in *.
      rewrite Hclass, length_map in Hcol.
      exists (rx + radius + (nd * lg + lg + Z.of_nat col * lg)),
             (ry + radius + Z.of_nat digit * bg).
      split.
      * apply in_or_app. right. apply in_flat_map. exists (Z.of_nat col).
        split.
        -- subst classes.
           destruct (id_sheet_generator.include_class params && _);
             [|cbn [length] in Hcol; lia].
           rewrite range_length in Hcol. apply in_range. lia.
        -- replace (rx + radius + (nd * lg + lg + Z.of_nat col * lg))
             with (rx + radius + nd * lg + lg + Z.of_nat col * lg) by lia.
           apply column_bubbles_at. lia.
      * rewrite <- !inject_Z_mult.
        destruct (Hq (rx + radius + (nd * lg + lg + Z.of_nat col * lg))
                     (ry + radius + Z.of_nat digit * bg)
                     (nd * lg + lg + Z.of_nat col * lg) (Z.of_nat digit * bg)
                     eq_refl eq_refl) as [Hx Hy].
        split; [|exact Hy]. rewrite Hx.
        repeat rewrite ?inject_Z_plus. ring.
Qed.

Lemma bubbles_on_template_grid_witness :
  exists tl rest,
    let r := @id_sheet_generator.render_sheet_image exact_rounding sample_params
               sample_base in
    let t := @id_sheet_generator.generated_template exact_rounding sample_params
               sample_base in
    let radius := id_sheet_generator.bubble_radius sample_params in
    let centre :=
      centre_of (id_sheet_generator.marker_w r) (id_sheet_generator.marker_h r)
                (0%Q, fst tl, snd tl) in
    id_sheet_generator.pasted r = tl :: rest /\
    template_model.bubble_dimensions t = Some (radius * 2, radius * 2) /\
    length (id_sheet_generator.ellipses r)
    = (10 * list_sum (map (fun b => length (template_model.labels b))
                          (template_model.field_blocks t)))%nat /\
    forall b col digit,
      In b (template_model.field_blocks t) ->
      (col < length (template_model.labels b))%nat -> (digit < 10)%nat ->
      exists cx cy,
        In (cx - radius, cy - radius, cx + radius, cy + radius)
           (id_sheet_generator.ellipses r) /\
        (inject_Z cx - fst centre
         == template_model.origin_x b
            + inject_Z (Z.of_nat col) * template_model.labels_gap b)%Q /\
        (inject_Z cy - snd centre
         == template_model.origin_y b
            + inject_Z (Z.of_nat digit) * template_model.bubbles_gap b)%Q.
Proof.
  apply (@bubbles_on_template_grid exact_rounding sample_params sample_base).
  vm_compute. reflexivity.
Defined.
